(** * Ventilator waveform simulator: waveform generator, sample buffers,
      tick scheduler.

    Shallow embedding of [VentilatorSimulator] as found in [sm3.py] and
    [prog2-0.py].  Python floats are idealised as real numbers; Python
    exceptions are explicit outcomes that keep the state mutated so far.
    Widgets that only display text (labels, buttons, control panels) are
    left out; the timer and the three plot widgets are part of the state. *)

From Stdlib Require Import Reals Lra Lia ZArith List Bool String Sorted
  DecimalString.
Import ListNotations.
Local Open Scope R_scope.

(** ** Outcomes of Python code *)

Inductive exn : Set :=
| ZeroDivisionError   (* float division or modulo by zero *)
| AttributeError      (* attribute missing on the object *)
| IndexError          (* boolean mask of the wrong length *)
| UnboundLocalError   (* local variable read before any assignment *)
| NotFinite.          (* numpy division by zero: inf/nan, no real value *)

Inductive result (A : Type) : Type :=
| Ok (a : A)
| Raise (e : exn).
Arguments Ok {A} a.
Arguments Raise {A} e.

Definition rbind {A B : Type} (r : result A) (k : A -> result B) : result B :=
  match r with
  | Ok a => k a
  | Raise e => Raise e
  end.

Declare Scope py_scope.
Delimit Scope py_scope with py.
Notation "x <- c ;; k" := (rbind c (fun x => k))
  (at level 61, c at next level, right associativity) : py_scope.
Local Open Scope py_scope.

(** ** Python and numpy primitives *)

Module Py.

Definition ltb (a b : R) : bool := if Rlt_dec a b then true else false.
Definition leb (a b : R) : bool := if Rle_dec a b then true else false.
Definition gtb (a b : R) : bool := ltb b a.
Definition geb (a b : R) : bool := leb b a.

(** [a / b] on Python numbers. *)
Definition div (a b : R) : result R :=
  if Req_dec_T b 0 then Raise ZeroDivisionError else Ok (a / b).

(** [a / b] where [a] is a numpy scalar: no exception on a zero divisor. *)
Definition np_div (a b : R) : result R :=
  if Req_dec_T b 0 then Raise NotFinite else Ok (a / b).

(** [a % b] on Python floats: the result has the sign of the divisor. *)
Definition mod_ (a b : R) : result R :=
  if Req_dec_T b 0 then Raise ZeroDivisionError
  else Ok (a - b * IZR (Int_part (a / b))).

(** [int(x)]: truncation toward zero. *)
Definition int (x : R) : Z :=
  if Rle_dec 0 x then Int_part x else (- Int_part (- x))%Z.

(** [round(x, 1)]: nearest multiple of one tenth, ties to even. *)
Definition round1 (x : R) : R :=
  let y := 10 * x in
  let f := Int_part y in
  let d := frac_part y in
  if Rlt_dec d (1 / 2) then IZR f / 10
  else if Rlt_dec (1 / 2) d then IZR (f + 1) / 10
  else if Z.even f then IZR f / 10 else IZR (f + 1) / 10.

(** [l[i:]] with Python's treatment of negative and large indices. *)
Definition slice_from {A : Type} (i : Z) (l : list A) : list A :=
  let len := Z.of_nat (List.length l) in
  let start := if (i <? 0)%Z then Z.max 0 (len + i) else Z.min i len in
  skipn (Z.to_nat start) l.

(** [l[-1]] with a default for the empty list. *)
Definition last_or {A : Type} (l : list A) (d : A) : A := last l d.

(** [data[mask]] for a boolean numpy mask of the same length. *)
Fixpoint select {A : Type} (data : list A) (mask : list bool)
  : result (list A) :=
  match data, mask with
  | [], [] => Ok []
  | x :: data', b :: mask' =>
      r <- select data' mask' ;;
      Ok (if b then x :: r else r)
  | _, _ => Raise IndexError
  end.

End Py.

(** ** The simulator object *)

(** The two files of the repository share everything below except the
    inspiratory branch of the volume-controlled waveform; [sm3.py] alone
    defines [reset_buffers], [calcular_flujo_insp] and
    [set_ventilation_mode]. *)
Inductive source_file : Set := Sm3 | Prog2_0.

(** Ventilator parameters held as instance fields. *)
Record settings : Type := {
  resp_rate : R;
  tidal_volume : R;
  peep : R;
  peak_pressure : R;
  ie_ratio : R;
  ventilation_mode : string;
  pressure_support : R;
  plateau_time : R;
  resistance : R;
  compliance : R
}.

(** [QTimer]: the fields the code drives, and the calls it received. *)
Inductive timer_call : Set := Stop | Start (msec : Z).

Record QTimer : Type := {
  active : bool;
  interval : Z;
  calls : list timer_call
}.

(** A plot widget: the curve handed to [setData] and the X range. *)
Record plot : Type := {
  curve : list R * list R;
  x_range : R * R
}.

Record session : Type := {
  cfg : settings;
  time_index : R;
  start_time : option Z;     (* QTime, in ms since midnight *)
  max_cycles : Z;
  points_per_cycle : Z;
  current_point : Z;
  time_data : list R;
  pressure_data : list R;
  flow_data : list R;
  volume_data : list R;
  timer : option QTimer;     (* None: attribute not yet created *)
  pressure_graph : plot;
  flow_graph : plot;
  volume_graph : plot
}.

(** The tuple returned by [generate_next_point]. *)
Record point : Type := {
  pt_time : R;
  pt_pressure : R;
  pt_flow : R;
  pt_volume : R
}.

(** ** Waveform generator *)

(** [calcular_flujo_insp] (sm3.py). *)
Definition calcular_flujo_insp (ti ti_total : R) : result R :=
  let flujo_inicial := 38.0 in
  let flujo_final := 9.0 in
  k <- Py.np_div (- ln (flujo_final / flujo_inicial)) ti_total ;;
  Ok (flujo_inicial * exp (- k * ti)).

(** The first three assignments of [generate_next_point]:
    [total_time], [insp_time] and [exp_time]. *)
Definition cycle_timing (c : settings) : result (R * R * R) :=
  total_time <- Py.div 60 (Rmax 1 (resp_rate c)) ;;
  inv_ie <- Py.div 1 (ie_ratio c) ;;
  insp_frac <- Py.div 1 (1 + inv_ie) ;;
  let insp_time := total_time * insp_frac in
  exp_frac <- Py.div 1 (1 + ie_ratio c) ;;
  let exp_time := total_time * exp_frac in
  Ok (total_time, insp_time, exp_time).

(** [generate_next_point]; [self.time_index] is passed as an argument. *)
Definition generate_next_point (src : source_file) (c : settings)
    (time_index : R) : result point :=
  timing <- cycle_timing c ;;
  let '(total_time, insp_time, exp_time) := timing in
  let esp_time := total_time - insp_time in
  m <- Py.mod_ time_index total_time ;;
  cycle_progress <- Py.div m total_time ;;
  current_time_in_cycle <- Py.mod_ time_index total_time ;;
  if String.eqb (ventilation_mode c) "VC-CMV" then
    if Py.ltb (cycle_progress * total_time) insp_time then
      (* inspiratory phase *)
      x <- Py.div (cycle_progress * total_time) insp_time ;;
      match src with
      | Sm3 =>
          let ti_trasncurrido := current_time_in_cycle in
          flow <- calcular_flujo_insp ti_trasncurrido insp_time ;;
          let volume := tidal_volume c * 0.5 * (1 - cos (PI * x)) in
          pressure <-
            (if Py.ltb current_time_in_cycle insp_time then
               x <- Py.div current_time_in_cycle insp_time ;;
               Ok (peep c + (peak_pressure c - peep c) * (1 - exp (- 2 * x)))
             else Ok (peep c)) ;;
          Ok {| pt_time := time_index; pt_pressure := pressure;
                pt_flow := flow; pt_volume := volume |}
      | Prog2_0 =>
          let flow := 30 * (tidal_volume c / 500) in
          r <- Py.div current_time_in_cycle insp_time ;;
          let volume := tidal_volume c * r in
          let pressure :=
            peep c + (peak_pressure c - peep c) * (1 - exp (- 4 * x)) in
          Ok {| pt_time := time_index; pt_pressure := pressure;
                pt_flow := flow; pt_volume := volume |}
      end
    else
      (* expiratory phase *)
      x <- Py.div (cycle_progress * total_time - insp_time) exp_time ;;
      let flow := - 50 * exp (- 7 * x) in
      pressure <-
        (if Py.gtb (peep c) 1 then Ok (peep c)
         else if Py.leb (peep c) 1 then Ok (peep c + 0.4)
         else Raise UnboundLocalError) ;;
      let volume := tidal_volume c * exp (- 8 * x) in
      Ok {| pt_time := time_index; pt_pressure := pressure;
            pt_flow := flow; pt_volume := volume |}
  else
    (* pressure-controlled mode *)
    let ramp_time := insp_time * 0.2 in
    let plateau_time := Rmin (plateau_time c) (insp_time * 0.5) in
    let current_time_in_cycle := cycle_progress * total_time in
    pressure <-
      (if Py.ltb current_time_in_cycle ramp_time then
         x <- Py.div current_time_in_cycle ramp_time ;;
         Ok (peep c + pressure_support c * (1 - exp (- 5 * x)))
       else if Py.ltb current_time_in_cycle (ramp_time + plateau_time) then
         Ok (peep c + pressure_support c)
       else if Py.ltb current_time_in_cycle insp_time then
         x <- Py.div (current_time_in_cycle - ramp_time - plateau_time)
                     (insp_time - ramp_time - plateau_time) ;;
         Ok (peep c + pressure_support c * exp (- 8 * x))
       else
         x <- Py.div (current_time_in_cycle - insp_time) exp_time ;;
         Ok (peep c + (peak_pressure c - peep c) * exp (- 5 * x))) ;;
    ps_over_r <- Py.div (pressure_support c) (resistance c) ;;
    let peak_flow := ps_over_r * 60 in
    flow <-
      (if Py.ltb current_time_in_cycle ramp_time then
         x <- Py.div current_time_in_cycle ramp_time ;;
         Ok (peak_flow * (1 - x ^ 2))
       else if Py.ltb current_time_in_cycle (ramp_time + plateau_time) then
         Ok (peak_flow * 0.3)
       else if Py.ltb current_time_in_cycle insp_time then
         Ok (peak_flow * 0.1)
       else
         x <- Py.div (current_time_in_cycle - insp_time) exp_time ;;
         Ok (- peak_flow * 0.7 * exp (- 6 * x))) ;;
    volume <-
      (if Py.ltb current_time_in_cycle insp_time then
         if Py.ltb current_time_in_cycle ramp_time then
           x <- Py.div current_time_in_cycle ramp_time ;;
           Ok (tidal_volume c * 0.5 * (1 - cos (PI * x / 2)))
         else if Py.ltb current_time_in_cycle (ramp_time + plateau_time) then
           x <- Py.div (current_time_in_cycle - ramp_time) plateau_time ;;
           Ok (tidal_volume c * (0.5 + 0.4 * x))
         else
           x <- Py.div (current_time_in_cycle - ramp_time - plateau_time)
                       (insp_time - ramp_time - plateau_time) ;;
           Ok (tidal_volume c * (0.9 + 0.1 * (1 - x)))
       else
         x <- Py.div (current_time_in_cycle - insp_time) exp_time ;;
         Ok (tidal_volume c * exp (- 5 * x))) ;;
    Ok {| pt_time := time_index; pt_pressure := pressure;
          pt_flow := flow; pt_volume := volume |}.

(** ** State updates *)

(** A method either returns or raises; either way the object keeps the
    assignments made so far. *)
Inductive outcome : Type :=
| Done (s : session)
| Failed (e : exn) (s : session).

Definition state_of (o : outcome) : session :=
  match o with Done s => s | Failed _ s => s end.

Definition upd_cfg (s : session) (c : settings) : session :=
  {| cfg := c; time_index := time_index s; start_time := start_time s;
     max_cycles := max_cycles s; points_per_cycle := points_per_cycle s;
     current_point := current_point s;
     time_data := time_data s; pressure_data := pressure_data s;
     flow_data := flow_data s; volume_data := volume_data s;
     timer := timer s; pressure_graph := pressure_graph s;
     flow_graph := flow_graph s; volume_graph := volume_graph s |}.

Definition upd_clock (s : session) (ti : R) (st : option Z) : session :=
  {| cfg := cfg s; time_index := ti; start_time := st;
     max_cycles := max_cycles s; points_per_cycle := points_per_cycle s;
     current_point := current_point s;
     time_data := time_data s; pressure_data := pressure_data s;
     flow_data := flow_data s; volume_data := volume_data s;
     timer := timer s; pressure_graph := pressure_graph s;
     flow_graph := flow_graph s; volume_graph := volume_graph s |}.

Definition upd_buffers (s : session) (td pd fd vd : list R) : session :=
  {| cfg := cfg s; time_index := time_index s; start_time := start_time s;
     max_cycles := max_cycles s; points_per_cycle := points_per_cycle s;
     current_point := current_point s;
     time_data := td; pressure_data := pd;
     flow_data := fd; volume_data := vd;
     timer := timer s; pressure_graph := pressure_graph s;
     flow_graph := flow_graph s; volume_graph := volume_graph s |}.

Definition upd_timer (s : session) (t : option QTimer) : session :=
  {| cfg := cfg s; time_index := time_index s; start_time := start_time s;
     max_cycles := max_cycles s; points_per_cycle := points_per_cycle s;
     current_point := current_point s;
     time_data := time_data s; pressure_data := pressure_data s;
     flow_data := flow_data s; volume_data := volume_data s;
     timer := t; pressure_graph := pressure_graph s;
     flow_graph := flow_graph s; volume_graph := volume_graph s |}.

Definition upd_graphs (s : session) (pg fg vg : plot) : session :=
  {| cfg := cfg s; time_index := time_index s; start_time := start_time s;
     max_cycles := max_cycles s; points_per_cycle := points_per_cycle s;
     current_point := current_point s;
     time_data := time_data s; pressure_data := pressure_data s;
     flow_data := flow_data s; volume_data := volume_data s;
     timer := timer s; pressure_graph := pg;
     flow_graph := fg; volume_graph := vg |}.

(** [curve.setData(x, y)] and [graph.setXRange(lo, hi)]. *)
Definition setData (g : plot) (x y : list R) : plot :=
  {| curve := (x, y); x_range := x_range g |}.

Definition setXRange (g : plot) (lo hi : R) : plot :=
  {| curve := curve g; x_range := (lo, hi) |}.

(** [QTimer.stop()] and [QTimer.start(msec)]. *)
Definition timer_stop (t : QTimer) : QTimer :=
  {| active := false; interval := interval t;
     calls := calls t ++ [Stop] |}.

Definition timer_start (t : QTimer) (msec : Z) : QTimer :=
  {| active := true; interval := msec;
     calls := calls t ++ [Start msec] |}.

Definition new_QTimer : QTimer :=
  {| active := false; interval := 0; calls := [] |}.

(** ** Sample buffers *)

(** [reset_buffers] (sm3.py). *)
Definition reset_buffers (s : session) : session :=
  {| cfg := cfg s; time_index := 0; start_time := None;
     max_cycles := max_cycles s; points_per_cycle := points_per_cycle s;
     current_point := 0;
     time_data := []; pressure_data := [];
     flow_data := []; volume_data := [];
     timer := timer s; pressure_graph := pressure_graph s;
     flow_graph := flow_graph s; volume_graph := volume_graph s |}.

(** Last part of [update_graphs] (after the buffers are trimmed): the
    sliding window handed to the plots. *)
Definition window_size : R := 10.

Definition window_t_max (s : session) : R :=
  if (0 <? Z.of_nat (List.length (time_data s)))%Z
  then Py.last_or (time_data s) 0 else 0.

Definition window_t_min (s : session) : R :=
  Rmax 0 (window_t_max s - window_size).

Definition window_mask (s : session) : list bool :=
  map (fun t => Py.geb t (window_t_min s) && Py.leb t (window_t_max s))
      (time_data s).

Definition render_window (s : session) : outcome :=
  let t_max := window_t_max s in
  let t_min := window_t_min s in
  let mask := window_mask s in
  match Py.select (time_data s) mask, Py.select (pressure_data s) mask with
  | Ok tw, Ok pw =>
    let s1 := upd_graphs s (setData (pressure_graph s) tw pw)
                           (flow_graph s) (volume_graph s) in
    match Py.select (flow_data s) mask with
    | Ok fw =>
      let s2 := upd_graphs s1 (pressure_graph s1)
                  (setData (flow_graph s1) tw fw) (volume_graph s1) in
      match Py.select (volume_data s) mask with
      | Ok vw =>
        let s3 := upd_graphs s2 (pressure_graph s2) (flow_graph s2)
                    (setData (volume_graph s2) tw vw) in
        Done (upd_graphs s3 (setXRange (pressure_graph s3) t_min t_max)
                            (setXRange (flow_graph s3) t_min t_max)
                            (setXRange (volume_graph s3) t_min t_max))
      | Raise e => Failed e s2
      end
    | Raise e => Failed e s1
    end
  | Raise e, _ => Failed e s
  | _, Raise e => Failed e s
  end.

(** [QTime.msecsTo], on times of day in milliseconds since midnight. *)
Definition msecsTo (from to : Z) : Z := (to - from)%Z.

(** [int(self.points_per_cycle * self.max_cycles)], a product of integers. *)
Definition max_points (s : session) : Z :=
  (points_per_cycle s * max_cycles s)%Z.

(** The stages of [update_graphs]: reading the clock, appending the new
    point to the four buffers, keeping the last [max_points] entries. *)
Definition sync_clock (now : Z) (s : session) : session :=
  let '(elapsed, s1) :=
    match start_time s with
    | None => (0.0, upd_clock s (time_index s) (Some now))
    | Some st => (IZR (msecsTo st now) / 1000.0, s)
    end in
  upd_clock s1 elapsed (start_time s1).

Definition append_point (p : point) (s : session) : session :=
  upd_buffers s (time_data s ++ [pt_time p])
                (pressure_data s ++ [pt_pressure p])
                (flow_data s ++ [pt_flow p])
                (volume_data s ++ [pt_volume p]).

Definition trim_buffers (s : session) : session :=
  let max_points := max_points s in
  if (Z.of_nat (List.length (time_data s)) >? max_points)%Z then
    upd_buffers s (Py.slice_from (- max_points) (time_data s))
                  (Py.slice_from (- max_points) (pressure_data s))
                  (Py.slice_from (- max_points) (flow_data s))
                  (Py.slice_from (- max_points) (volume_data s))
  else s.

(** [update_graphs], called on every timer tick; [now] is the reading of
    [QTime.currentTime()]. *)
Definition update_graphs (src : source_file) (now : Z) (s : session)
  : outcome :=
  let s2 := sync_clock now s in
  match generate_next_point src (cfg s2) (time_index s2) with
  | Raise e => Failed e s2
  | Ok p =>
    let s3 := append_point p s2 in
    match Py.div 60 (Rmax 1 (resp_rate (cfg s3))) with
    | Raise e => Failed e s3
    | Ok total_time => render_window (trim_buffers s3)
    end
  end.

(** A run of timer ticks, one clock reading per tick; it stops at the
    first exception. *)
Fixpoint run_ticks (src : source_file) (nows : list Z) (s : session)
  : outcome :=
  match nows with
  | [] => Done s
  | now :: rest =>
      match update_graphs src now s with
      | Done s' => run_ticks src rest s'
      | Failed e s' => Failed e s'
      end
  end.

(** ** Tick scheduler *)

(** [update_animation_speed]. *)
Definition update_animation_speed (s : session) : outcome :=
  let s1 :=
    match timer s with
    | Some t => upd_timer s (Some (timer_stop t))
    | None => s
    end in
  let min_interval := 10%Z in
  let max_interval := 100%Z in
  match Py.div 1000 (resp_rate (cfg s1)) with
  | Raise e => Failed e s1
  | Ok q =>
    let interval := Z.max min_interval (Z.min max_interval (Py.int q)) in
    match timer s1 with
    | None => Failed AttributeError s1
    | Some t => Done (upd_timer s1 (Some (timer_start t interval)))
    end
  end.

(** [start_simulation]. *)
Definition start_simulation (s : session) : outcome :=
  update_animation_speed (upd_timer s (Some new_QTimer)).

(** ** Parameter setters *)

(** [set_ventilation_mode] (sm3.py). *)
Definition set_ventilation_mode (mode : string) (s : session) : session :=
  let c := cfg s in
  reset_buffers
    (upd_cfg s
       {| resp_rate := resp_rate c; tidal_volume := tidal_volume c;
          peep := peep c; peak_pressure := peak_pressure c;
          ie_ratio := ie_ratio c; ventilation_mode := mode;
          pressure_support := pressure_support c;
          plateau_time := plateau_time c; resistance := resistance c;
          compliance := compliance c |}).

Definition set_resp_rate (value : R) (s : session) : outcome :=
  let c := cfg s in
  update_animation_speed
    (upd_cfg s
       {| resp_rate := value; tidal_volume := tidal_volume c;
          peep := peep c; peak_pressure := peak_pressure c;
          ie_ratio := ie_ratio c; ventilation_mode := ventilation_mode c;
          pressure_support := pressure_support c;
          plateau_time := plateau_time c; resistance := resistance c;
          compliance := compliance c |}).

Definition set_tidal_volume (value : R) (s : session) : session :=
  let c := cfg s in
  upd_cfg s
    {| resp_rate := resp_rate c; tidal_volume := value;
       peep := peep c; peak_pressure := peak_pressure c;
       ie_ratio := ie_ratio c; ventilation_mode := ventilation_mode c;
       pressure_support := pressure_support c;
       plateau_time := plateau_time c; resistance := resistance c;
       compliance := compliance c |}.

Definition set_peep (value : R) (s : session) : session :=
  let c := cfg s in
  upd_cfg s
    {| resp_rate := resp_rate c; tidal_volume := tidal_volume c;
       peep := value; peak_pressure := peak_pressure c;
       ie_ratio := ie_ratio c; ventilation_mode := ventilation_mode c;
       pressure_support := pressure_support c;
       plateau_time := plateau_time c; resistance := resistance c;
       compliance := compliance c |}.

Definition set_peak_pressure (value : R) (s : session) : session :=
  let c := cfg s in
  upd_cfg s
    {| resp_rate := resp_rate c; tidal_volume := tidal_volume c;
       peep := peep c; peak_pressure := value;
       ie_ratio := ie_ratio c; ventilation_mode := ventilation_mode c;
       pressure_support := pressure_support c;
       plateau_time := plateau_time c; resistance := resistance c;
       compliance := compliance c |}.

Definition set_ie_ratio (value : R) (s : session) : session :=
  let c := cfg s in
  upd_cfg s
    {| resp_rate := resp_rate c; tidal_volume := tidal_volume c;
       peep := peep c; peak_pressure := peak_pressure c;
       ie_ratio := Py.round1 value; ventilation_mode := ventilation_mode c;
       pressure_support := pressure_support c;
       plateau_time := plateau_time c; resistance := resistance c;
       compliance := compliance c |}.

Definition set_pressure_support (value : R) (s : session) : session :=
  let c := cfg s in
  upd_cfg s
    {| resp_rate := resp_rate c; tidal_volume := tidal_volume c;
       peep := peep c; peak_pressure := peep c + value;
       ie_ratio := ie_ratio c; ventilation_mode := ventilation_mode c;
       pressure_support := value;
       plateau_time := plateau_time c; resistance := resistance c;
       compliance := compliance c |}.

Definition set_plateau_time (value : R) (s : session) : session :=
  let c := cfg s in
  upd_cfg s
    {| resp_rate := resp_rate c; tidal_volume := tidal_volume c;
       peep := peep c; peak_pressure := peak_pressure c;
       ie_ratio := ie_ratio c; ventilation_mode := ventilation_mode c;
       pressure_support := pressure_support c;
       plateau_time := value; resistance := resistance c;
       compliance := compliance c |}.

Definition set_resistance (value : R) (s : session) : session :=
  let c := cfg s in
  upd_cfg s
    {| resp_rate := resp_rate c; tidal_volume := tidal_volume c;
       peep := peep c; peak_pressure := peak_pressure c;
       ie_ratio := ie_ratio c; ventilation_mode := ventilation_mode c;
       pressure_support := pressure_support c;
       plateau_time := plateau_time c; resistance := value;
       compliance := compliance c |}.

Definition set_compliance (value : R) (s : session) : session :=
  let c := cfg s in
  upd_cfg s
    {| resp_rate := resp_rate c; tidal_volume := tidal_volume c;
       peep := peep c; peak_pressure := peak_pressure c;
       ie_ratio := ie_ratio c; ventilation_mode := ventilation_mode c;
       pressure_support := pressure_support c;
       plateau_time := plateau_time c; resistance := resistance c;
       compliance := value |}.

(** ** Construction *)

(** Field values assigned by [__init__], before [start_simulation]. *)
Definition initial_settings : settings :=
  {| resp_rate := 15; tidal_volume := 500; peep := 5; peak_pressure := 20;
     ie_ratio := 1.2; ventilation_mode := "VC-CMV";
     pressure_support := 15; plateau_time := 0.3; resistance := 10.0;
     compliance := 0.05 |}.

Definition initial_fields : session :=
  {| cfg := initial_settings; time_index := 0; start_time := None;
     max_cycles := 3; points_per_cycle := 200; current_point := 0;
     time_data := []; pressure_data := []; flow_data := [];
     volume_data := []; timer := None;
     pressure_graph := {| curve := ([], []); x_range := (0, 10) |};
     flow_graph := {| curve := ([], []); x_range := (0, 5) |};
     volume_graph := {| curve := ([], []); x_range := (0, 10) |} |}.

Definition new_simulator : outcome := start_simulation initial_fields.

(** The default settings with an out-of-range respiratory rate of 0. *)
Definition set_cfg_rate0 (c : settings) : settings :=
  {| resp_rate := 0; tidal_volume := tidal_volume c;
     peep := peep c; peak_pressure := peak_pressure c;
     ie_ratio := ie_ratio c; ventilation_mode := ventilation_mode c;
     pressure_support := pressure_support c;
     plateau_time := plateau_time c; resistance := resistance c;
     compliance := compliance c |}.

(** The settings with another respiratory rate. *)
Definition with_resp_rate (rate : R) (c : settings) : settings :=
  {| resp_rate := rate; tidal_volume := tidal_volume c;
     peep := peep c; peak_pressure := peak_pressure c;
     ie_ratio := ie_ratio c; ventilation_mode := ventilation_mode c;
     pressure_support := pressure_support c;
     plateau_time := plateau_time c; resistance := resistance c;
     compliance := compliance c |}.

(** A session holding three samples, at 0 s, 5 s and 12 s. *)
Definition demo_session : session :=
  upd_buffers initial_fields [0; 5; 12] [5; 6; 7] [38; 20; -50] [0; 250; 500].

(** The settings fields, and the fields a setter may leave changed. *)
Inductive field : Set :=
| FRespRate | FTidalVolume | FPeep | FPeakPressure | FIeRatio | FMode
| FPressureSupport | FPlateauTime | FResistance | FCompliance.

Definition unchanged (f : field) (c c' : settings) : Prop :=
  match f with
  | FRespRate => resp_rate c' = resp_rate c
  | FTidalVolume => tidal_volume c' = tidal_volume c
  | FPeep => peep c' = peep c
  | FPeakPressure => peak_pressure c' = peak_pressure c
  | FIeRatio => ie_ratio c' = ie_ratio c
  | FMode => ventilation_mode c' = ventilation_mode c
  | FPressureSupport => pressure_support c' = pressure_support c
  | FPlateauTime => plateau_time c' = plateau_time c
  | FResistance => resistance c' = resistance c
  | FCompliance => compliance c' = compliance c
  end.

Definition changes_only (fs : list field) (c c' : settings) : Prop :=
  forall f, ~ In f fs -> unchanged f c c'.

(** [clamp(x, lo, hi)] on reals. *)
Definition clamp (x lo hi : R) : R := Rmax lo (Rmin hi x).

(** The simulator as [__init__] leaves it: default rate 15, timer started
    at 66 ms. *)
Definition running_session : session :=
  upd_timer initial_fields
    (Some {| active := true; interval := 66;
             calls := [Stop; Start 66] |}).

(** ** Views used to state the properties *)

(** The four buffers hold one entry per sample. *)
Definition aligned (s : session) : Prop :=
  List.length (pressure_data s) = List.length (time_data s)
  /\ List.length (flow_data s) = List.length (time_data s)
  /\ List.length (volume_data s) = List.length (time_data s).

Fixpoint zip4 (ts ps fs vs : list R) : list point :=
  match ts, ps, fs, vs with
  | t :: ts', p :: ps', f :: fs', v :: vs' =>
      {| pt_time := t; pt_pressure := p; pt_flow := f; pt_volume := v |}
      :: zip4 ts' ps' fs' vs'
  | _, _, _, _ => []
  end.

(** The sample history: the four buffers read as one sequence. *)
Definition history (s : session) : list point :=
  zip4 (time_data s) (pressure_data s) (flow_data s) (volume_data s).

(** The samples on display: the three curves read as one sequence. *)
Definition displayed (s : session) : list point :=
  zip4 (fst (curve (pressure_graph s))) (snd (curve (pressure_graph s)))
       (snd (curve (flow_graph s))) (snd (curve (volume_graph s))).

Definition in_window (lo hi : R) (p : point) : bool :=
  Py.geb (pt_time p) lo && Py.leb (pt_time p) hi.

(** The [n] most recent entries of a sequence. *)
Definition keep_last {A : Type} (n : nat) (l : list A) : list A :=
  skipn (List.length l - n) l.

(** What a run of ticks needs of the history it starts from, [clock] being
    the latest clock reading so far: aligned buffers within the bound,
    times in order, none later than the clock, and no sample before the
    time origin is set. *)
Record history_ok (s : session) (clock : Z) : Prop := {
  ok_aligned : aligned s;
  ok_bound : (Z.of_nat (List.length (time_data s)) <= max_points s)%Z;
  ok_sorted : StronglySorted Rle (time_data s);
  ok_clock :
    match start_time s with
    | None => time_data s = []
    | Some st =>
        Forall (fun t => t <= IZR (msecsTo st clock) / 1000) (time_data s)
    end
}.

(** Clock readings that never go back, as a test. *)
Fixpoint ascendingb (l : list Z) : bool :=
  match l with
  | [] => true
  | x :: l' => forallb (Z.leb x) l' && ascendingb l'
  end.

(** [n] clock readings, [step] ms apart, beginning at [from]. *)
Definition ticks_every (n : nat) (from step : Z) : list Z :=
  map (fun k => (from + step * Z.of_nat k)%Z) (seq 0 n).

(** ** Cycle timing, as the specification words it *)

Module Cycle.

Definition total_time (c : settings) : R := 60 / Rmax 1 (resp_rate c).

Definition inspiratory_time (c : settings) : R :=
  total_time c / (1 + 1 / ie_ratio c).

Definition expiratory_time (c : settings) : R :=
  total_time c / (1 + ie_ratio c).

(** [elapsed_time mod total_time]. *)
Definition time_in_cycle (c : settings) (elapsed_time : R) : R :=
  elapsed_time
  - total_time c * IZR (Int_part (elapsed_time / total_time c)).

End Cycle.

(** The inspiratory volume of each file as a function of the time in
    cycle. *)
Definition insp_volume (src : source_file) (c : settings) (t : R) : R :=
  match src with
  | Sm3 =>
      tidal_volume c * 0.5 * (1 - cos (PI * (t / Cycle.inspiratory_time c)))
  | Prog2_0 => tidal_volume c * (t / Cycle.inspiratory_time c)
  end.

(** The default settings in pressure-controlled mode. *)
Definition pc_settings : settings :=
  {| resp_rate := 15; tidal_volume := 500; peep := 5; peak_pressure := 20;
     ie_ratio := 1.2; ventilation_mode := "PC-CMV";
     pressure_support := 15; plateau_time := 0.3; resistance := 10.0;
     compliance := 0.05 |}.

(** ** Sensors, alarms and automatic adjustments (prog2-0.py) *)

(** [self.sensor_data]: a dict built with these six keys and only ever
    indexed by them. *)
Record sensors : Type := {
  flujo_espirado : R;
  volumen_espirado : R;
  compliance_efectiva : R;
  resistencia_efectiva : R;
  SpO2 : Z;
  frecuencia_cardiaca : Z
}.

(** [self.alarm_limits]: the values of the six limit spin boxes. *)
Record limits : Type := {
  pip_max : Z;    (* "PIP Máx" *)
  pip_min : Z;    (* "PIP Mín" *)
  peep_max : Z;   (* "PEEP Máx" *)
  fr_max : Z;     (* "FR Máx" *)
  vt_max : Z;     (* "Vt Máx" *)
  spo2_min : Z    (* "SpO₂ Mín" *)
}.

(** An entry of [self.alarmas_activas]: name, description, colour. *)
Definition alarma : Type := (string * string * string)%type.

(** The simulator of prog2-0.py: the common part and the monitoring
    fields.  The event log and the alarm panel only display text and are
    left out. *)
Record monitor : Type := {
  sim : session;
  sensor_data : sensors;
  alarm_limits : limits;
  alarmas_activas : list alarma;
  ajustes_automaticos : bool
}.

Inductive m_outcome : Type :=
| MDone (m : monitor)
| MFailed (e : exn) (m : monitor).

Definition m_state_of (o : m_outcome) : monitor :=
  match o with MDone m => m | MFailed _ m => m end.

Definition upd_sim (m : monitor) (s : session) : monitor :=
  {| sim := s; sensor_data := sensor_data m; alarm_limits := alarm_limits m;
     alarmas_activas := alarmas_activas m;
     ajustes_automaticos := ajustes_automaticos m |}.

Definition upd_sensor_data (m : monitor) (sd : sensors) : monitor :=
  {| sim := sim m; sensor_data := sd; alarm_limits := alarm_limits m;
     alarmas_activas := alarmas_activas m;
     ajustes_automaticos := ajustes_automaticos m |}.

Definition upd_alarmas (m : monitor) (a : list alarma) : monitor :=
  {| sim := sim m; sensor_data := sensor_data m;
     alarm_limits := alarm_limits m; alarmas_activas := a;
     ajustes_automaticos := ajustes_automaticos m |}.

(** A method of the common part run on the monitor. *)
Definition lift_outcome (m : monitor) (o : outcome) : m_outcome :=
  match o with
  | Done s => MDone (upd_sim m s)
  | Failed e s => MFailed e (upd_sim m s)
  end.

(** [str(n)] for an integer, as an f-string prints it. *)
Definition str_of_int (n : Z) : string :=
  NilZero.string_of_int (Z.to_int n).

(** [max(l)] and [min(l)]; Python raises on an empty sequence. *)
Definition max_of (l : list R) : option R :=
  match l with
  | [] => None
  | x :: l' => Some (fold_left Rmax l' x)
  end.

Definition min_of (l : list R) : option R :=
  match l with
  | [] => None
  | x :: l' => Some (fold_left Rmin l' x)
  end.

Definition nonempty (l : list R) : bool :=
  (0 <? Z.of_nat (List.length l))%Z.

(** [verificar_alarmas]; the list is rebuilt from nothing.  The maximum
    and minimum are taken only behind the length test, so their empty case
    is not reached. *)
Definition verificar_alarmas (m : monitor) : monitor :=
  let s := sim m in
  let lim := alarm_limits m in
  let a : list alarma := [] in
  let a :=
    if nonempty (pressure_data s)
       && match max_of (Py.slice_from (- 10) (pressure_data s)) with
          | Some mx => Py.gtb mx (IZR (pip_max lim))
          | None => false
          end
    then a ++ [("Presión Alta",
                "PIP > " ++ str_of_int (pip_max lim) ++ " cmH₂O",
                "#ff0000")]%string
    else a in
  let a :=
    if nonempty (pressure_data s)
       && match min_of (Py.slice_from (- 10) (pressure_data s)) with
          | Some mn => Py.ltb mn (IZR (pip_min lim))
          | None => false
          end
    then a ++ [("Presión Baja",
                "PIP < " ++ str_of_int (pip_min lim) ++ " cmH₂O",
                "#ff9900")]%string
    else a in
  let a :=
    if (SpO2 (sensor_data m) <? spo2_min lim)%Z
    then a ++ [("Hipoxemia",
                "SpO₂ < " ++ str_of_int (spo2_min lim) ++ "%",
                "#ff0000")]%string
    else a in
  let a :=
    if Py.gtb (volumen_espirado (sensor_data m)) (IZR (vt_max lim))
    then a ++ [("Volumen Alto",
                "Vt > " ++ str_of_int (vt_max lim) ++ " mL",
                "#ff9900")]%string
    else a in
  let a :=
    if Py.gtb (resp_rate (cfg s)) (IZR (fr_max lim))
    then a ++ [("Taquipnea",
                "FR > " ++ str_of_int (fr_max lim) ++ " rpm",
                "#ff9900")]%string
    else a in
  upd_alarmas m a.

(** The random numbers one call of [actualizar_sensores] draws:
    [random.uniform] for the four factors, [random.randint] for the two
    steps. *)
Record sensor_draws : Type := {
  u_flujo : R;         (* uniform(0.9, 1.1) *)
  u_volumen : R;       (* uniform(0.95, 1.05) *)
  u_compliance : R;    (* uniform(0.98, 1.02) *)
  u_resistencia : R;   (* uniform(0.95, 1.05) *)
  d_SpO2 : Z;          (* randint(-1, 1) *)
  d_fc : Z             (* randint(-2, 2) *)
}.

Definition draws_in_range (d : sensor_draws) : Prop :=
  0.9 <= u_flujo d <= 1.1
  /\ 0.95 <= u_volumen d <= 1.05
  /\ 0.98 <= u_compliance d <= 1.02
  /\ 0.95 <= u_resistencia d <= 1.05
  /\ (- 1 <= d_SpO2 d <= 1)%Z
  /\ (- 2 <= d_fc d <= 2)%Z.

(** [actualizar_sensores], called every second. *)
Definition actualizar_sensores (d : sensor_draws) (m : monitor) : monitor :=
  let s := sim m in
  let sd := sensor_data m in
  let flujo :=
    if nonempty (flow_data s)
    then Rmax 0 (Py.last_or (flow_data s) 0 * u_flujo d)
    else flujo_espirado sd in
  let volumen :=
    if nonempty (volume_data s)
    then Rmax 0 (Py.last_or (volume_data s) 0 * u_volumen d)
    else volumen_espirado sd in
  let compl :=
    Rmax 0.01 (Rmin 0.1 (compliance (cfg s) * u_compliance d)) in
  let resist :=
    Rmax 5 (Rmin 50 (resistance (cfg s) * u_resistencia d)) in
  let spo2 := Z.max 70 (Z.min 100 (SpO2 sd + d_SpO2 d)) in
  let fc := Z.max 40 (Z.min 180 (frecuencia_cardiaca sd + d_fc d)) in
  verificar_alarmas
    (upd_sensor_data m
       {| flujo_espirado := flujo; volumen_espirado := volumen;
          compliance_efectiva := compl; resistencia_efectiva := resist;
          SpO2 := spo2; frecuencia_cardiaca := fc |}).

(** The four events [random.choices] picks from. *)
Inductive evento : Set :=
| broncoespasmo | cambio_compliance | desconexion | aumento_demanda.

(** [ajustar_parametros_automaticos]. *)
Definition ajustar_parametros_automaticos (ev : evento) (m : monitor)
  : m_outcome :=
  let s := sim m in
  match ev with
  | broncoespasmo =>
      let nuevo_peep := Rmin 15 (peep (cfg s) + 2) in
      if Req_dec_T nuevo_peep (peep (cfg s)) then MDone m
      else MDone (upd_sim m (set_peep nuevo_peep s))
  | cambio_compliance =>
      match Py.div (compliance_efectiva (sensor_data m))
                   (compliance (cfg s)) with
      | Raise e => MFailed e m
      | Ok factor_ajuste =>
          let nuevo_vt :=
            Rmin 800 (Rmax 300 (tidal_volume (cfg s) * factor_ajuste)) in
          if Py.gtb (Rabs (nuevo_vt - tidal_volume (cfg s))) 20
          then MDone (upd_sim m (set_tidal_volume (IZR (Py.int nuevo_vt)) s))
          else MDone m
      end
  | aumento_demanda =>
      let nueva_fr := Rmin 35 (resp_rate (cfg s) + 5) in
      if Req_dec_T nueva_fr (resp_rate (cfg s)) then MDone m
      else lift_outcome m (set_resp_rate nueva_fr s)
  | desconexion => MDone m
  end.

(** [generar_evento_aleatorio]; [ev] is the event drawn and [cambio] the
    [random.uniform] value its branch draws (5 to 15 for a bronchospasm,
    -0.02 to 0.02 for a compliance change). *)
Definition generar_evento_aleatorio (ev : evento) (cambio : R) (m : monitor)
  : m_outcome :=
  let sd := sensor_data m in
  let sd' :=
    match ev with
    | broncoespasmo =>
        {| flujo_espirado := flujo_espirado sd;
           volumen_espirado := volumen_espirado sd;
           compliance_efectiva := compliance_efectiva sd;
           resistencia_efectiva := resistencia_efectiva sd + cambio;
           SpO2 := SpO2 sd; frecuencia_cardiaca := frecuencia_cardiaca sd |}
    | cambio_compliance =>
        {| flujo_espirado := flujo_espirado sd;
           volumen_espirado := volumen_espirado sd;
           compliance_efectiva := compliance_efectiva sd + cambio;
           resistencia_efectiva := resistencia_efectiva sd;
           SpO2 := SpO2 sd; frecuencia_cardiaca := frecuencia_cardiaca sd |}
    | desconexion =>
        {| flujo_espirado := flujo_espirado sd * 0.5;
           volumen_espirado := volumen_espirado sd * 0.5;
           compliance_efectiva := compliance_efectiva sd;
           resistencia_efectiva := resistencia_efectiva sd;
           SpO2 := SpO2 sd; frecuencia_cardiaca := frecuencia_cardiaca sd |}
    | aumento_demanda =>
        {| flujo_espirado := flujo_espirado sd * 1.5;
           volumen_espirado := volumen_espirado sd;
           compliance_efectiva := compliance_efectiva sd;
           resistencia_efectiva := resistencia_efectiva sd;
           SpO2 := SpO2 sd;
           frecuencia_cardiaca := Z.min 180 (frecuencia_cardiaca sd + 10) |}
    end in
  let m1 := upd_sensor_data m sd' in
  if ajustes_automaticos m1
  then ajustar_parametros_automaticos ev m1
  else MDone m1.

(** [toggle_auto_adjust]; [Qt.Checked] is 2. *)
Definition toggle_auto_adjust (state : Z) (m : monitor) : monitor :=
  {| sim := sim m; sensor_data := sensor_data m;
     alarm_limits := alarm_limits m; alarmas_activas := alarmas_activas m;
     ajustes_automaticos := (state =? 2)%Z |}.

(** The monitoring fields as [__init__] and [init_ui] set them. *)
Definition initial_sensors : sensors :=
  {| flujo_espirado := 0; volumen_espirado := 0;
     compliance_efectiva := 0.05; resistencia_efectiva := 10;
     SpO2 := 98; frecuencia_cardiaca := 75 |}.

Definition default_limits : limits :=
  {| pip_max := 40; pip_min := 5; peep_max := 15; fr_max := 35;
     vt_max := 800; spo2_min := 90 |}.

Definition initial_monitor : monitor :=
  {| sim := running_session; sensor_data := initial_sensors;
     alarm_limits := default_limits; alarmas_activas := [];
     ajustes_automaticos := true |}.

(** What can happen to the simulator of prog2-0.py between two returns to
    the event loop: a timer tick, a sensor update, a random event, a
    control of the panel ([CLimits]: the user edits the limit spin boxes,
    which have no callback).  The mode buttons call
    [set_ventilation_mode], which this file does not define. *)
Inductive command : Type :=
| CTick (now : Z)
| CSensores (d : sensor_draws)
| CEvento (ev : evento) (cambio : R)
| CToggle (state : Z)
| CLimits (lim : limits)
| CModeButton (mode : string)
| CRespRate (value : R)
| CTidalVolume (value : R)
| CPeep (value : R)
| CPeakPressure (value : R)
| CIeRatio (value : R)
| CPressureSupport (value : R)
| CPlateauTime (value : R)
| CResistance (value : R)
| CCompliance (value : R).

Definition exec (cmd : command) (m : monitor) : m_outcome :=
  match cmd with
  | CTick now => lift_outcome m (update_graphs Prog2_0 now (sim m))
  | CSensores d => MDone (actualizar_sensores d m)
  | CEvento ev cambio => generar_evento_aleatorio ev cambio m
  | CToggle state => MDone (toggle_auto_adjust state m)
  | CLimits lim =>
      MDone {| sim := sim m; sensor_data := sensor_data m;
               alarm_limits := lim; alarmas_activas := alarmas_activas m;
               ajustes_automaticos := ajustes_automaticos m |}
  | CModeButton mode => MFailed AttributeError m
  | CRespRate v => lift_outcome m (set_resp_rate v (sim m))
  | CTidalVolume v => MDone (upd_sim m (set_tidal_volume v (sim m)))
  | CPeep v => MDone (upd_sim m (set_peep v (sim m)))
  | CPeakPressure v => MDone (upd_sim m (set_peak_pressure v (sim m)))
  | CIeRatio v => MDone (upd_sim m (set_ie_ratio v (sim m)))
  | CPressureSupport v => MDone (upd_sim m (set_pressure_support v (sim m)))
  | CPlateauTime v => MDone (upd_sim m (set_plateau_time v (sim m)))
  | CResistance v => MDone (upd_sim m (set_resistance v (sim m)))
  | CCompliance v => MDone (upd_sim m (set_compliance v (sim m)))
  end.

(** A run stops at the first exception. *)
Fixpoint run (cmds : list command) (m : monitor) : m_outcome :=
  match cmds with
  | [] => MDone m
  | cmd :: rest =>
      match exec cmd m with
      | MDone m' => run rest m'
      | MFailed e m' => MFailed e m'
      end
  end.

(** The point with another time field. *)
Definition at_time (t : R) (p : point) : point :=
  {| pt_time := t; pt_pressure := pt_pressure p;
     pt_flow := pt_flow p; pt_volume := pt_volume p |}.

(** An alarm of that name is in the list. *)
Definition has_alarm (nombre : string) (a : list alarma) : Prop :=
  exists descripcion color, In (nombre, descripcion, color) a.

(** What every state of the simulator of prog2-0.py satisfies: vital signs
    within their clamps, non-negative expired flow and volume, the mode it
    started in, one entry per sample in the four buffers. *)
Record monitor_ok (m : monitor) : Prop := {
  ok_SpO2 : (70 <= SpO2 (sensor_data m) <= 100)%Z;
  ok_fc : (40 <= frecuencia_cardiaca (sensor_data m) <= 180)%Z;
  ok_flujo : 0 <= flujo_espirado (sensor_data m);
  ok_volumen : 0 <= volumen_espirado (sensor_data m);
  ok_mode : ventilation_mode (cfg (sim m)) = "VC-CMV"%string;
  ok_buffers : aligned (sim m)
}.

(** The samples, the clock and the plots of [s'] are those of [s]. *)
Definition same_display (s s' : session) : Prop :=
  time_data s' = time_data s /\ pressure_data s' = pressure_data s
  /\ flow_data s' = flow_data s /\ volume_data s' = volume_data s
  /\ time_index s' = time_index s /\ start_time s' = start_time s
  /\ pressure_graph s' = pressure_graph s
  /\ flow_graph s' = flow_graph s
  /\ volume_graph s' = volume_graph s.

(** The setting an automatic adjustment may change after each event. *)
Definition adjusted_field (ev : evento) : list field :=
  match ev with
  | broncoespasmo => [FPeep]
  | cambio_compliance => [FTidalVolume]
  | aumento_demanda => [FRespRate]
  | desconexion => []
  end.

(** Commands that leave the settings and the limits alone. *)
Definition tick_or_sensor (cmd : command) : bool :=
  match cmd with
  | CTick _ | CSensores _ => true
  | _ => false
  end.

(** A volume-controlled simulator whose pressure band lies within the
    alarm limits, with every buffered pressure in the band and no pressure
    alarm active. *)
Record pressure_quiet (m : monitor) : Prop := {
  pq_aligned : aligned (sim m);
  pq_bound : (0 < max_points (sim m))%Z;
  pq_mode : ventilation_mode (cfg (sim m)) = "VC-CMV"%string;
  pq_ie : 0 < ie_ratio (cfg (sim m));
  pq_peep : 1 < peep (cfg (sim m));
  pq_low : IZR (pip_min (alarm_limits m)) <= peep (cfg (sim m));
  pq_peak : peep (cfg (sim m)) <= peak_pressure (cfg (sim m));
  pq_high : peak_pressure (cfg (sim m)) <= IZR (pip_max (alarm_limits m));
  pq_samples :
    Forall (fun x => peep (cfg (sim m)) <= x <= peak_pressure (cfg (sim m)))
           (pressure_data (sim m));
  pq_alta : ~ has_alarm "Presión Alta" (alarmas_activas m);
  pq_baja : ~ has_alarm "Presión Baja" (alarmas_activas m)
}.

(** * Properties *)

(** ** Facts on the primitives *)

Lemma rbind_Ok {A B : Type} (a : A) (k : A -> result B) :
  rbind (Ok a) k = k a.
Proof. reflexivity. Qed.

Lemma div_Ok (a b : R) : b <> 0 -> Py.div a b = Ok (a / b).
Proof.
  intros Hb. unfold Py.div. destruct (Req_dec_T b 0); [contradiction | easy].
Qed.

Lemma np_div_Ok (a b : R) : b <> 0 -> Py.np_div a b = Ok (a / b).
Proof.
  intros Hb. unfold Py.np_div.
  destruct (Req_dec_T b 0); [contradiction | easy].
Qed.

Lemma mod_Ok (a b : R) :
  b <> 0 -> Py.mod_ a b = Ok (a - b * IZR (Int_part (a / b))).
Proof.
  intros Hb. unfold Py.mod_.
  destruct (Req_dec_T b 0); [contradiction | easy].
Qed.

Lemma ltb_true (a b : R) : a < b -> Py.ltb a b = true.
Proof. intros H. unfold Py.ltb. destruct (Rlt_dec a b); [easy | lra]. Qed.

Lemma ltb_false (a b : R) : b <= a -> Py.ltb a b = false.
Proof. intros H. unfold Py.ltb. destruct (Rlt_dec a b); [lra | easy]. Qed.

Lemma leb_true (a b : R) : a <= b -> Py.leb a b = true.
Proof. intros H. unfold Py.leb. destruct (Rle_dec a b); [easy | lra]. Qed.

Lemma leb_false (a b : R) : b < a -> Py.leb a b = false.
Proof. intros H. unfold Py.leb. destruct (Rle_dec a b); [lra | easy]. Qed.

Lemma leb_iff (a b : R) : Py.leb a b = true <-> a <= b.
Proof.
  unfold Py.leb. destruct (Rle_dec a b); split; intros; easy.
Qed.

(** A positive modulus puts the remainder in [0, b). *)
Lemma mod_range (a b : R) :
  0 < b -> 0 <= a - b * IZR (Int_part (a / b)) < b.
Proof.
  intros Hb.
  destruct (base_Int_part (a / b)) as [Hlo Hhi].
  assert (Ha : a = b * (a / b)) by (field; lra).
  set (n := IZR (Int_part (a / b))) in *.
  split.
  - assert (b * n <= b * (a / b)) by (apply Rmult_le_compat_l; lra). lra.
  - assert (b * (a / b) < b * (n + 1)) by (apply Rmult_lt_compat_l; lra).
    lra.
Qed.

(** Inside the first period the remainder is the number itself. *)
Lemma mod_small (a b : R) :
  0 <= a < b -> a - b * IZR (Int_part (a / b)) = a.
Proof.
  intros [Ha Hab].
  assert (Hb : 0 < b) by lra.
  assert (Hq : 0 <= a / b < 1).
  { split.
    - apply Rmult_le_pos; [lra | left; apply Rinv_0_lt_compat; lra].
    - apply (Rmult_lt_reg_r b); [lra |].
      replace (a / b * b) with a by (field; lra). lra. }
  rewrite <- (Int_part_spec (a / b) 0); simpl; lra.
Qed.

(** ** Facts on the cycle timing *)

Section Timing.

Variable c : settings.
Hypothesis ie_pos : 0 < ie_ratio c.

Lemma max_rate_pos : 0 < Rmax 1 (resp_rate c).
Proof. pose proof (Rmax_l 1 (resp_rate c)). lra. Qed.

Lemma total_time_pos : 0 < Cycle.total_time c.
Proof.
  unfold Cycle.total_time.
  apply Rdiv_lt_0_compat; [lra | apply max_rate_pos].
Qed.

Lemma inv_ie_pos : 0 < 1 / ie_ratio c.
Proof. apply Rdiv_lt_0_compat; lra. Qed.

Lemma inspiratory_time_pos : 0 < Cycle.inspiratory_time c.
Proof.
  unfold Cycle.inspiratory_time.
  apply Rdiv_lt_0_compat; [apply total_time_pos |].
  pose proof inv_ie_pos. lra.
Qed.

Lemma expiratory_time_pos : 0 < Cycle.expiratory_time c.
Proof.
  unfold Cycle.expiratory_time.
  apply Rdiv_lt_0_compat; [apply total_time_pos | lra].
Qed.

(** The two phases fill the cycle. *)
Lemma phases_fill_cycle :
  Cycle.inspiratory_time c + Cycle.expiratory_time c = Cycle.total_time c.
Proof.
  unfold Cycle.inspiratory_time, Cycle.expiratory_time.
  pose proof inv_ie_pos. field. split; [lra |].
  intros H0. unfold Rdiv in H. lra.
Qed.

Lemma time_in_cycle_range (e : R) :
  0 <= Cycle.time_in_cycle c e < Cycle.total_time c.
Proof. apply mod_range, total_time_pos. Qed.

End Timing.

(** ** The generator, phase by phase *)

Section Generator.

Variable c : settings.
Hypothesis ie_pos : 0 < ie_ratio c.

(** The timing quantities as the code computes them. *)
Lemma insp_time_code :
  Cycle.total_time c * (1 / (1 + 1 / ie_ratio c))
  = Cycle.inspiratory_time c.
Proof.
  unfold Cycle.inspiratory_time. pose proof (inv_ie_pos c ie_pos) as H.
  field. split; [lra |]. unfold Rdiv in H. intros H0. lra.
Qed.

Lemma exp_time_code :
  Cycle.total_time c * (1 / (1 + ie_ratio c)) = Cycle.expiratory_time c.
Proof. unfold Cycle.expiratory_time. field. lra. Qed.

Lemma progress_code (e : R) :
  Cycle.time_in_cycle c e / Cycle.total_time c * Cycle.total_time c
  = Cycle.time_in_cycle c e.
Proof. pose proof (total_time_pos c). field. lra. Qed.

(** Runs the timing prelude of [generate_next_point] in the goal. *)
Ltac timing_prelude e :=
  pose proof (max_rate_pos c) as Hrate;
  pose proof (total_time_pos c) as Htot;
  pose proof (inv_ie_pos c ie_pos) as Hinv;
  pose proof (inspiratory_time_pos c ie_pos) as Hinsp;
  pose proof (expiratory_time_pos c ie_pos) as Hexp;
  pose proof (time_in_cycle_range c e) as Htic;
  unfold generate_next_point, cycle_timing;
  rewrite (div_Ok 60) by lra; cbn [rbind];
  rewrite (div_Ok 1 (ie_ratio c)) by lra; cbn [rbind];
  rewrite (div_Ok 1 (1 + 1 / ie_ratio c)) by lra; cbn [rbind];
  rewrite (div_Ok 1 (1 + ie_ratio c)) by lra; cbn [rbind];
  fold (Cycle.total_time c);
  rewrite (mod_Ok e) by lra; cbn [rbind];
  fold (Cycle.time_in_cycle c e);
  rewrite (div_Ok _ (Cycle.total_time c)) by lra; cbn [rbind];
  rewrite insp_time_code, exp_time_code, progress_code.

Lemma generate_vc_insp_sm3 (e : R) :
  ventilation_mode c = "VC-CMV"%string ->
  Cycle.time_in_cycle c e < Cycle.inspiratory_time c ->
  let t := Cycle.time_in_cycle c e in
  let x := t / Cycle.inspiratory_time c in
  let k := - ln (9 / 38) / Cycle.inspiratory_time c in
  generate_next_point Sm3 c e =
  Ok {| pt_time := e;
        pt_pressure :=
          peep c + (peak_pressure c - peep c) * (1 - exp (- 2 * x));
        pt_flow := 38 * exp (- k * t);
        pt_volume := tidal_volume c * 0.5 * (1 - cos (PI * x)) |}.
Proof.
  intros Hm Hlt t x k. timing_prelude e.
  rewrite Hm, String.eqb_refl.
  rewrite !ltb_true by lra.
  rewrite !div_Ok by lra. cbn [rbind].
  unfold calcular_flujo_insp.
  rewrite np_div_Ok by lra. cbn [rbind].
  subst t x k. do 2 f_equal.
  replace (9.0 / 38.0) with (9 / 38) by lra. lra.
Qed.

Lemma generate_vc_insp_prog2 (e : R) :
  ventilation_mode c = "VC-CMV"%string ->
  Cycle.time_in_cycle c e < Cycle.inspiratory_time c ->
  let t := Cycle.time_in_cycle c e in
  let x := t / Cycle.inspiratory_time c in
  generate_next_point Prog2_0 c e =
  Ok {| pt_time := e;
        pt_pressure :=
          peep c + (peak_pressure c - peep c) * (1 - exp (- 4 * x));
        pt_flow := 30 * (tidal_volume c / 500);
        pt_volume := tidal_volume c * x |}.
Proof.
  intros Hm Hlt t x. timing_prelude e.
  rewrite Hm, String.eqb_refl.
  rewrite !ltb_true by lra.
  rewrite !div_Ok by lra. cbn [rbind].
  reflexivity.
Qed.

Lemma generate_vc_exp (src : source_file) (e : R) :
  ventilation_mode c = "VC-CMV"%string ->
  Cycle.inspiratory_time c <= Cycle.time_in_cycle c e ->
  let x := (Cycle.time_in_cycle c e - Cycle.inspiratory_time c)
           / Cycle.expiratory_time c in
  generate_next_point src c e =
  Ok {| pt_time := e;
        pt_pressure := if Rlt_dec 1 (peep c) then peep c else peep c + 0.4;
        pt_flow := - 50 * exp (- 7 * x);
        pt_volume := tidal_volume c * exp (- 8 * x) |}.
Proof.
  intros Hm Hge x. timing_prelude e.
  rewrite Hm, String.eqb_refl.
  rewrite ltb_false by lra.
  rewrite !div_Ok by lra. cbn [rbind].
  unfold Py.gtb, Py.ltb, Py.leb.
  destruct (Rlt_dec 1 (peep c)) as [Hp | Hp]; cbn [rbind].
  - reflexivity.
  - destruct (Rle_dec (peep c) 1); [reflexivity | lra].
Qed.

(** Pressure-controlled mode: any mode string other than "VC-CMV". *)
Section PressureControlled.

Variable src : source_file.
Variable e : R.
Hypothesis mode_pc : ventilation_mode c <> "VC-CMV"%string.
Hypothesis resistance_nz : resistance c <> 0.

Let t := Cycle.time_in_cycle c e.
Let insp := Cycle.inspiratory_time c.
Let ramp := insp * 0.2.
Let plateau := Rmin (plateau_time c) (insp * 0.5).
Let peak_flow := pressure_support c / resistance c * 60.

Lemma plateau_le_half : plateau <= insp * 0.5.
Proof. apply Rmin_r. Qed.

Lemma generate_pc_ramp :
  t < ramp ->
  let x := t / ramp in
  generate_next_point src c e =
  Ok {| pt_time := e;
        pt_pressure := peep c + pressure_support c * (1 - exp (- 5 * x));
        pt_flow := peak_flow * (1 - x ^ 2);
        pt_volume := tidal_volume c * 0.5 * (1 - cos (PI * x / 2)) |}.
Proof.
  intros Hlt x. pose proof plateau_le_half as Hpl.
  subst t insp ramp plateau peak_flow x. timing_prelude e.
  apply String.eqb_neq in mode_pc. rewrite mode_pc.
  rewrite !(ltb_true _ (Cycle.inspiratory_time c * 0.2)) by lra.
  rewrite (ltb_true _ (Cycle.inspiratory_time c)) by lra.
  rewrite !div_Ok by (try assumption; lra). cbn [rbind].
  reflexivity.
Qed.

Lemma generate_pc_plateau :
  ramp <= t < ramp + plateau ->
  let x := (t - ramp) / plateau in
  generate_next_point src c e =
  Ok {| pt_time := e;
        pt_pressure := peep c + pressure_support c;
        pt_flow := peak_flow * 0.3;
        pt_volume := tidal_volume c * (0.5 + 0.4 * x) |}.
Proof.
  intros [Hge Hlt] x. pose proof plateau_le_half as Hpl.
  subst t insp ramp plateau peak_flow x. timing_prelude e.
  apply String.eqb_neq in mode_pc. rewrite mode_pc.
  rewrite !(ltb_false _ (Cycle.inspiratory_time c * 0.2)) by lra.
  rewrite !(ltb_true _ (_ + _)) by lra.
  rewrite (ltb_true _ (Cycle.inspiratory_time c)) by lra.
  rewrite !div_Ok by (try assumption; lra). cbn [rbind].
  reflexivity.
Qed.

Lemma generate_pc_release :
  ramp <= t -> ramp + plateau <= t < insp ->
  let x := (t - ramp - plateau) / (insp - ramp - plateau) in
  generate_next_point src c e =
  Ok {| pt_time := e;
        pt_pressure := peep c + pressure_support c * exp (- 8 * x);
        pt_flow := peak_flow * 0.1;
        pt_volume := tidal_volume c * (0.9 + 0.1 * (1 - x)) |}.
Proof.
  intros Hr [Hge Hlt] x. pose proof plateau_le_half as Hpl.
  subst t insp ramp plateau peak_flow x. timing_prelude e.
  apply String.eqb_neq in mode_pc. rewrite mode_pc.
  rewrite !(ltb_false _ (Cycle.inspiratory_time c * 0.2)) by lra.
  rewrite !(ltb_false _ (_ + _)) by lra.
  rewrite !(ltb_true _ (Cycle.inspiratory_time c)) by lra.
  rewrite !div_Ok by (try assumption; lra). cbn [rbind].
  reflexivity.
Qed.

Lemma generate_pc_exp :
  insp <= t ->
  let x := (t - insp) / Cycle.expiratory_time c in
  generate_next_point src c e =
  Ok {| pt_time := e;
        pt_pressure :=
          peep c + (peak_pressure c - peep c) * exp (- 5 * x);
        pt_flow := - peak_flow * 0.7 * exp (- 6 * x);
        pt_volume := tidal_volume c * exp (- 5 * x) |}.
Proof.
  intros Hge x. pose proof plateau_le_half as Hpl.
  subst t insp ramp plateau peak_flow x. timing_prelude e.
  apply String.eqb_neq in mode_pc. rewrite mode_pc.
  rewrite !(ltb_false _ (Cycle.inspiratory_time c * 0.2)) by lra.
  rewrite !(ltb_false _ (_ + _)) by lra.
  rewrite !(ltb_false _ (Cycle.inspiratory_time c)) by lra.
  rewrite !div_Ok by (try assumption; lra). cbn [rbind].
  reflexivity.
Qed.

End PressureControlled.

End Generator.

(** ** The default settings, evaluated *)

Lemma initial_total_time : Cycle.total_time initial_settings = 4.
Proof.
  unfold Cycle.total_time. cbn [resp_rate initial_settings].
  rewrite Rmax_right by lra. lra.
Qed.

Lemma initial_inspiratory_time :
  Cycle.inspiratory_time initial_settings = 24 / 11.
Proof.
  unfold Cycle.inspiratory_time. rewrite initial_total_time.
  cbn [ie_ratio initial_settings]. replace 1.2 with (12 / 10) by lra. field.
Qed.

Lemma initial_expiratory_time :
  Cycle.expiratory_time initial_settings = 20 / 11.
Proof.
  unfold Cycle.expiratory_time. rewrite initial_total_time.
  cbn [ie_ratio initial_settings]. replace 1.2 with (12 / 10) by lra. field.
Qed.

Lemma initial_time_in_cycle (e : R) :
  0 <= e < 4 -> Cycle.time_in_cycle initial_settings e = e.
Proof.
  intros He. unfold Cycle.time_in_cycle. rewrite initial_total_time.
  apply mod_small, He.
Qed.

Lemma initial_ie_pos : 0 < ie_ratio initial_settings.
Proof. cbn [ie_ratio initial_settings]. lra. Qed.

(** ** Volume-controlled mode *)

(** C1 (amended).  In volume-controlled mode with [ie_ratio > 0], at any
    elapsed time whose time in cycle lies in the inspiratory phase, with
    [x = time_in_cycle / inspiratory_time]:
    - [sm3.py] returns the flow [38 * exp (- k * time_in_cycle)] whose rate
      constant [k] makes it 38 at time 0 and 9 at [inspiratory_time], the
      volume [tidal_volume * 0.5 * (1 - cos (pi * x))] and the pressure
      [peep + (peak_pressure - peep) * (1 - exp (- 2 * x))];
    - [prog2-0.py] returns the constant flow [30 * (tidal_volume / 500)],
      the linear volume [tidal_volume * x] and the pressure
      [peep + (peak_pressure - peep) * (1 - exp (- 4 * x))]. *)
Theorem vc_inspiratory_waveform (c : settings) (e : R) :
  0 < ie_ratio c ->
  ventilation_mode c = "VC-CMV"%string ->
  Cycle.time_in_cycle c e < Cycle.inspiratory_time c ->
  let t := Cycle.time_in_cycle c e in
  let x := t / Cycle.inspiratory_time c in
  let k := - ln (9 / 38) / Cycle.inspiratory_time c in
  (generate_next_point Sm3 c e =
     Ok {| pt_time := e;
           pt_pressure :=
             peep c + (peak_pressure c - peep c) * (1 - exp (- 2 * x));
           pt_flow := 38 * exp (- k * t);
           pt_volume := tidal_volume c * 0.5 * (1 - cos (PI * x)) |}
   /\ 38 * exp (- k * 0) = 38
   /\ 38 * exp (- k * Cycle.inspiratory_time c) = 9)
  /\ generate_next_point Prog2_0 c e =
     Ok {| pt_time := e;
           pt_pressure :=
             peep c + (peak_pressure c - peep c) * (1 - exp (- 4 * x));
           pt_flow := 30 * (tidal_volume c / 500);
           pt_volume := tidal_volume c * x |}.
Proof.
  intros Hie Hm Hlt t x k.
  pose proof (inspiratory_time_pos c Hie) as Hinsp.
  split; [split; [| split] |].
  - apply (generate_vc_insp_sm3 c Hie e Hm Hlt).
  - replace (- k * 0) with 0 by ring. rewrite exp_0. lra.
  - replace (- k * Cycle.inspiratory_time c) with (ln (9 / 38))
      by (subst k; field; lra).
    rewrite exp_ln by lra. lra.
  - apply (generate_vc_insp_prog2 c Hie e Hm Hlt).
Qed.

Lemma vc_inspiratory_waveform_witness :
  generate_next_point Prog2_0 initial_settings (8 / 11) =
  Ok {| pt_time := 8 / 11;
        pt_pressure :=
          peep initial_settings
          + (peak_pressure initial_settings - peep initial_settings)
            * (1 - exp (- 4 * (Cycle.time_in_cycle initial_settings (8 / 11)
                               / Cycle.inspiratory_time initial_settings)));
        pt_flow := 30 * (tidal_volume initial_settings / 500);
        pt_volume :=
          tidal_volume initial_settings
          * (Cycle.time_in_cycle initial_settings (8 / 11)
             / Cycle.inspiratory_time initial_settings) |}.
Proof.
  refine (proj2 (vc_inspiratory_waveform initial_settings (8 / 11)
                   initial_ie_pos eq_refl _)).
  rewrite initial_time_in_cycle, initial_inspiratory_time; lra.
Defined.

(** C1 as stated fails on [prog2-0.py]: with the default settings, one third
    into the inspiratory phase, the volume is [500 / 3] where the raised
    cosine gives 125, and the pressure follows [exp (- 4 * x)]. *)
Lemma vc_inspiratory_prog2_counterexample :
  0 < resp_rate initial_settings
  /\ 0 < ie_ratio initial_settings
  /\ ventilation_mode initial_settings = "VC-CMV"%string
  /\ Cycle.time_in_cycle initial_settings (8 / 11)
     < Cycle.inspiratory_time initial_settings
  /\ exists p,
       generate_next_point Prog2_0 initial_settings (8 / 11) = Ok p
       /\ pt_volume p <>
          tidal_volume initial_settings * 0.5
          * (1 - cos (PI * (Cycle.time_in_cycle initial_settings (8 / 11)
                            / Cycle.inspiratory_time initial_settings)))
       /\ pt_pressure p <>
          peep initial_settings
          + (peak_pressure initial_settings - peep initial_settings)
            * (1 - exp (- 2 * (Cycle.time_in_cycle initial_settings (8 / 11)
                               / Cycle.inspiratory_time initial_settings))).
Proof.
  assert (Ht : Cycle.time_in_cycle initial_settings (8 / 11) = 8 / 11)
    by (apply initial_time_in_cycle; lra).
  assert (Hlt : Cycle.time_in_cycle initial_settings (8 / 11)
                < Cycle.inspiratory_time initial_settings)
    by (rewrite Ht, initial_inspiratory_time; lra).
  split; [cbn [resp_rate initial_settings]; lra |].
  split; [apply initial_ie_pos |].
  split; [reflexivity |].
  split; [exact Hlt |].
  eexists. split.
  - apply (generate_vc_insp_prog2 initial_settings initial_ie_pos _
             eq_refl Hlt).
  - cbn [pt_volume pt_pressure]. rewrite Ht, initial_inspiratory_time.
    cbn [tidal_volume peep peak_pressure initial_settings].
    replace (8 / 11 / (24 / 11)) with (1 / 3) by field.
    split.
    + replace (PI * (1 / 3)) with (PI / 3) by field.
      rewrite cos_PI3. lra.
    + intros Heq.
      assert (Hexp : exp (- 4 * (1 / 3)) = exp (- 2 * (1 / 3))) by lra.
      apply exp_inv in Hexp. lra.
Qed.

(** C3.  In the expiratory phase of volume-controlled mode, with
    [x = (time_in_cycle - inspiratory_time) / expiratory_time], both files
    return flow [- 50 * exp (- 7 * x)], of magnitude at most 50 and exactly
    50 at the start of the phase whatever the settings, volume
    [tidal_volume * exp (- 8 * x)], and pressure [peep] when [peep > 1],
    [peep + 0.4] when [peep <= 1]. *)
Theorem vc_expiratory_waveform (src : source_file) (c : settings) (e : R) :
  0 < ie_ratio c ->
  ventilation_mode c = "VC-CMV"%string ->
  Cycle.inspiratory_time c <= Cycle.time_in_cycle c e ->
  let x := (Cycle.time_in_cycle c e - Cycle.inspiratory_time c)
           / Cycle.expiratory_time c in
  exists p,
    generate_next_point src c e = Ok p
    /\ pt_time p = e
    /\ pt_flow p = - 50 * exp (- 7 * x)
    /\ pt_volume p = tidal_volume c * exp (- 8 * x)
    /\ (1 < peep c -> pt_pressure p = peep c)
    /\ (peep c <= 1 -> pt_pressure p = peep c + 0.4)
    /\ Rabs (pt_flow p) <= 50
    /\ (Cycle.time_in_cycle c e = Cycle.inspiratory_time c ->
        pt_flow p = - 50).
Proof.
  intros Hie Hm Hge x.
  pose proof (expiratory_time_pos c Hie) as Hexp.
  eexists. split; [apply (generate_vc_exp c Hie src e Hm Hge) |].
  cbn [pt_time pt_flow pt_volume pt_pressure]. fold x.
  assert (Hx : 0 <= x).
  { subst x. apply Rmult_le_pos; [lra |].
    left. apply Rinv_0_lt_compat. exact Hexp. }
  assert (Hle : exp (- 7 * x) <= 1).
  { rewrite <- exp_0. destruct (Req_dec x 0) as [-> | Hnz].
    - replace (- 7 * 0) with 0 by ring. lra.
    - left. apply exp_increasing. lra. }
  pose proof (exp_pos (- 7 * x)) as Hpos.
  repeat split; try reflexivity.
  - intros Hp. destruct (Rlt_dec 1 (peep c)); [reflexivity | lra].
  - intros Hp. destruct (Rlt_dec 1 (peep c)); [lra | reflexivity].
  - rewrite Rabs_left by lra. lra.
  - intros Heq. subst x. rewrite Heq.
    replace (- 7 * ((Cycle.inspiratory_time c - Cycle.inspiratory_time c)
                    / Cycle.expiratory_time c)) with 0 by (field; lra).
    rewrite exp_0. lra.
Qed.

Lemma vc_expiratory_waveform_witness :
  exists p,
    generate_next_point Sm3 initial_settings 3 = Ok p
    /\ pt_time p = 3
    /\ pt_flow p =
       - 50 * exp (- 7 * ((Cycle.time_in_cycle initial_settings 3
                           - Cycle.inspiratory_time initial_settings)
                          / Cycle.expiratory_time initial_settings))
    /\ pt_volume p =
       tidal_volume initial_settings
       * exp (- 8 * ((Cycle.time_in_cycle initial_settings 3
                      - Cycle.inspiratory_time initial_settings)
                     / Cycle.expiratory_time initial_settings))
    /\ (1 < peep initial_settings -> pt_pressure p = peep initial_settings)
    /\ (peep initial_settings <= 1 ->
        pt_pressure p = peep initial_settings + 0.4)
    /\ Rabs (pt_flow p) <= 50
    /\ (Cycle.time_in_cycle initial_settings 3
        = Cycle.inspiratory_time initial_settings ->
        pt_flow p = - 50).
Proof.
  refine (vc_expiratory_waveform Sm3 initial_settings 3
            initial_ie_pos eq_refl _).
  rewrite initial_time_in_cycle, initial_inspiratory_time; lra.
Defined.

(** ** Pressure-controlled mode *)

(** C2.  In pressure-controlled mode (any mode other than "VC-CMV"), with
    [ie_ratio > 0] and a non-zero resistance, both files follow the four
    phases, with [ramp_time = 0.2 * inspiratory_time],
    [plateau = min (plateau_time, 0.5 * inspiratory_time)] and
    [peak_flow = pressure_support / resistance * 60]:
    - ramp, [t < ramp_time], [x = t / ramp_time]:
      pressure [peep + pressure_support * (1 - exp (- 5 * x))],
      flow [peak_flow * (1 - x ^ 2)],
      volume [tidal_volume * 0.5 * (1 - cos (pi * x / 2))];
    - plateau, [ramp_time <= t < ramp_time + plateau]:
      pressure [peep + pressure_support], flow [0.3 * peak_flow], volume
      [tidal_volume * (0.5 + 0.4 * x)] with [x] running over the plateau;
    - release, up to [inspiratory_time]:
      pressure [peep + pressure_support * exp (- 8 * x)],
      flow [0.1 * peak_flow],
      volume [tidal_volume * (0.9 + 0.1 * (1 - x))];
    - expiration, [t >= inspiratory_time],
      [x = (t - inspiratory_time) / expiratory_time]:
      pressure [peep + (peak_pressure - peep) * exp (- 5 * x)],
      flow [- 0.7 * peak_flow * exp (- 6 * x)],
      volume [tidal_volume * exp (- 5 * x)]. *)
Theorem pc_four_phase_waveform (src : source_file) (c : settings) (e : R) :
  0 < ie_ratio c ->
  resistance c <> 0 ->
  ventilation_mode c <> "VC-CMV"%string ->
  let t := Cycle.time_in_cycle c e in
  let insp := Cycle.inspiratory_time c in
  let ramp_time := 0.2 * insp in
  let plateau := Rmin (plateau_time c) (0.5 * insp) in
  let peak_flow := pressure_support c / resistance c * 60 in
  (t < ramp_time ->
   let x := t / ramp_time in
   generate_next_point src c e =
   Ok {| pt_time := e;
         pt_pressure := peep c + pressure_support c * (1 - exp (- 5 * x));
         pt_flow := peak_flow * (1 - x ^ 2);
         pt_volume := tidal_volume c * 0.5 * (1 - cos (PI * x / 2)) |})
  /\ (ramp_time <= t < ramp_time + plateau ->
      let x := (t - ramp_time) / plateau in
      generate_next_point src c e =
      Ok {| pt_time := e;
            pt_pressure := peep c + pressure_support c;
            pt_flow := 0.3 * peak_flow;
            pt_volume := tidal_volume c * (0.5 + 0.4 * x) |}
      /\ tidal_volume c * (0.5 + 0.4 * 0) = 0.5 * tidal_volume c
      /\ tidal_volume c * (0.5 + 0.4 * 1) = 0.9 * tidal_volume c)
  /\ (ramp_time <= t -> ramp_time + plateau <= t < insp ->
      let x := (t - ramp_time - plateau) / (insp - ramp_time - plateau) in
      generate_next_point src c e =
      Ok {| pt_time := e;
            pt_pressure := peep c + pressure_support c * exp (- 8 * x);
            pt_flow := 0.1 * peak_flow;
            pt_volume := tidal_volume c * (0.9 + 0.1 * (1 - x)) |})
  /\ (insp <= t ->
      let x := (t - insp) / Cycle.expiratory_time c in
      generate_next_point src c e =
      Ok {| pt_time := e;
            pt_pressure :=
              peep c + (peak_pressure c - peep c) * exp (- 5 * x);
            pt_flow := - 0.7 * peak_flow * exp (- 6 * x);
            pt_volume := tidal_volume c * exp (- 5 * x) |}).
Proof.
  intros Hie Hres Hm t insp ramp_time plateau peak_flow.
  assert (Hramp : ramp_time = insp * 0.2) by (subst ramp_time; lra).
  assert (Hplat : plateau = Rmin (plateau_time c) (insp * 0.5)).
  { subst plateau. f_equal. lra. }
  clearbody ramp_time plateau. subst ramp_time plateau.
  split; [| split; [| split]].
  - intros Hlt x.
    rewrite (generate_pc_ramp c Hie src e Hm Hres Hlt). reflexivity.
  - intros Hin x.
    rewrite (generate_pc_plateau c Hie src e Hm Hres Hin).
    split; [| split; lra].
    do 2 f_equal. subst peak_flow. lra.
  - intros Hr Hin x.
    rewrite (generate_pc_release c Hie src e Hm Hres Hr Hin).
    do 2 f_equal. subst peak_flow. lra.
  - intros Hge x.
    rewrite (generate_pc_exp c Hie src e Hm Hres Hge).
    do 2 f_equal. subst peak_flow x t insp. lra.
Qed.

Lemma pc_total_time : Cycle.total_time pc_settings = 4.
Proof. exact initial_total_time. Qed.

Lemma pc_inspiratory_time : Cycle.inspiratory_time pc_settings = 24 / 11.
Proof. exact initial_inspiratory_time. Qed.

Lemma pc_time_in_cycle (e : R) :
  0 <= e < 4 -> Cycle.time_in_cycle pc_settings e = e.
Proof. exact (initial_time_in_cycle e). Qed.

Lemma pc_plateau :
  Rmin (plateau_time pc_settings)
       (0.5 * Cycle.inspiratory_time pc_settings) = 0.3.
Proof.
  rewrite pc_inspiratory_time. cbn [plateau_time pc_settings].
  apply Rmin_left. lra.
Qed.

Lemma pc_ie_pos : 0 < ie_ratio pc_settings.
Proof. exact initial_ie_pos. Qed.

Lemma pc_resistance_nz : resistance pc_settings <> 0.
Proof. cbn [resistance pc_settings]. lra. Qed.

Lemma pc_mode : ventilation_mode pc_settings <> "VC-CMV"%string.
Proof. discriminate. Qed.

Lemma pc_four_phase_waveform_witness :
  (exists p, generate_next_point Sm3 pc_settings 0.1 = Ok p)
  /\ (exists p, generate_next_point Sm3 pc_settings 0.5 = Ok p)
  /\ (exists p, generate_next_point Sm3 pc_settings 1 = Ok p)
  /\ (exists p, generate_next_point Sm3 pc_settings 3 = Ok p).
Proof.
  split; [| split; [| split]]; eexists.
  - refine (proj1 (pc_four_phase_waveform Sm3 pc_settings 0.1
                     pc_ie_pos pc_resistance_nz pc_mode) _).
    rewrite pc_time_in_cycle, pc_inspiratory_time; lra.
  - refine (proj1 (proj1 (proj2 (pc_four_phase_waveform Sm3 pc_settings 0.5
                     pc_ie_pos pc_resistance_nz pc_mode)) _)).
    rewrite pc_plateau, pc_time_in_cycle, pc_inspiratory_time; lra.
  - refine (proj1 (proj2 (proj2 (pc_four_phase_waveform Sm3 pc_settings 1
                     pc_ie_pos pc_resistance_nz pc_mode))) _ _).
    + rewrite pc_time_in_cycle, pc_inspiratory_time; lra.
    + rewrite pc_plateau, pc_time_in_cycle, pc_inspiratory_time; lra.
  - refine (proj2 (proj2 (proj2 (pc_four_phase_waveform Sm3 pc_settings 3
                     pc_ie_pos pc_resistance_nz pc_mode))) _).
    rewrite pc_time_in_cycle, pc_inspiratory_time; lra.
Defined.

(** ** Totality and timing *)

(** With [ie_ratio > 0], and a non-zero resistance in pressure-controlled
    mode, [generate_next_point] returns a point for every respiratory rate
    and every time. *)
Lemma generate_total (src : source_file) (c : settings) (e : R) :
  0 < ie_ratio c ->
  ventilation_mode c = "VC-CMV"%string \/ resistance c <> 0 ->
  exists p, generate_next_point src c e = Ok p /\ pt_time p = e.
Proof.
  intros Hie Hmode.
  pose proof (inspiratory_time_pos c Hie) as Hinsp.
  destruct (string_dec (ventilation_mode c) "VC-CMV") as [Hm | Hm].
  - destruct (Rlt_dec (Cycle.time_in_cycle c e) (Cycle.inspiratory_time c))
      as [Hlt | Hge].
    + destruct src; eexists; split.
      * apply (generate_vc_insp_sm3 c Hie e Hm Hlt).
      * reflexivity.
      * apply (generate_vc_insp_prog2 c Hie e Hm Hlt).
      * reflexivity.
    + eexists; split.
      * apply (generate_vc_exp c Hie src e Hm). lra.
      * reflexivity.
  - destruct Hmode as [Hvc | Hres]; [contradiction |].
    set (t := Cycle.time_in_cycle c e).
    set (insp := Cycle.inspiratory_time c).
    set (ramp := insp * 0.2).
    set (plateau := Rmin (plateau_time c) (insp * 0.5)).
    destruct (Rlt_dec t ramp) as [H1 | H1].
    { eexists; split;
        [apply (generate_pc_ramp c Hie src e Hm Hres H1) | reflexivity]. }
    destruct (Rlt_dec t (ramp + plateau)) as [H2 | H2].
    { eexists; split;
        [apply (generate_pc_plateau c Hie src e Hm Hres); fold t insp ramp
           plateau; lra | reflexivity]. }
    destruct (Rlt_dec t insp) as [H3 | H3].
    { eexists; split;
        [apply (generate_pc_release c Hie src e Hm Hres); fold t insp ramp
           plateau; lra | reflexivity]. }
    eexists; split;
      [apply (generate_pc_exp c Hie src e Hm Hres); fold t insp; lra
      | reflexivity].
Qed.

(** For [ie_ratio > 0] the code's timing is the specification's. *)
Lemma cycle_timing_code (c : settings) :
  0 < ie_ratio c ->
  cycle_timing c =
    Ok (Cycle.total_time c, Cycle.inspiratory_time c,
        Cycle.expiratory_time c)
  /\ Cycle.total_time c = 60 / Rmax 1 (resp_rate c).
Proof.
  intros Hie. split; [| reflexivity].
  pose proof (max_rate_pos c) as Hpos.
  pose proof (inv_ie_pos c Hie) as Hinv.
  unfold cycle_timing.
  rewrite (div_Ok 60) by lra. cbn [rbind].
  rewrite (div_Ok 1 (ie_ratio c)) by lra. cbn [rbind].
  rewrite (div_Ok 1 (1 + 1 / ie_ratio c)) by lra. cbn [rbind].
  rewrite (div_Ok 1 (1 + ie_ratio c)) by lra. cbn [rbind].
  fold (Cycle.total_time c).
  rewrite (insp_time_code c Hie), (exp_time_code c Hie).
  reflexivity.
Qed.

(** The generator reads the rate only through [max (1, rate)]. *)
Lemma generate_rate_floor (src : source_file) (c : settings) (e : R) :
  generate_next_point src c e
  = generate_next_point src (with_resp_rate (Rmax 1 (resp_rate c)) c) e.
Proof.
  unfold generate_next_point, cycle_timing.
  cbn [with_resp_rate resp_rate tidal_volume peep peak_pressure ie_ratio
       ventilation_mode pressure_support plateau_time resistance compliance].
  rewrite (Rmax_right 1 (Rmax 1 (resp_rate c))) by apply Rmax_l.
  reflexivity.
Qed.

(** C9.  [generate_next_point] computes [total_time = 60 / max (1, rate)]:
    the rate is floored at 1 before the division, which therefore raises
    nothing whatever the rate (for a rate of at most 1 the total is 60),
    and the whole cycle timing can only fail through [ie_ratio] (0 or -1).
    The generator reads the rate through [max (1, rate)] only: its result
    at any rate is its result at the floored rate, so every rate of at
    most 1, zero and negative ones included, gives what rate 1 gives.  For
    [ie_ratio > 0] the code's timing is
    [inspiratory_time = total_time / (1 + 1 / ie_ratio)] and
    [expiratory_time = total_time / (1 + ie_ratio)]; the generator returns
    a point at every time (given a non-zero resistance outside
    volume-controlled mode), and that point is the one of these three
    values: with [t = elapsed_time mod total_time], in volume-controlled
    mode [t < inspiratory_time] gives the inspiratory pressure at
    [t / inspiratory_time] and [inspiratory_time <= t] gives the expiratory
    point at [(t - inspiratory_time) / expiratory_time]; in
    pressure-controlled mode [inspiratory_time <= t] gives the expiratory
    point at the same fraction. *)
Theorem cycle_timing_rate_floor (src : source_file) (c : settings) (e : R) :
  let total_time := 60 / Rmax 1 (resp_rate c) in
  let insp_time := total_time / (1 + 1 / ie_ratio c) in
  let exp_time := total_time / (1 + ie_ratio c) in
  let t := e - total_time * IZR (Int_part (e / total_time)) in
  1 <= Rmax 1 (resp_rate c)
  /\ Py.div 60 (Rmax 1 (resp_rate c)) = Ok total_time
  /\ (resp_rate c <= 1 -> total_time = 60)
  /\ (ie_ratio c <> 0 -> ie_ratio c <> - 1 ->
      exists insp exp_,
        cycle_timing c = Ok (total_time, insp, exp_))
  /\ generate_next_point src c e
     = generate_next_point src (with_resp_rate (Rmax 1 (resp_rate c)) c) e
  /\ (resp_rate c <= 1 ->
      generate_next_point src c e
      = generate_next_point src (with_resp_rate 1 c) e)
  /\ (0 < ie_ratio c ->
      cycle_timing c = Ok (total_time, insp_time, exp_time)
      /\ (ventilation_mode c = "VC-CMV"%string \/ resistance c <> 0 ->
          exists p, generate_next_point src c e = Ok p)
      /\ (ventilation_mode c = "VC-CMV"%string ->
          (t < insp_time ->
           exists p,
             generate_next_point src c e = Ok p
             /\ pt_pressure p
                = peep c
                  + (peak_pressure c - peep c)
                    * (1 - exp (- match src with Sm3 => 2 | Prog2_0 => 4 end
                                * (t / insp_time))))
          /\ (insp_time <= t ->
              generate_next_point src c e =
              Ok {| pt_time := e;
                    pt_pressure :=
                      if Rlt_dec 1 (peep c) then peep c else peep c + 0.4;
                    pt_flow := - 50 * exp (- 7 * ((t - insp_time) / exp_time));
                    pt_volume :=
                      tidal_volume c
                      * exp (- 8 * ((t - insp_time) / exp_time)) |}))
      /\ (ventilation_mode c <> "VC-CMV"%string -> resistance c <> 0 ->
          insp_time <= t ->
          generate_next_point src c e =
          Ok {| pt_time := e;
                pt_pressure :=
                  peep c
                  + (peak_pressure c - peep c)
                    * exp (- 5 * ((t - insp_time) / exp_time));
                pt_flow :=
                  - (pressure_support c / resistance c * 60) * 0.7
                  * exp (- 6 * ((t - insp_time) / exp_time));
                pt_volume :=
                  tidal_volume c
                  * exp (- 5 * ((t - insp_time) / exp_time)) |})).
Proof.
  intros total_time insp_time exp_time t.
  pose proof (max_rate_pos c) as Hpos.
  split; [apply Rmax_l |].
  split; [apply div_Ok; lra |].
  split.
  { intros Hr. subst total_time. rewrite Rmax_left by lra. lra. }
  split.
  { intros H0 H1.
    assert (Hinv : 1 + 1 / ie_ratio c <> 0).
    { intros Hz. apply H1.
      assert (Hq : 1 / ie_ratio c = - 1) by lra.
      apply (f_equal (fun y => y * ie_ratio c)) in Hq.
      replace (1 / ie_ratio c * ie_ratio c) with 1 in Hq by (field; exact H0).
      lra. }
    unfold cycle_timing.
    rewrite (div_Ok 60) by lra. cbn [rbind].
    rewrite (div_Ok 1 (ie_ratio c)) by exact H0. cbn [rbind].
    rewrite (div_Ok 1 (1 + 1 / ie_ratio c)) by exact Hinv. cbn [rbind].
    rewrite (div_Ok 1 (1 + ie_ratio c)) by lra. cbn [rbind].
    eauto. }
  split; [apply generate_rate_floor |].
  split.
  { intros Hr. rewrite generate_rate_floor.
    rewrite Rmax_left by exact Hr. reflexivity. }
  intros Hie.
  split; [exact (proj1 (cycle_timing_code c Hie)) |].
  split.
  { intros Hmode.
    destruct (generate_total src c e Hie Hmode) as [p [Hp _]].
    exists p. exact Hp. }
  split.
  - intros Hm. split.
    + intros Hlt. destruct src; eexists; split.
      * exact (generate_vc_insp_sm3 c Hie e Hm Hlt).
      * reflexivity.
      * exact (generate_vc_insp_prog2 c Hie e Hm Hlt).
      * reflexivity.
    + intros Hge. exact (generate_vc_exp c Hie src e Hm Hge).
  - intros Hm Hres Hge.
    exact (generate_pc_exp c Hie src e Hm Hres Hge).
Qed.

Lemma cycle_timing_rate_floor_witness :
  generate_next_point Prog2_0 (set_cfg_rate0 initial_settings) 70
  = generate_next_point Prog2_0
      (with_resp_rate 1 (set_cfg_rate0 initial_settings)) 70
  /\ cycle_timing (set_cfg_rate0 initial_settings)
     = Ok (60 / Rmax 1 0, 60 / Rmax 1 0 / (1 + 1 / 1.2),
           60 / Rmax 1 0 / (1 + 1.2)).
Proof.
  pose proof (cycle_timing_rate_floor Prog2_0
                (set_cfg_rate0 initial_settings) 70)
    as (_ & _ & _ & _ & _ & Hfloor & Htiming).
  split.
  - apply Hfloor. cbn [resp_rate set_cfg_rate0]. lra.
  - refine (proj1 (Htiming _)).
    cbn [ie_ratio set_cfg_rate0 initial_settings]. lra.
Defined.

(** ** Start and shape of the inspiratory volume *)

Lemma insp_volume_continuous (src : source_file) (c : settings) :
  continuity (insp_volume src c).
Proof.
  apply derivable_continuous. unfold insp_volume. destruct src; reg.
Qed.

Lemma insp_volume_monotone (src : source_file) (c : settings) (a b : R) :
  0 < ie_ratio c -> 0 <= tidal_volume c ->
  0 <= a -> a <= b -> b <= Cycle.inspiratory_time c ->
  insp_volume src c a <= insp_volume src c b.
Proof.
  intros Hie Htv Ha Hab Hb.
  pose proof (inspiratory_time_pos c Hie) as Hinsp.
  assert (Hinv : 0 < / Cycle.inspiratory_time c)
    by (apply Rinv_0_lt_compat; exact Hinsp).
  assert (Hxa : 0 <= a / Cycle.inspiratory_time c)
    by (apply Rmult_le_pos; lra).
  assert (Hxab : a / Cycle.inspiratory_time c <= b / Cycle.inspiratory_time c)
    by (apply Rmult_le_compat_r; lra).
  assert (Hxb : b / Cycle.inspiratory_time c <= 1).
  { apply (Rmult_le_reg_r (Cycle.inspiratory_time c)); [exact Hinsp |].
    replace (b / Cycle.inspiratory_time c * Cycle.inspiratory_time c)
      with b by (field; lra). lra. }
  pose proof PI_RGT_0 as Hpi.
  unfold insp_volume. destruct src.
  - assert (Hcos : cos (PI * (b / Cycle.inspiratory_time c))
                   <= cos (PI * (a / Cycle.inspiratory_time c))).
    { apply cos_decr_1.
      - apply Rmult_le_pos; lra.
      - rewrite <- (Rmult_1_r PI) at 2. apply Rmult_le_compat_l; lra.
      - apply Rmult_le_pos; lra.
      - rewrite <- (Rmult_1_r PI) at 2. apply Rmult_le_compat_l; lra.
      - apply Rmult_le_compat_l; lra. }
    apply Rmult_le_compat_l; [lra | lra].
  - apply Rmult_le_compat_l; lra.
Qed.

(** C7.  In volume-controlled mode with [ie_ratio > 0], in both files:
    at [time_in_cycle = 0] the generated volume is 0 and the generated
    pressure is [peep]; over the inspiratory phase the generated volume is
    [insp_volume] of the time in cycle, a continuous function, and it is
    non-decreasing for a non-negative tidal volume; and a rate of 15 with an I:E ratio of 1.2
    gives [total_time = 4], [inspiratory_time] within 0.005 of 2.18 and
    [expiratory_time] within 0.005 of 1.82. *)
Theorem vc_volume_start_and_shape (src : source_file) (c : settings) :
  0 < ie_ratio c ->
  ventilation_mode c = "VC-CMV"%string ->
  (forall e, Cycle.time_in_cycle c e = 0 ->
     exists p, generate_next_point src c e = Ok p
               /\ pt_volume p = 0 /\ pt_pressure p = peep c)
  /\ (continuity (insp_volume src c)
      /\ forall e,
           Cycle.time_in_cycle c e < Cycle.inspiratory_time c ->
           exists p, generate_next_point src c e = Ok p
                     /\ pt_volume p
                        = insp_volume src c (Cycle.time_in_cycle c e))
  /\ (0 <= tidal_volume c ->
      forall e1 e2 p1 p2,
        Cycle.time_in_cycle c e1 <= Cycle.time_in_cycle c e2 ->
        Cycle.time_in_cycle c e2 < Cycle.inspiratory_time c ->
        generate_next_point src c e1 = Ok p1 ->
        generate_next_point src c e2 = Ok p2 ->
        pt_volume p1 <= pt_volume p2)
  /\ (resp_rate c = 15 -> ie_ratio c = 1.2 ->
      exists insp_time exp_time,
        cycle_timing c = Ok (4.0, insp_time, exp_time)
        /\ Rabs (insp_time - 2.18) < 0.005
        /\ Rabs (exp_time - 1.82) < 0.005).
Proof.
  intros Hie Hm.
  pose proof (inspiratory_time_pos c Hie) as Hinsp.
  assert (Hgen : forall e,
            Cycle.time_in_cycle c e < Cycle.inspiratory_time c ->
            exists p, generate_next_point src c e = Ok p
                      /\ pt_volume p = insp_volume src c (Cycle.time_in_cycle c e)
                      /\ (Cycle.time_in_cycle c e = 0 ->
                          pt_pressure p = peep c)).
  { intros e Hlt. destruct src; eexists; (split; [| split]).
    - apply (generate_vc_insp_sm3 c Hie e Hm Hlt).
    - reflexivity.
    - intros H0. cbn [pt_pressure]. rewrite H0.
      replace (- 2 * (0 / Cycle.inspiratory_time c)) with 0 by (field; lra).
      rewrite exp_0. lra.
    - apply (generate_vc_insp_prog2 c Hie e Hm Hlt).
    - reflexivity.
    - intros H0. cbn [pt_pressure]. rewrite H0.
      replace (- 4 * (0 / Cycle.inspiratory_time c)) with 0 by (field; lra).
      rewrite exp_0. lra. }
  split; [| split; [| split]].
  - intros e H0.
    destruct (Hgen e) as [p [Hp [Hv Hpr]]]; [lra |].
    exists p. split; [exact Hp |]. split; [| exact (Hpr H0)].
    rewrite Hv, H0. unfold insp_volume. destruct src.
    + replace (PI * (0 / Cycle.inspiratory_time c)) with 0 by (field; lra).
      rewrite cos_0. lra.
    + replace (0 / Cycle.inspiratory_time c) with 0 by (field; lra). lra.
  - split; [apply insp_volume_continuous |].
    intros e Hlt. destruct (Hgen e Hlt) as [p [Hp [Hv _]]]. eauto.
  - intros Htv e1 e2 p1 p2 Hle Hlt H1 H2.
    destruct (Hgen e1) as [q1 [Hq1 [Hv1 _]]]; [lra |].
    destruct (Hgen e2 Hlt) as [q2 [Hq2 [Hv2 _]]].
    rewrite H1 in Hq1. rewrite H2 in Hq2.
    injection Hq1 as <-. injection Hq2 as <-.
    rewrite Hv1, Hv2.
    pose proof (time_in_cycle_range c e1) as [H0 _].
    apply insp_volume_monotone; try assumption. lra.
  - intros Hr Hi.
    destruct (cycle_timing_code c Hie) as [Hct Htot].
    rewrite Hct. do 2 eexists. split.
    + f_equal. f_equal. f_equal. unfold Cycle.total_time. rewrite Hr.
      rewrite Rmax_right by lra. lra.
    + assert (Ht : Cycle.total_time c = 4).
      { unfold Cycle.total_time. rewrite Hr.
        rewrite Rmax_right by lra. lra. }
      unfold Cycle.inspiratory_time, Cycle.expiratory_time.
      rewrite Ht, Hi.
      replace (4 / (1 + 1 / 1.2)) with (24 / 11)
        by (replace 1.2 with (12 / 10) by lra; field).
      replace (4 / (1 + 1.2)) with (20 / 11)
        by (replace 1.2 with (12 / 10) by lra; field).
      split; apply Rabs_def1; lra.
Qed.

Lemma vc_volume_start_and_shape_witness :
  exists p, generate_next_point Sm3 initial_settings 0 = Ok p
            /\ pt_volume p = 0 /\ pt_pressure p = peep initial_settings.
Proof.
  refine (proj1 (vc_volume_start_and_shape Sm3 initial_settings
                   initial_ie_pos eq_refl) 0 _).
  apply initial_time_in_cycle. lra.
Defined.

(** ** The sliding window *)

Lemma select_Ok {A : Type} (data : list A) (mask : list bool) :
  List.length data = List.length mask ->
  Py.select data mask = Ok (map fst (filter snd (combine data mask))).
Proof.
  revert mask. induction data as [| x data IH]; intros [| b mask] Hlen;
    try discriminate.
  - reflexivity.
  - cbn [Py.select]. rewrite IH by (simpl in Hlen; lia).
    cbn [rbind combine filter snd]. destruct b; reflexivity.
Qed.

Lemma zip4_select (f : R -> bool) (ts ps fs vs : list R) :
  List.length ps = List.length ts ->
  List.length fs = List.length ts ->
  List.length vs = List.length ts ->
  let sel (d : list R) := map fst (filter snd (combine d (map f ts))) in
  zip4 (sel ts) (sel ps) (sel fs) (sel vs)
  = filter (fun p => f (pt_time p)) (zip4 ts ps fs vs).
Proof.
  revert ps fs vs.
  induction ts as [| t ts IH]; intros [| p ps] [| fl fs] [| v vs];
    try discriminate; intros Hp Hf Hv; [reflexivity |].
  cbn zeta in *. cbn [map combine filter snd zip4 pt_time].
  destruct (f t); cbn [map fst zip4];
    rewrite IH by (simpl in *; lia); reflexivity.
Qed.

Lemma in_window_iff (lo hi : R) (p : point) :
  in_window lo hi p = true <-> lo <= pt_time p <= hi.
Proof.
  unfold in_window, Py.geb. rewrite andb_true_iff, !leb_iff. tauto.
Qed.

Lemma window_t_max_last (s : session) :
  window_t_max s = last (time_data s) 0.
Proof.
  unfold window_t_max, Py.last_or.
  destruct (time_data s); reflexivity.
Qed.

Lemma window_mask_length (s : session) :
  List.length (window_mask s) = List.length (time_data s).
Proof. unfold window_mask. apply length_map. Qed.

(** With aligned buffers the window stage returns, and only the plots
    change. *)
Lemma render_window_Done (s : session) :
  aligned s ->
  let sel (d : list R) :=
    map fst (filter snd (combine d (window_mask s))) in
  render_window s =
  Done (upd_graphs s
          {| curve := (sel (time_data s), sel (pressure_data s));
             x_range := (window_t_min s, window_t_max s) |}
          {| curve := (sel (time_data s), sel (flow_data s));
             x_range := (window_t_min s, window_t_max s) |}
          {| curve := (sel (time_data s), sel (volume_data s));
             x_range := (window_t_min s, window_t_max s) |}).
Proof.
  intros (Hp & Hf & Hv) sel. unfold render_window.
  pose proof (window_mask_length s) as Hm.
  rewrite !select_Ok by congruence.
  reflexivity.
Qed.

(** ** Stages of a tick *)

Lemma update_graphs_Done_inv (src : source_file) (now : Z) (s s' : session) :
  update_graphs src now s = Done s' ->
  exists p,
    generate_next_point src (cfg s) (time_index (sync_clock now s)) = Ok p
    /\ render_window (trim_buffers (append_point p (sync_clock now s)))
       = Done s'.
Proof.
  unfold update_graphs. intros H.
  assert (Hcfg : cfg (sync_clock now s) = cfg s)
    by (unfold sync_clock; destruct (start_time s); reflexivity).
  rewrite Hcfg in H.
  destruct (generate_next_point src (cfg s) (time_index (sync_clock now s)))
    as [p | e]; [| discriminate].
  exists p. split; [reflexivity |].
  destruct (Py.div 60 _); [exact H | discriminate].
Qed.

Lemma slice_from_length {A B : Type} (i : Z) (l1 : list A) (l2 : list B) :
  List.length l1 = List.length l2 ->
  List.length (Py.slice_from i l1) = List.length (Py.slice_from i l2).
Proof.
  intros H. unfold Py.slice_from. rewrite !length_skipn, H. reflexivity.
Qed.

Lemma sync_clock_buffers (now : Z) (s : session) :
  time_data (sync_clock now s) = time_data s
  /\ pressure_data (sync_clock now s) = pressure_data s
  /\ flow_data (sync_clock now s) = flow_data s
  /\ volume_data (sync_clock now s) = volume_data s.
Proof. unfold sync_clock. destruct (start_time s); repeat split. Qed.

Lemma aligned_sync_clock (now : Z) (s : session) :
  aligned s -> aligned (sync_clock now s).
Proof.
  unfold aligned. destruct (sync_clock_buffers now s) as (-> & -> & -> & ->).
  trivial.
Qed.

Lemma aligned_append_point (p : point) (s : session) :
  aligned s -> aligned (append_point p s).
Proof.
  unfold aligned, append_point. cbn. rewrite !length_app. cbn. lia.
Qed.

Lemma aligned_trim_buffers (s : session) :
  aligned s -> aligned (trim_buffers s).
Proof.
  intros (Hp & Hf & Hv). unfold trim_buffers.
  destruct (_ >? _)%Z; [| repeat split; assumption].
  unfold aligned. cbn.
  repeat split; apply slice_from_length; assumption.
Qed.

Lemma render_window_buffers (s s' : session) :
  render_window s = Done s' ->
  cfg s' = cfg s /\ time_index s' = time_index s
  /\ start_time s' = start_time s
  /\ max_points s' = max_points s
  /\ time_data s' = time_data s /\ pressure_data s' = pressure_data s
  /\ flow_data s' = flow_data s /\ volume_data s' = volume_data s.
Proof.
  unfold render_window. intros H.
  destruct (Py.select (time_data s) _); [| discriminate].
  destruct (Py.select (pressure_data s) _); [| discriminate].
  destruct (Py.select (flow_data s) _); [| discriminate].
  destruct (Py.select (volume_data s) _); [| discriminate].
  injection H as <-. repeat split.
Qed.

(** C5.  For every history with aligned buffers, the window stage of a
    tick returns; it sets the X range of the three plots to
    [(t_min, t_max)] with [t_max] the time of the last sample (0 if there
    is none) and [t_min = max (0, t_max - 10)]; the three curves share
    their time axis and show exactly the samples of the history with
    [t_min <= time <= t_max], in order; and the four buffers, the settings
    and the clock are left as they were.  After a whole tick the plots
    show the window of the history that tick produced. *)
Theorem visible_window_spec :
  (forall s : session,
     aligned s ->
     let t_max := last (time_data s) 0 in
     let t_min := Rmax 0 (t_max - window_size) in
     exists s',
       render_window s = Done s'
       /\ (cfg s' = cfg s /\ time_index s' = time_index s
           /\ start_time s' = start_time s
           /\ time_data s' = time_data s
           /\ pressure_data s' = pressure_data s
           /\ flow_data s' = flow_data s
           /\ volume_data s' = volume_data s)
       /\ (x_range (pressure_graph s') = (t_min, t_max)
           /\ x_range (flow_graph s') = (t_min, t_max)
           /\ x_range (volume_graph s') = (t_min, t_max))
       /\ (fst (curve (flow_graph s')) = fst (curve (pressure_graph s'))
           /\ fst (curve (volume_graph s')) = fst (curve (pressure_graph s')))
       /\ displayed s' = filter (in_window t_min t_max) (history s)
       /\ (forall p, In p (displayed s') <->
                     In p (history s) /\ t_min <= pt_time p <= t_max))
  /\ (forall src now s0 s1,
        aligned s0 ->
        update_graphs src now s0 = Done s1 ->
        let t_max := last (time_data s1) 0 in
        let t_min := Rmax 0 (t_max - window_size) in
        x_range (pressure_graph s1) = (t_min, t_max)
        /\ displayed s1 = filter (in_window t_min t_max) (history s1)).
Proof.
  assert (Hmain : forall s : session,
     aligned s ->
     exists s',
       render_window s = Done s'
       /\ (x_range (pressure_graph s') = (window_t_min s, window_t_max s)
           /\ x_range (flow_graph s') = (window_t_min s, window_t_max s)
           /\ x_range (volume_graph s') = (window_t_min s, window_t_max s))
       /\ (fst (curve (flow_graph s')) = fst (curve (pressure_graph s'))
           /\ fst (curve (volume_graph s')) = fst (curve (pressure_graph s')))
       /\ displayed s'
          = filter (in_window (window_t_min s) (window_t_max s)) (history s)).
  { intros s Hal. eexists. split; [apply (render_window_Done s Hal) |].
    split; [repeat split |]. split; [repeat split |].
    unfold displayed, history. cbn [pressure_graph flow_graph volume_graph
      upd_graphs curve fst snd].
    destruct Hal as (Hp & Hf & Hv). unfold window_mask.
    apply (zip4_select
             (fun t => Py.geb t (window_t_min s) && Py.leb t (window_t_max s))
             (time_data s) _ _ _ Hp Hf Hv). }
  split.
  - intros s Hal t_max t_min.
    destruct (Hmain s Hal) as (s' & Hr & Hx & Hc & Hd).
    assert (Etmax : window_t_max s = t_max) by apply window_t_max_last.
    assert (Etmin : window_t_min s = t_min)
      by (unfold window_t_min; rewrite Etmax; reflexivity).
    rewrite Etmax, Etmin in *.
    exists s'. split; [exact Hr |].
    destruct (render_window_buffers s s' Hr)
      as (H1 & H2 & H3 & _ & H4 & H5 & H6 & H7).
    split; [repeat split; assumption |].
    split; [exact Hx |]. split; [exact Hc |]. split; [exact Hd |].
    intros p. rewrite Hd, filter_In, in_window_iff. tauto.
  - intros src now s0 s1 Hal Hup t_max t_min.
    destruct (update_graphs_Done_inv src now s0 s1 Hup) as (p & _ & Hr).
    set (s4 := trim_buffers (append_point p (sync_clock now s0))) in *.
    assert (Hal4 : aligned s4)
      by (apply aligned_trim_buffers, aligned_append_point,
            aligned_sync_clock, Hal).
    destruct (Hmain s4 Hal4) as (s' & Hr' & (Hx & _) & _ & Hd).
    rewrite Hr in Hr'. injection Hr' as <-.
    destruct (render_window_buffers s4 s1 Hr)
      as (_ & _ & _ & _ & H4 & H5 & H6 & H7).
    assert (Etmax : window_t_max s4 = t_max)
      by (rewrite window_t_max_last, <- H4; reflexivity).
    assert (Etmin : window_t_min s4 = t_min)
      by (unfold window_t_min; rewrite Etmax; reflexivity).
    rewrite Etmax, Etmin in *.
    split; [exact Hx |].
    rewrite Hd. unfold history. rewrite H4, H5, H6, H7. reflexivity.
Qed.

Lemma demo_session_aligned : aligned demo_session.
Proof. repeat split. Qed.

Lemma visible_window_spec_witness :
  exists s',
    render_window demo_session = Done s'
    /\ x_range (pressure_graph s') = (Rmax 0 (12 - window_size), 12)
    /\ time_data s' = [0; 5; 12].
Proof.
  destruct (proj1 visible_window_spec demo_session demo_session_aligned)
    as (s' & Hr & (_ & _ & _ & Htd & _) & (Hx & _) & _).
  exists s'. split; [exact Hr |]. split; [exact Hx | exact Htd].
Defined.

(** ** The bounded history *)

Lemma rbind_Ok_inv {A B : Type} (r : result A) (k : A -> result B) (b : B) :
  rbind r k = Ok b -> exists a, r = Ok a /\ k a = Ok b.
Proof. destruct r as [a | e]; [eauto | discriminate]. Qed.

(** The point returned carries the time it was asked for. *)
Lemma generate_time (src : source_file) (c : settings) (e : R) (p : point) :
  generate_next_point src c e = Ok p -> pt_time p = e.
Proof.
  unfold generate_next_point. intros H.
  repeat first
    [ apply rbind_Ok_inv in H; destruct H as (? & _ & H)
    | match type of H with
      | (let '(_, _) := ?x in _) = _ => destruct x
      | (if ?b then _ else _) = _ => destruct b
      | match ?x with Sm3 => _ | Prog2_0 => _ end = _ => destruct x
      end ];
    injection H as <-; reflexivity.
Qed.

Lemma keep_last_length {A : Type} (n : nat) (l : list A) :
  (List.length (keep_last n l) <= n)%nat.
Proof. unfold keep_last. rewrite length_skipn. lia. Qed.

Lemma keep_last_all {A : Type} (n : nat) (l : list A) :
  (List.length l <= n)%nat -> keep_last n l = l.
Proof.
  intros H. unfold keep_last.
  replace (List.length l - n)%nat with 0%nat by lia. reflexivity.
Qed.

(** The entries kept are a suffix: what is dropped comes from the head,
    and only when the sequence is longer than [n]. *)
Lemma keep_last_suffix {A : Type} (n : nat) (l : list A) :
  exists dropped,
    l = dropped ++ keep_last n l
    /\ (dropped <> [] -> List.length (keep_last n l) = n).
Proof.
  exists (firstn (List.length l - n) l). unfold keep_last. split.
  - symmetry. apply firstn_skipn.
  - intros Hne. rewrite length_skipn.
    destruct (Nat.le_gt_cases (List.length l) n) as [Hle | Hgt]; [| lia].
    exfalso. apply Hne.
    replace (List.length l - n)%nat with 0%nat by lia. reflexivity.
Qed.

Lemma skipn_app_exact {A : Type} (d x : list A) (m : nat) :
  skipn (List.length d + m) (d ++ x) = skipn m x.
Proof.
  induction d as [| a d IH]; [reflexivity | exact IH].
Qed.

Lemma keep_last_absorb {A : Type} (n : nat) (l r : list A) :
  keep_last n (keep_last n l ++ r) = keep_last n (l ++ r).
Proof.
  destruct (keep_last_suffix n l) as (d & Hl & Hd).
  destruct d as [| a d].
  - simpl in Hl. rewrite <- Hl. reflexivity.
  - assert (Hk : List.length (keep_last n l) = n) by (apply Hd; discriminate).
    set (k := keep_last n l) in *. clearbody k. subst l.
    unfold keep_last. rewrite <- app_assoc, !length_app.
    replace (List.length (a :: d) + (List.length k + List.length r) - n)%nat
      with (List.length (a :: d)
            + (List.length k + List.length r - n))%nat by lia.
    rewrite skipn_app_exact. reflexivity.
Qed.

Lemma slice_from_keep_last {A : Type} (n : Z) (l : list A) :
  (0 < n)%Z -> Py.slice_from (- n) l = keep_last (Z.to_nat n) l.
Proof.
  intros Hn. unfold Py.slice_from, keep_last.
  destruct (Z.ltb_spec (- n) 0); [| lia]. f_equal. lia.
Qed.

Lemma trim_keep_last {A : Type} (n : Z) (len : nat) (l : list A) :
  (0 < n)%Z -> List.length l = len ->
  (if (Z.of_nat len >? n)%Z then Py.slice_from (- n) l else l)
  = keep_last (Z.to_nat n) l.
Proof.
  intros Hn Hlen. destruct (Z.gtb_spec (Z.of_nat len) n).
  - apply slice_from_keep_last, Hn.
  - symmetry. apply keep_last_all. lia.
Qed.

Lemma trim_buffers_keep_last (s : session) :
  (0 < max_points s)%Z -> aligned s ->
  let n := Z.to_nat (max_points s) in
  time_data (trim_buffers s) = keep_last n (time_data s)
  /\ pressure_data (trim_buffers s) = keep_last n (pressure_data s)
  /\ flow_data (trim_buffers s) = keep_last n (flow_data s)
  /\ volume_data (trim_buffers s) = keep_last n (volume_data s).
Proof.
  intros Hn (Hp & Hf & Hv) n. subst n.
  rewrite <- (trim_keep_last _ _ (time_data s) Hn eq_refl).
  rewrite <- (trim_keep_last _ _ (pressure_data s) Hn Hp).
  rewrite <- (trim_keep_last _ _ (flow_data s) Hn Hf).
  rewrite <- (trim_keep_last _ _ (volume_data s) Hn Hv).
  unfold trim_buffers. destruct (_ >? _)%Z; repeat split.
Qed.

Lemma StronglySorted_skipn {A : Type} (R : A -> A -> Prop) (k : nat)
    (l : list A) :
  StronglySorted R l -> StronglySorted R (skipn k l).
Proof.
  revert l. induction k as [| k IH]; intros l Hs; [exact Hs |].
  destruct l as [| a l]; [exact Hs |].
  apply IH. inversion Hs; assumption.
Qed.

Lemma StronglySorted_snoc {A : Type} (R : A -> A -> Prop) (l : list A)
    (x : A) :
  StronglySorted R l -> Forall (fun a => R a x) l ->
  StronglySorted R (l ++ [x]).
Proof.
  induction 1 as [| a l Hs IH Ha]; intros Hall; cbn.
  - repeat constructor.
  - inversion Hall; subst. constructor; [apply IH; assumption |].
    apply Forall_app. split; [assumption | repeat constructor; assumption].
Qed.

Lemma Forall_skipn {A : Type} (P : A -> Prop) (k : nat) (l : list A) :
  Forall P l -> Forall P (skipn k l).
Proof.
  intros H. rewrite <- (firstn_skipn k l) in H.
  apply Forall_app in H. tauto.
Qed.

(** The time stamp of a tick, and the content of the time buffer after it,
    whatever the clock does. *)
Lemma tick_time_data (src : source_file) (now : Z) (s s' : session) :
  (0 < max_points s)%Z ->
  aligned s ->
  update_graphs src now s = Done s' ->
  time_index s'
  = match start_time s with
    | None => 0
    | Some st => IZR (msecsTo st now) / 1000
    end
  /\ start_time s'
     = match start_time s with
       | None => Some now
       | Some st => Some st
       end
  /\ max_points s' = max_points s
  /\ cfg s' = cfg s
  /\ aligned s'
  /\ time_data s'
     = keep_last (Z.to_nat (max_points s)) (time_data s ++ [time_index s']).
Proof.
  intros Hn Hal Hup.
  destruct (update_graphs_Done_inv src now s s' Hup) as (p & Hgen & Hr).
  apply generate_time in Hgen.
  set (s3 := append_point p (sync_clock now s)) in *.
  assert (Hal3 : aligned s3)
    by (apply aligned_append_point, aligned_sync_clock, Hal).
  assert (Hn3 : max_points s3 = max_points s)
    by (unfold s3, sync_clock; destruct (start_time s); reflexivity).
  destruct (trim_buffers_keep_last s3) as (Ht & _); [lia | exact Hal3 |].
  rewrite Hn3 in Ht.
  destruct (render_window_buffers _ _ Hr)
    as (Hcfg & Hti & Hst & Hmp & Htd & Hpd & Hfd & Hvd).
  assert (Hti' : time_index s' = pt_time p).
  { rewrite Hti, Hgen. unfold trim_buffers. destruct (_ >? _)%Z; reflexivity. }
  split; [| split; [| split; [| split; [| split]]]].
  - rewrite Hti', Hgen. unfold sync_clock.
    destruct (start_time s); cbn; lra.
  - rewrite Hst. unfold trim_buffers.
    destruct (_ >? _)%Z; unfold s3, sync_clock;
      destruct (start_time s) eqn:Est; cbn; try rewrite Est; reflexivity.
  - rewrite Hmp. unfold trim_buffers. destruct (_ >? _)%Z; exact Hn3.
  - rewrite Hcfg. unfold trim_buffers. destruct (_ >? _)%Z;
      unfold s3, sync_clock; destruct (start_time s); reflexivity.
  - unfold aligned. rewrite Htd, Hpd, Hfd, Hvd.
    apply aligned_trim_buffers, Hal3.
  - rewrite Htd, Ht, Hti'. unfold s3, append_point.
    cbn [time_data upd_buffers].
    destruct (sync_clock_buffers now s) as (-> & _). reflexivity.
Qed.

(** One tick keeps the history in order and within the bound, and leaves
    in it the most recent entries of the old history followed by the new
    time stamp. *)
Lemma tick_history_ok (src : source_file) (now clock : Z) (s s' : session) :
  (0 < max_points s)%Z ->
  history_ok s clock ->
  (clock <= now)%Z ->
  update_graphs src now s = Done s' ->
  history_ok s' now
  /\ max_points s' = max_points s
  /\ cfg s' = cfg s
  /\ time_data s'
     = keep_last (Z.to_nat (max_points s)) (time_data s ++ [time_index s']).
Proof.
  intros Hn [Hal Hbound Hsorted Hclock] Hle Hup.
  destruct (tick_time_data src now s s' Hn Hal Hup)
    as (Hti & Hst & Hmp & Hcfg & Hal' & Htd).
  assert (Hstamp : exists st,
            start_time s' = Some st
            /\ time_index s' = IZR (msecsTo st now) / 1000
            /\ Forall (fun t => t <= time_index s') (time_data s)).
  { rewrite Hst, Hti. destruct (start_time s) as [st |].
    - exists st. split; [reflexivity |]. split; [reflexivity |].
      eapply Forall_impl; [| exact Hclock]. cbn. intros t Ht.
      assert (IZR (msecsTo st clock) <= IZR (msecsTo st now))
        by (apply IZR_le; unfold msecsTo; lia).
      lra.
    - exists now. split; [reflexivity |]. split.
      + unfold msecsTo. rewrite Z.sub_diag. lra.
      + rewrite Hclock. constructor. }
  destruct Hstamp as (st & Hst' & Hnow & Hall).
  split; [| split; [exact Hmp | split; [exact Hcfg | exact Htd]]].
  constructor.
  - exact Hal'.
  - rewrite Hmp, Htd.
    pose proof (keep_last_length (Z.to_nat (max_points s))
                  (time_data s ++ [time_index s'])). lia.
  - rewrite Htd. apply StronglySorted_skipn.
    apply StronglySorted_snoc; assumption.
  - rewrite Hst'. rewrite Htd at 1. apply Forall_skipn.
    apply Forall_app. split.
    + rewrite <- Hnow. exact Hall.
    + constructor; [lra | constructor].
Qed.

Lemma update_graphs_total (src : source_file) (now : Z) (s : session) :
  aligned s ->
  0 < ie_ratio (cfg s) ->
  ventilation_mode (cfg s) = "VC-CMV"%string \/ resistance (cfg s) <> 0 ->
  exists s', update_graphs src now s = Done s'.
Proof.
  intros Hal Hie Hmode. unfold update_graphs.
  assert (Hcfg : cfg (sync_clock now s) = cfg s)
    by (unfold sync_clock; destruct (start_time s); reflexivity).
  rewrite Hcfg.
  destruct (generate_total src (cfg s) (time_index (sync_clock now s))
              Hie Hmode) as (p & -> & _).
  assert (Hcfg3 : cfg (append_point p (sync_clock now s)) = cfg s)
    by exact Hcfg.
  rewrite Hcfg3, div_Ok by (pose proof (max_rate_pos (cfg s)); lra).
  assert (Hal4 : aligned (trim_buffers (append_point p (sync_clock now s))))
    by (apply aligned_trim_buffers, aligned_append_point,
          aligned_sync_clock, Hal).
  pose proof (render_window_Done _ Hal4) as Hr. cbv zeta in Hr.
  rewrite Hr. eexists. reflexivity.
Qed.

Lemma last_cons_default {A : Type} (a d : A) (l : list A) :
  last (a :: l) d = last l a.
Proof.
  revert a d. induction l as [| b l IH]; intros a d; [reflexivity |].
  change (last (a :: b :: l) d) with (last (b :: l) d).
  rewrite IH. symmetry. apply IH.
Qed.

Lemma run_ticks_history_ok (src : source_file) (nows : list Z) :
  forall (clock : Z) (s s' : session),
    (0 < max_points s)%Z ->
    history_ok s clock ->
    StronglySorted Z.le (clock :: nows) ->
    run_ticks src nows s = Done s' ->
    history_ok s' (last nows clock)
    /\ max_points s' = max_points s
    /\ cfg s' = cfg s
    /\ exists stamps,
         List.length stamps = List.length nows
         /\ time_data s'
            = keep_last (Z.to_nat (max_points s)) (time_data s ++ stamps).
Proof.
  induction nows as [| now rest IH]; intros clock s s' Hn Hok Hclk Hrun.
  - injection Hrun as <-.
    split; [exact Hok | split; [reflexivity | split; [reflexivity |]]].
    exists []. split; [reflexivity |]. rewrite app_nil_r.
    symmetry. apply keep_last_all. destruct Hok. lia.
  - cbn [run_ticks] in Hrun.
    destruct (update_graphs src now s) as [s1 | e s1] eqn:Hup;
      [| discriminate].
    inversion Hclk as [| ? ? Hrest Hall]; subst.
    assert (Hle : (clock <= now)%Z) by (inversion Hall; assumption).
    destruct (tick_history_ok src now clock s s1 Hn Hok Hle Hup)
      as (Hok1 & Hmp1 & Hcfg1 & Htd1).
    destruct (IH now s1 s') as (Hok' & Hmp' & Hcfg' & stamps & Hlen & Htd');
      try assumption; [lia |].
    split.
    { rewrite last_cons_default. exact Hok'. }
    split; [congruence |]. split; [congruence |].
    exists (time_index s1 :: stamps). split; [cbn; lia |].
    rewrite Htd', Hmp1, Htd1, keep_last_absorb, <- app_assoc. reflexivity.
Qed.

Lemma run_ticks_total (src : source_file) (nows : list Z) :
  forall s : session,
    aligned s ->
    0 < ie_ratio (cfg s) ->
    ventilation_mode (cfg s) = "VC-CMV"%string \/ resistance (cfg s) <> 0 ->
    exists s', run_ticks src nows s = Done s'.
Proof.
  induction nows as [| now rest IH]; intros s Hal Hie Hmode.
  - exists s. reflexivity.
  - cbn [run_ticks].
    destruct (update_graphs_total src now s Hal Hie Hmode) as (s1 & Hup).
    rewrite Hup.
    destruct (update_graphs_Done_inv src now s s1 Hup) as (p & _ & Hr).
    destruct (render_window_buffers _ _ Hr)
      as (Hcfg & _ & _ & _ & Htd & Hpd & Hfd & Hvd).
    assert (Hcfg1 : cfg s1 = cfg s).
    { rewrite Hcfg. unfold trim_buffers. destruct (_ >? _)%Z;
        unfold append_point, sync_clock; destruct (start_time s);
        reflexivity. }
    apply IH.
    + unfold aligned. rewrite Htd, Hpd, Hfd, Hvd.
      apply aligned_trim_buffers, aligned_append_point, aligned_sync_clock,
        Hal.
    + rewrite Hcfg1. exact Hie.
    + rewrite Hcfg1. exact Hmode.
Qed.

(** The states the program reaches satisfy [history_ok]: the one
    [__init__] builds, any state after [reset_buffers], and any state a
    setter leaves. *)
Lemma running_session_history_ok (clock : Z) :
  history_ok running_session clock.
Proof.
  constructor; cbn.
  - repeat split.
  - lia.
  - constructor.
  - reflexivity.
Qed.

Lemma history_ok_reset_buffers (s : session) (clock : Z) :
  (0 <= max_points s)%Z -> history_ok (reset_buffers s) clock.
Proof.
  intros Hn. constructor; cbn.
  - repeat split.
  - exact Hn.
  - constructor.
  - reflexivity.
Qed.

Lemma history_ok_set_ventilation_mode (mode : string) (s : session)
    (clock : Z) :
  (0 <= max_points s)%Z -> history_ok (set_ventilation_mode mode s) clock.
Proof.
  intros Hn. unfold set_ventilation_mode.
  apply history_ok_reset_buffers. exact Hn.
Qed.

Lemma history_ok_upd_cfg (s : session) (c : settings) (clock : Z) :
  history_ok s clock -> history_ok (upd_cfg s c) clock.
Proof. intros [Hal Hb Hs Hc]. constructor; assumption. Qed.

Lemma history_ok_update_animation_speed (s : session) (clock : Z) :
  history_ok s clock ->
  history_ok (state_of (update_animation_speed s)) clock.
Proof.
  intros [Hal Hb Hs Hc]. unfold update_animation_speed.
  destruct (timer s) as [t |] eqn:Ht; cbn [cfg upd_timer timer];
    destruct (Py.div _ _); try rewrite Ht; constructor; assumption.
Qed.

Lemma history_ok_set_resp_rate (value : R) (s : session) (clock : Z) :
  history_ok s clock -> history_ok (state_of (set_resp_rate value s)) clock.
Proof.
  intros Hok. apply history_ok_update_animation_speed, history_ok_upd_cfg, Hok.
Qed.

(** The premise on the bound is needed: at a bound of 0 the slice
    [data[-0:]] is the whole array, so nothing is evicted. *)
Lemma trim_buffers_zero_bound (s : session) :
  max_points s = 0%Z -> time_data (trim_buffers s) = time_data s.
Proof.
  intros H0. unfold trim_buffers. rewrite H0.
  destruct (_ >? _)%Z; [| reflexivity].
  cbn [time_data upd_buffers]. unfold Py.slice_from. cbn.
  rewrite Z.min_l by lia. reflexivity.
Qed.

Lemma ascendingb_sound (l : list Z) :
  ascendingb l = true -> StronglySorted Z.le l.
Proof.
  induction l as [| x l IH]; intros H; [constructor |].
  cbn [ascendingb] in H. apply andb_prop in H as [Hx Hl].
  constructor; [apply IH, Hl |].
  rewrite forallb_forall in Hx. apply Forall_forall.
  intros y Hy. apply Z.leb_le, Hx, Hy.
Qed.

(** X21.  What holds of the history while the clock does not go back.
    Start from a history within the bound, in time order and not ahead of
    the clock, with [points_per_cycle * max_cycles > 0] (it is [200 * 3]),
    and run any number of ticks whose clock readings do not go back, as
    [QTime] readings within one day are.  When the run completes, each of
    the four buffers holds at most [points_per_cycle * max_cycles]
    entries; the time buffer is what the appends produced with entries
    dropped from the head only, and only once the bound is reached, so it
    holds the most recent entries; and its times are non-decreasing.  With
    [ie_ratio > 0] (and a non-zero resistance outside volume-controlled
    mode) the run does complete. *)
Theorem history_bounded_fifo_sorted (src : source_file) (nows : list Z)
    (clock : Z) (s : session) :
  (0 < max_points s)%Z ->
  history_ok s clock ->
  StronglySorted Z.le (clock :: nows) ->
  (forall s',
     run_ticks src nows s = Done s' ->
     let bound := (points_per_cycle s * max_cycles s)%Z in
     ((Z.of_nat (List.length (time_data s')) <= bound)%Z
      /\ (Z.of_nat (List.length (pressure_data s')) <= bound)%Z
      /\ (Z.of_nat (List.length (flow_data s')) <= bound)%Z
      /\ (Z.of_nat (List.length (volume_data s')) <= bound)%Z)
     /\ (exists stamps dropped,
           List.length stamps = List.length nows
           /\ time_data s ++ stamps = dropped ++ time_data s'
           /\ time_data s' = keep_last (Z.to_nat bound) (time_data s ++ stamps)
           /\ (dropped <> [] ->
               Z.of_nat (List.length (time_data s')) = bound))
     /\ StronglySorted Rle (time_data s'))
  /\ (0 < ie_ratio (cfg s) ->
      ventilation_mode (cfg s) = "VC-CMV"%string \/ resistance (cfg s) <> 0 ->
      exists s', run_ticks src nows s = Done s').
Proof.
  intros Hn Hok Hclk. split.
  - intros s' Hrun bound.
    destruct (run_ticks_history_ok src nows clock s s' Hn Hok Hclk Hrun)
      as ([(Hp & Hf & Hv) Hb Hs _] & Hmp & _ & stamps & Hlen & Htd).
    fold (max_points s) in bound. subst bound. rewrite Hmp in Hb.
    split; [rewrite Hp, Hf, Hv; tauto |]. split; [| exact Hs].
    destruct (keep_last_suffix (Z.to_nat (max_points s))
                (time_data s ++ stamps)) as (dropped & Hsplit & Hfull).
    exists stamps, dropped. rewrite <- Htd in Hsplit, Hfull.
    split; [exact Hlen |]. split; [exact Hsplit |]. split; [exact Htd |].
    intros Hne. rewrite (Hfull Hne). lia.
  - intros Hie Hmode. apply run_ticks_total; [apply Hok | assumption ..].
Qed.

Lemma history_bounded_fifo_sorted_witness :
  exists s',
    run_ticks Sm3 (ticks_every 601 1000 30) running_session = Done s'
    /\ List.length (time_data s') = 600%nat
    /\ StronglySorted Rle (time_data s').
Proof.
  assert (Hpos : (0 < max_points running_session)%Z) by (cbn; lia).
  assert (Hclk : StronglySorted Z.le (0%Z :: ticks_every 601 1000 30))
    by (apply ascendingb_sound; vm_compute; reflexivity).
  destruct (history_bounded_fifo_sorted Sm3 (ticks_every 601 1000 30) 0
              running_session Hpos (running_session_history_ok 0) Hclk)
    as [Hprop Hrun].
  destruct (Hrun initial_ie_pos (or_introl eq_refl)) as [s' Hs'].
  exists s'. split; [exact Hs' |].
  destruct (Hprop s' Hs')
    as [[Hb _] [(stamps & dropped & Hlen & Hsplit & _ & Hfull) Hs]].
  split; [| exact Hs].
  assert (Hn : List.length (ticks_every 601 1000 30) = 601%nat)
    by (unfold ticks_every; rewrite length_map, length_seq; reflexivity).
  apply (f_equal (@List.length R)) in Hsplit.
  rewrite !length_app, Hlen, Hn in Hsplit.
  change (time_data running_session) with (@nil R) in Hsplit.
  change (points_per_cycle running_session * max_cycles running_session)%Z
    with 600%Z in Hb, Hfull.
  cbn [List.length] in Hsplit.
  assert (Hne : dropped <> []).
  { intros ->. cbn [List.length] in Hsplit. lia. }
  specialize (Hfull Hne). lia.
Defined.

(** ** Mode switch *)

Lemma render_window_clock (s : session) :
  start_time (state_of (render_window s)) = start_time s
  /\ time_index (state_of (render_window s)) = time_index s.
Proof.
  unfold render_window.
  destruct (Py.select (time_data s) _); [| split; reflexivity].
  destruct (Py.select (pressure_data s) _); [| split; reflexivity].
  destruct (Py.select (flow_data s) _); [| split; reflexivity].
  destruct (Py.select (volume_data s) _); split; reflexivity.
Qed.

Lemma zero_float : 0.0 = 0.
Proof. lra. Qed.

(** C6.  When [set_ventilation_mode] returns, the four buffers are empty
    (length 0) and the time origin is unset, the mode is the new one and
    no other setting has changed.  The next tick, whatever its outcome,
    takes its own clock reading as the origin and generates at time 0;
    when it completes (as it does for [ie_ratio > 0] and, outside
    volume-controlled mode, a non-zero resistance) and the buffer bound is
    positive, the history holds that single sample, at time 0. *)
Theorem mode_switch_resets_history (mode : string) (s : session) :
  let s1 := set_ventilation_mode mode s in
  (time_data s1 = [] /\ pressure_data s1 = []
   /\ flow_data s1 = [] /\ volume_data s1 = [])
  /\ (List.length (time_data s1) = 0%nat
      /\ List.length (pressure_data s1) = 0%nat
      /\ List.length (flow_data s1) = 0%nat
      /\ List.length (volume_data s1) = 0%nat)
  /\ history s1 = []
  /\ (start_time s1 = None /\ time_index s1 = 0 /\ current_point s1 = 0%Z)
  /\ ventilation_mode (cfg s1) = mode
  /\ (forall now : Z,
        start_time (state_of (update_graphs Sm3 now s1)) = Some now
        /\ time_index (state_of (update_graphs Sm3 now s1)) = 0)
  /\ (forall (now : Z) (s2 : session),
        update_graphs Sm3 now s1 = Done s2 ->
        (0 < max_points s)%Z ->
        time_data s2 = [0]
        /\ exists p, history s2 = [p] /\ pt_time p = 0)
  /\ (forall now : Z,
        0 < ie_ratio (cfg s) ->
        mode = "VC-CMV"%string \/ resistance (cfg s) <> 0 ->
        exists s2, update_graphs Sm3 now s1 = Done s2).
Proof.
  intros s1.
  split; [repeat split |]. split; [repeat split |]. split; [reflexivity |].
  split; [repeat split |]. split; [reflexivity |].
  assert (Hsync : forall now,
            sync_clock now s1 = upd_clock s1 0.0 (Some now))
    by reflexivity.
  split; [| split].
  - intros now. unfold update_graphs. rewrite Hsync.
    destruct (generate_next_point Sm3 _ _) as [p | e];
      [| split; [reflexivity | apply zero_float]].
    destruct (Py.div 60 _); [| split; [reflexivity | apply zero_float]].
    destruct (render_window_clock
                (trim_buffers (append_point p (upd_clock s1 0.0 (Some now)))))
      as [-> ->].
    unfold trim_buffers. destruct (_ >? _)%Z;
      (split; [reflexivity | apply zero_float]).
  - intros now s2 Hup Hpos.
    destruct (update_graphs_Done_inv Sm3 now s1 s2 Hup) as (p & Hgen & Hr).
    apply generate_time in Hgen. rewrite Hsync in Hgen, Hr.
    cbn [time_index upd_clock] in Hgen. rewrite zero_float in Hgen.
    destruct (render_window_buffers _ _ Hr)
      as (_ & _ & _ & _ & Htd & Hpd & Hfd & Hvd).
    assert (Htrim : trim_buffers
                      (append_point p (upd_clock s1 0.0 (Some now)))
                    = append_point p (upd_clock s1 0.0 (Some now))).
    { unfold trim_buffers.
      destruct (Z.gtb_spec
                  (Z.of_nat (List.length
                     (time_data
                        (append_point p (upd_clock s1 0.0 (Some now))))))
                  (max_points
                     (append_point p (upd_clock s1 0.0 (Some now)))))
        as [Hgt | Hle]; [| reflexivity].
      exfalso.
      change (max_points (append_point p (upd_clock s1 0.0 (Some now))))
        with (max_points s) in Hgt.
      cbn in Hgt. lia. }
    rewrite Htrim in Htd, Hpd, Hfd, Hvd.
    split.
    + rewrite Htd. cbn. rewrite Hgen. reflexivity.
    + exists p. split; [| exact Hgen].
      unfold history. rewrite Htd, Hpd, Hfd, Hvd. cbn.
      destruct p; reflexivity.
  - intros now Hie Hmode.
    apply update_graphs_total.
    + repeat split.
    + exact Hie.
    + exact Hmode.
Qed.

Lemma mode_switch_resets_history_witness :
  exists s2,
    update_graphs Sm3 5000 (set_ventilation_mode "PC-CMV" demo_session)
    = Done s2
    /\ time_data s2 = [0].
Proof.
  pose proof (mode_switch_resets_history "PC-CMV" demo_session)
    as (_ & _ & _ & _ & _ & _ & Hone & Hrun).
  destruct (Hrun 5000%Z initial_ie_pos (or_intror pc_resistance_nz))
    as [s2 Hs2].
  exists s2. split; [exact Hs2 |].
  apply (Hone 5000%Z s2 Hs2). cbn. lia.
Defined.

(** ** Tick interval *)

Lemma Int_part_ge (x : R) (z : Z) : IZR z <= x -> (z <= Int_part x)%Z.
Proof.
  intros H. destruct (base_Int_part x) as [_ Hhi].
  assert (Hlt : IZR z < IZR (Int_part x + 1)) by (rewrite plus_IZR; lra).
  apply lt_IZR in Hlt. lia.
Qed.

Lemma Int_part_lt (x : R) (z : Z) : x < IZR z -> (Int_part x < z)%Z.
Proof.
  intros H. destruct (base_Int_part x) as [Hlo _].
  apply lt_IZR. lra.
Qed.

Lemma Int_part_IZR (z : Z) : Int_part (IZR z) = z.
Proof. symmetry. apply Int_part_spec. lra. Qed.

Lemma int_IZR (z : Z) : (0 <= z)%Z -> Py.int (IZR z) = z.
Proof.
  intros Hz. unfold Py.int.
  destruct (Rle_dec 0 (IZR z)) as [_ | Hn]; [apply Int_part_IZR |].
  exfalso. apply Hn. apply IZR_le in Hz. exact Hz.
Qed.

Lemma int_ge (x : R) (z : Z) : (0 <= z)%Z -> IZR z <= x -> (z <= Py.int x)%Z.
Proof.
  intros Hz H. unfold Py.int.
  destruct (Rle_dec 0 x) as [_ | Hn]; [apply Int_part_ge, H |].
  apply IZR_le in Hz. lra.
Qed.

Lemma int_lt (x : R) (z : Z) : (0 < z)%Z -> x < IZR z -> (Py.int x < z)%Z.
Proof.
  intros Hz H. unfold Py.int.
  destruct (Rle_dec 0 x) as [_ | Hn]; [apply Int_part_lt, H |].
  assert (0 <= Int_part (- x))%Z by (apply (Int_part_ge (- x) 0); lra).
  lia.
Qed.

(** Clamping before or after truncation gives the same milliseconds. *)
Lemma int_clamp (x : R) :
  Py.int (clamp x 10 100) = Z.max 10 (Z.min 100 (Py.int x)).
Proof.
  unfold clamp.
  destruct (Rle_dec 100 x) as [Hhi | Hhi].
  - rewrite Rmin_left, Rmax_right by lra.
    pose proof (int_ge x 100 ltac:(lia) Hhi).
    rewrite (int_IZR 100) by lia. lia.
  - destruct (Rle_dec 10 x) as [Hlo | Hlo].
    + rewrite Rmin_right, Rmax_right by lra.
      pose proof (int_ge x 10 ltac:(lia) Hlo).
      pose proof (int_lt x 100 ltac:(lia) ltac:(lra)). lia.
    + rewrite Rmin_right, Rmax_left by lra.
      pose proof (int_lt x 10 ltac:(lia) ltac:(lra)).
      rewrite (int_IZR 10) by lia. lia.
Qed.

Lemma int_1000_over_30 : Py.int (1000 / 30) = 33%Z.
Proof.
  unfold Py.int. destruct (Rle_dec 0 (1000 / 30)) as [_ | Hn]; [| lra].
  symmetry. apply Int_part_spec. lra.
Qed.

Lemma int_1000_over_5 : Py.int (1000 / 5) = 200%Z.
Proof.
  replace (1000 / 5) with (IZR 200) by lra. apply int_IZR. lia.
Qed.

Lemma update_animation_speed_Done (s : session) (t : QTimer) :
  timer s = Some t ->
  resp_rate (cfg s) <> 0 ->
  let interval := Z.max 10 (Z.min 100 (Py.int (1000 / resp_rate (cfg s)))) in
  update_animation_speed s =
  Done (upd_timer s
          (Some {| active := true; interval := interval;
                   calls := calls t ++ [Stop; Start interval] |})).
Proof.
  intros Ht Hr interval. unfold update_animation_speed. rewrite Ht.
  cbn [cfg upd_timer timer]. rewrite div_Ok by exact Hr.
  unfold timer_start, timer_stop. cbn [calls interval active].
  rewrite <- app_assoc. reflexivity.
Qed.

(** C8.  With the timer in place and a non-zero rate, the respiratory-rate
    setter stores the rate, stops the timer and starts it again: the timer
    ends up active with the interval
    [max (10, min (100, int (1000 / rate)))] milliseconds (the clamp of
    [1000 / rate] to [10, 100], in whole milliseconds), whatever interval
    it had before, and [Stop] then [Start] of that interval are the two
    calls it received.  A rate of 30 gives 33 ms, a rate of 5 gives
    100 ms. *)
Theorem rate_change_restarts_timer (value : R) (s : session) (t : QTimer) :
  timer s = Some t ->
  value <> 0 ->
  let interval_ms := Z.max 10 (Z.min 100 (Py.int (1000 / value))) in
  exists s',
    set_resp_rate value s = Done s'
    /\ resp_rate (cfg s') = value
    /\ timer s' =
       Some {| active := true; interval := interval_ms;
               calls := calls t ++ [Stop; Start interval_ms] |}
    /\ interval_ms = Py.int (clamp (1000 / value) 10 100)
    /\ (10 <= interval_ms <= 100)%Z
    /\ (value = 30 -> interval_ms = 33%Z)
    /\ (value = 5 -> interval_ms = 100%Z).
Proof.
  intros Ht Hv interval_ms. unfold set_resp_rate.
  eexists. split.
  - apply (update_animation_speed_Done _ t); [exact Ht | exact Hv].
  - cbn [cfg upd_cfg upd_timer timer resp_rate].
    split; [reflexivity |]. split; [reflexivity |].
    split; [symmetry; apply int_clamp |].
    split; [subst interval_ms; lia |].
    split; intros ->; subst interval_ms.
    + rewrite int_1000_over_30. reflexivity.
    + rewrite int_1000_over_5. reflexivity.
Qed.

Lemma int_1000_over_15 : Py.int (1000 / 15) = 66%Z.
Proof.
  unfold Py.int. destruct (Rle_dec 0 (1000 / 15)) as [_ | Hn]; [| lra].
  symmetry. apply Int_part_spec. lra.
Qed.

(** Construction ends with the timer running at 66 ms. *)
Lemma new_simulator_running : new_simulator = Done running_session.
Proof.
  unfold new_simulator, start_simulation.
  rewrite (update_animation_speed_Done
             (upd_timer initial_fields (Some new_QTimer)) new_QTimer eq_refl)
    by (cbn; lra).
  cbn [cfg upd_timer initial_fields resp_rate initial_settings].
  rewrite int_1000_over_15. reflexivity.
Qed.

(** A rate of 0 stops the timer and raises before restarting it. *)
Lemma set_resp_rate_zero (s : session) (t : QTimer) :
  timer s = Some t ->
  exists s',
    set_resp_rate 0 s = Failed ZeroDivisionError s'
    /\ timer s' = Some (timer_stop t).
Proof.
  intros Ht. unfold set_resp_rate, update_animation_speed.
  cbn [cfg upd_cfg timer resp_rate upd_timer]. rewrite Ht.
  cbn [cfg upd_cfg timer resp_rate upd_timer].
  unfold Py.div. destruct (Req_dec_T 0 0) as [_ | Hn]; [| contradiction].
  eexists. split; reflexivity.
Qed.

Lemma rate_change_restarts_timer_witness :
  exists s',
    set_resp_rate 30 running_session = Done s'
    /\ timer s' =
       Some {| active := true; interval := 33;
               calls := [Stop; Start 66; Stop; Start 33] |}.
Proof.
  assert (H30 : (30 : R) <> 0) by lra.
  destruct (rate_change_restarts_timer 30 running_session _ eq_refl H30)
    as (s' & Hs' & _ & Ht & _ & _ & Hi & _).
  exists s'. split; [exact Hs' |].
  rewrite Ht, (Hi eq_refl). reflexivity.
Defined.

(** ** Setters and the settings they touch *)

Lemma changes_only_intro (fs : list field) (c c' : settings) :
  (forall f, In f fs \/ unchanged f c c') -> changes_only fs c c'.
Proof. intros H f Hf. destruct (H f); [contradiction | assumption]. Qed.

Lemma update_animation_speed_cfg (s : session) :
  cfg (state_of (update_animation_speed s)) = cfg s.
Proof.
  unfold update_animation_speed.
  destruct (timer s) as [t |] eqn:Ht; cbn [cfg upd_timer timer];
    destruct (Py.div _ _); try rewrite Ht; reflexivity.
Qed.

Ltac frame_settings :=
  apply changes_only_intro; intros f;
  destruct f; cbn; solve [auto 12].

(** C10.  [set_pressure_support v] sets [pressure_support] to [v] and also
    overwrites [peak_pressure] with [peep + v], for the PEEP held at the
    call; it touches no other setting and nothing else in the session.
    Every other setter leaves all settings but its own as they were, so
    none of them writes a second field; and a later [set_peep] changes
    [peep] alone, leaving [peak_pressure] at the old [peep + v]. *)
Theorem pressure_support_overwrites_peak (value : R) (s : session) :
  let s' := set_pressure_support value s in
  pressure_support (cfg s') = value
  /\ peak_pressure (cfg s') = peep (cfg s) + value
  /\ changes_only [FPressureSupport; FPeakPressure] (cfg s) (cfg s')
  /\ s' = upd_cfg s (cfg s')
  /\ (forall v,
        changes_only [FTidalVolume] (cfg s) (cfg (set_tidal_volume v s))
        /\ changes_only [FPeep] (cfg s) (cfg (set_peep v s))
        /\ changes_only [FPeakPressure] (cfg s) (cfg (set_peak_pressure v s))
        /\ changes_only [FIeRatio] (cfg s) (cfg (set_ie_ratio v s))
        /\ changes_only [FPlateauTime] (cfg s) (cfg (set_plateau_time v s))
        /\ changes_only [FResistance] (cfg s) (cfg (set_resistance v s))
        /\ changes_only [FCompliance] (cfg s) (cfg (set_compliance v s))
        /\ changes_only [FRespRate] (cfg s)
             (cfg (state_of (set_resp_rate v s))))
  /\ (forall m,
        changes_only [FMode] (cfg s) (cfg (set_ventilation_mode m s)))
  /\ (forall new_peep,
        peep (cfg (set_peep new_peep s')) = new_peep
        /\ peak_pressure (cfg (set_peep new_peep s')) = peep (cfg s) + value)
  /\ (peep (cfg s) + value <> peak_pressure (cfg s) ->
      peak_pressure (cfg s') <> peak_pressure (cfg s)).
Proof.
  intros s'. subst s'.
  split; [reflexivity |]. split; [reflexivity |].
  split; [frame_settings |]. split; [reflexivity |].
  split.
  { intros v. repeat split; try frame_settings.
    unfold set_resp_rate. rewrite update_animation_speed_cfg.
    frame_settings. }
  split; [intros m; frame_settings |].
  split; [intros new_peep; split; reflexivity |].
  intros Hne. exact Hne.
Qed.

Lemma pressure_support_overwrites_peak_witness :
  peak_pressure (cfg (set_pressure_support 10 running_session))
  <> peak_pressure (cfg running_session).
Proof.
  refine (proj2 (proj2 (proj2 (proj2 (proj2 (proj2 (proj2
            (pressure_support_overwrites_peak 10 running_session)))))))
            _).
  cbn. lra.
Defined.

(** * Further properties *)

(** ** The waveform over time *)

Lemma Int_part_succ (x : R) : Int_part (x + 1) = (Int_part x + 1)%Z.
Proof.
  symmetry. apply Int_part_spec. rewrite plus_IZR.
  destruct (base_Int_part x). lra.
Qed.

Lemma mod_period (a b : R) : b <> 0 -> Py.mod_ (a + b) b = Py.mod_ a b.
Proof.
  intros Hb. rewrite !mod_Ok by exact Hb. f_equal.
  replace ((a + b) / b) with (a / b + 1) by (field; exact Hb).
  rewrite Int_part_succ, plus_IZR. ring.
Qed.

Lemma cycle_timing_total (c : settings) (T I X : R) :
  cycle_timing c = Ok (T, I, X) -> T = Cycle.total_time c /\ T <> 0.
Proof.
  unfold cycle_timing. pose proof (max_rate_pos c) as Hpos.
  rewrite (div_Ok 60) by lra. cbn [rbind].
  destruct (Py.div 1 (ie_ratio c)); cbn [rbind]; [| discriminate].
  destruct (Py.div 1 (1 + a)); cbn [rbind]; [| discriminate].
  destruct (Py.div 1 (1 + ie_ratio c)); cbn [rbind]; [| discriminate].
  intros H. injection H as <- _ _. split; [reflexivity |].
  apply Rgt_not_eq. apply Rdiv_lt_0_compat; lra.
Qed.

(** X1.  The waveform is periodic: one cycle later
    ([60 / max (1, rate)] seconds) the generator returns the same
    pressure, flow and volume, or raises the same exception, whatever the
    settings and the file. *)
Theorem generate_periodic (src : source_file) (c : settings) (e : R) :
  generate_next_point src c (e + Cycle.total_time c) =
  match generate_next_point src c e with
  | Ok p => Ok (at_time (e + Cycle.total_time c) p)
  | Raise x => Raise x
  end.
Proof.
  unfold generate_next_point.
  destruct (cycle_timing c) as [[[T I] X] | x] eqn:Hct; cbn [rbind];
    [| reflexivity].
  destruct (cycle_timing_total c T I X Hct) as [<- HT].
  rewrite !mod_period by exact HT.
  destruct (Py.mod_ e T) as [m | x]; cbn [rbind]; [| reflexivity].
  destruct (Py.div m T) as [cp | x]; cbn [rbind]; [| reflexivity].
  repeat first
    [ reflexivity
    | match goal with
      | |- context [String.eqb ?a ?b] => destruct (String.eqb a b)
      | |- context [Py.ltb ?a ?b] => destruct (Py.ltb a b)
      | |- context [Py.gtb ?a ?b] => destruct (Py.gtb a b)
      | |- context [Py.leb ?a ?b] => destruct (Py.leb a b)
      | |- context [Py.div ?a ?b] => destruct (Py.div a b); cbn [rbind]
      | |- context [calcular_flujo_insp ?a ?b] =>
          destruct (calcular_flujo_insp a b); cbn [rbind]
      | |- context [match src with Sm3 => _ | Prog2_0 => _ end] =>
          destruct src
      end ].
Qed.

(** Runs the timing prelude of [generate_next_point] in the goal, for
    settings [c] with [Hie : 0 < ie_ratio c] at time [e]. *)
Ltac prelude_at c Hie e :=
  pose proof (max_rate_pos c) as Hrate;
  pose proof (total_time_pos c) as Htot;
  pose proof (inv_ie_pos c Hie) as Hinv;
  pose proof (inspiratory_time_pos c Hie) as Hinsp;
  pose proof (expiratory_time_pos c Hie) as Hexp;
  pose proof (time_in_cycle_range c e) as Htic;
  unfold generate_next_point, cycle_timing;
  rewrite (div_Ok 60) by lra; cbn [rbind];
  rewrite (div_Ok 1 (ie_ratio c)) by lra; cbn [rbind];
  rewrite (div_Ok 1 (1 + 1 / ie_ratio c)) by lra; cbn [rbind];
  rewrite (div_Ok 1 (1 + ie_ratio c)) by lra; cbn [rbind];
  fold (Cycle.total_time c);
  rewrite (mod_Ok e) by lra; cbn [rbind];
  fold (Cycle.time_in_cycle c e);
  rewrite (div_Ok _ (Cycle.total_time c)) by lra; cbn [rbind];
  rewrite (insp_time_code c Hie), (exp_time_code c Hie), (progress_code c).

Lemma div_zero (a : R) : Py.div a 0 = Raise ZeroDivisionError.
Proof.
  unfold Py.div. destruct (Req_dec_T 0 0); [reflexivity | contradiction].
Qed.

Lemma exp_le_1 (x : R) : x <= 0 -> exp x <= 1.
Proof.
  intros [Hlt | ->]; [| rewrite exp_0; lra].
  rewrite <- exp_0. left. apply exp_increasing, Hlt.
Qed.

Lemma ratio_range (a b : R) : 0 < b -> 0 <= a < b -> 0 <= a / b < 1.
Proof.
  intros Hb [Ha Hab].
  assert (Hi : 0 < / b) by (apply Rinv_0_lt_compat; exact Hb).
  split.
  - apply Rmult_le_pos; lra.
  - apply (Rmult_lt_reg_r b); [exact Hb |].
    replace (a / b * b) with a by (field; lra). lra.
Qed.

Lemma scale_range (a y : R) : 0 <= a -> 0 <= y <= 1 -> 0 <= a * y <= a.
Proof.
  intros Ha [H0 H1]. split; [apply Rmult_le_pos; lra |].
  rewrite <- (Rmult_1_r a) at 2. apply Rmult_le_compat_l; lra.
Qed.

Lemma ratio_nonneg (a b : R) : 0 < b -> 0 <= a -> 0 <= a / b.
Proof.
  intros Hb Ha. apply Rmult_le_pos; [exact Ha |].
  left. apply Rinv_0_lt_compat, Hb.
Qed.

(** X2.  When the generator raises.  With [ie_ratio = 0] every call raises
    [ZeroDivisionError].  With [ie_ratio > 0] a call returns a point
    exactly when the mode is "VC-CMV" or the resistance is not 0: in
    pressure-controlled mode a resistance of 0 raises
    [ZeroDivisionError], in volume-controlled mode it is not used. *)
Theorem generate_raises (src : source_file) (c : settings) (e : R) :
  (ie_ratio c = 0 ->
   generate_next_point src c e = Raise ZeroDivisionError)
  /\ (0 < ie_ratio c ->
      ((exists p, generate_next_point src c e = Ok p) <->
       (ventilation_mode c = "VC-CMV"%string \/ resistance c <> 0))
      /\ (ventilation_mode c <> "VC-CMV"%string -> resistance c = 0 ->
          generate_next_point src c e = Raise ZeroDivisionError)).
Proof.
  split.
  - intros H0. unfold generate_next_point, cycle_timing.
    pose proof (max_rate_pos c).
    rewrite (div_Ok 60) by lra. cbn [rbind].
    rewrite H0, div_zero. reflexivity.
  - intros Hie.
    assert (Hfail : ventilation_mode c <> "VC-CMV"%string ->
                    resistance c = 0 ->
                    generate_next_point src c e = Raise ZeroDivisionError).
    { intros Hm Hr. prelude_at c Hie e.
      apply String.eqb_neq in Hm. rewrite Hm, Hr, div_zero.
      pose proof (Rmin_r (plateau_time c) (Cycle.inspiratory_time c * 0.5))
        as Hpl.
      set (pl := Rmin (plateau_time c) (Cycle.inspiratory_time c * 0.5)) in *.
      destruct (Rlt_dec (Cycle.time_in_cycle c e)
                        (Cycle.inspiratory_time c * 0.2)) as [H1 | H1].
      { rewrite !(ltb_true _ (Cycle.inspiratory_time c * 0.2)) by lra.
        rewrite !div_Ok by lra. reflexivity. }
      rewrite !(ltb_false _ (Cycle.inspiratory_time c * 0.2)) by lra.
      destruct (Rlt_dec (Cycle.time_in_cycle c e)
                        (Cycle.inspiratory_time c * 0.2 + pl)) as [H2 | H2].
      { rewrite !(ltb_true _ (_ + _)) by lra. reflexivity. }
      rewrite !(ltb_false _ (_ + _)) by lra.
      destruct (Rlt_dec (Cycle.time_in_cycle c e) (Cycle.inspiratory_time c))
        as [H3 | H3].
      { rewrite !(ltb_true _ (Cycle.inspiratory_time c)) by lra.
        rewrite !div_Ok by lra. reflexivity. }
      rewrite !(ltb_false _ (Cycle.inspiratory_time c)) by lra.
      rewrite !div_Ok by lra. reflexivity. }
    split; [| exact Hfail]. split.
    + intros [p Hp].
      destruct (string_dec (ventilation_mode c) "VC-CMV") as [Hm | Hm];
        [left; exact Hm | right].
      intros Hr. rewrite (Hfail Hm Hr) in Hp. discriminate.
    + intros Hmode.
      destruct (generate_total src c e Hie Hmode) as (p & Hp & _).
      exists p. exact Hp.
Qed.

Lemma generate_raises_witness :
  exists p, generate_next_point Sm3 initial_settings 1 = Ok p.
Proof.
  apply (proj1 (proj2 (generate_raises Sm3 initial_settings 1)
                  initial_ie_pos)).
  left. reflexivity.
Defined.

(** ** Ranges of the volume-controlled waveform *)

(** X3.  In volume-controlled mode with [ie_ratio > 0] and a non-negative
    tidal volume, both files return at every time a volume between 0 and
    the tidal volume. *)
Theorem vc_volume_within_tidal (src : source_file) (c : settings) (e : R) :
  0 < ie_ratio c ->
  ventilation_mode c = "VC-CMV"%string ->
  0 <= tidal_volume c ->
  exists p,
    generate_next_point src c e = Ok p
    /\ 0 <= pt_volume p <= tidal_volume c.
Proof.
  intros Hie Hm Htv.
  pose proof (inspiratory_time_pos c Hie) as Hinsp.
  pose proof (expiratory_time_pos c Hie) as Hexp.
  pose proof (time_in_cycle_range c e) as Htic.
  destruct (Rlt_dec (Cycle.time_in_cycle c e) (Cycle.inspiratory_time c))
    as [Hlt | Hge].
  - pose proof (ratio_range (Cycle.time_in_cycle c e)
                  (Cycle.inspiratory_time c) Hinsp ltac:(lra)) as Hx.
    destruct src; eexists; split.
    + apply (generate_vc_insp_sm3 c Hie e Hm Hlt).
    + cbn [pt_volume].
      pose proof (COS_bound
                    (PI * (Cycle.time_in_cycle c e
                           / Cycle.inspiratory_time c))) as [Hc1 Hc2].
      rewrite Rmult_assoc. apply scale_range; lra.
    + apply (generate_vc_insp_prog2 c Hie e Hm Hlt).
    + cbn [pt_volume]. apply scale_range; lra.
  - eexists. split; [apply (generate_vc_exp c Hie src e Hm); lra |].
    cbn [pt_volume].
    set (x := (Cycle.time_in_cycle c e - Cycle.inspiratory_time c)
              / Cycle.expiratory_time c).
    assert (Hx : 0 <= x) by (apply ratio_nonneg; lra).
    pose proof (exp_pos (- 8 * x)) as Hp.
    pose proof (exp_le_1 (- 8 * x) ltac:(lra)) as Hl.
    apply scale_range; lra.
Qed.

Lemma vc_volume_within_tidal_witness :
  exists p,
    generate_next_point Prog2_0 initial_settings 1 = Ok p
    /\ 0 <= pt_volume p <= tidal_volume initial_settings.
Proof.
  apply (vc_volume_within_tidal Prog2_0 initial_settings 1
           initial_ie_pos eq_refl).
  cbn. lra.
Defined.

Lemma ln_9_38_neg : ln (9 / 38) < 0.
Proof. rewrite <- ln_1. apply ln_increasing; lra. Qed.

(** X4.  The sign of the flow tells the phase (sm3.py, volume-controlled
    mode, [ie_ratio > 0]): in inspiration the flow lies in (9, 38], in
    expiration in [-50, 0). *)
Theorem vc_flow_by_phase (c : settings) (e : R) :
  0 < ie_ratio c ->
  ventilation_mode c = "VC-CMV"%string ->
  exists p,
    generate_next_point Sm3 c e = Ok p
    /\ (Cycle.time_in_cycle c e < Cycle.inspiratory_time c ->
        9 < pt_flow p <= 38)
    /\ (Cycle.inspiratory_time c <= Cycle.time_in_cycle c e ->
        - 50 <= pt_flow p < 0).
Proof.
  intros Hie Hm.
  pose proof (inspiratory_time_pos c Hie) as Hinsp.
  pose proof (expiratory_time_pos c Hie) as Hexp.
  pose proof (time_in_cycle_range c e) as Htic.
  destruct (Rlt_dec (Cycle.time_in_cycle c e) (Cycle.inspiratory_time c))
    as [Hlt | Hge].
  - eexists. split; [apply (generate_vc_insp_sm3 c Hie e Hm Hlt) |].
    split; [intros _ | intros; lra]. cbn [pt_flow].
    set (t := Cycle.time_in_cycle c e) in *.
    set (T := Cycle.inspiratory_time c) in *.
    pose proof ln_9_38_neg as Hln.
    assert (Hk : 0 < - ln (9 / 38) / T)
      by (apply Rdiv_lt_0_compat; lra).
    set (k := - ln (9 / 38) / T) in *.
    assert (Hkt : 0 <= k * t) by (apply Rmult_le_pos; lra).
    assert (HkT : k * t < k * T) by (apply Rmult_lt_compat_l; lra).
    assert (HkTeq : - (k * T) = ln (9 / 38)) by (subst k; field; lra).
    pose proof (exp_le_1 (- k * t) ltac:(lra)) as Hle.
    assert (Hgt : exp (ln (9 / 38)) < exp (- k * t))
      by (apply exp_increasing; lra).
    rewrite exp_ln in Hgt by lra. lra.
  - eexists. split; [apply (generate_vc_exp c Hie Sm3 e Hm); lra |].
    split; [intros; lra | intros _]. cbn [pt_flow].
    set (x := (Cycle.time_in_cycle c e - Cycle.inspiratory_time c)
              / Cycle.expiratory_time c).
    assert (Hx : 0 <= x) by (apply ratio_nonneg; lra).
    pose proof (exp_pos (- 7 * x)) as Hp.
    pose proof (exp_le_1 (- 7 * x) ltac:(lra)) as Hl. lra.
Qed.

Lemma vc_flow_by_phase_witness :
  exists p,
    generate_next_point Sm3 initial_settings 3 = Ok p
    /\ (Cycle.time_in_cycle initial_settings 3
        < Cycle.inspiratory_time initial_settings -> 9 < pt_flow p <= 38)
    /\ (Cycle.inspiratory_time initial_settings
        <= Cycle.time_in_cycle initial_settings 3 -> - 50 <= pt_flow p < 0).
Proof.
  exact (vc_flow_by_phase initial_settings 3 initial_ie_pos eq_refl).
Defined.

(** X5.  The inspiratory pressure never reaches the peak pressure.  In
    volume-controlled mode with [ie_ratio > 0] and [peep < peak_pressure],
    the pressure generated in inspiration starts from [peep] and stays
    below [peep + (peak_pressure - peep) * (1 - exp (- r))], with [r = 2]
    in sm3.py and [r = 4] in prog2-0.py, which is below the peak
    pressure. *)
Theorem vc_pressure_below_peak (src : source_file) (c : settings) (e : R) :
  0 < ie_ratio c ->
  ventilation_mode c = "VC-CMV"%string ->
  peep c < peak_pressure c ->
  Cycle.time_in_cycle c e < Cycle.inspiratory_time c ->
  let r := match src with Sm3 => 2 | Prog2_0 => 4 end in
  exists p,
    generate_next_point src c e = Ok p
    /\ peep c <= pt_pressure p
    /\ pt_pressure p < peep c + (peak_pressure c - peep c) * (1 - exp (- r))
    /\ peep c + (peak_pressure c - peep c) * (1 - exp (- r))
       < peak_pressure c.
Proof.
  intros Hie Hm Hpk Hlt r.
  pose proof (inspiratory_time_pos c Hie) as Hinsp.
  pose proof (time_in_cycle_range c e) as Htic.
  pose proof (ratio_range (Cycle.time_in_cycle c e)
                (Cycle.inspiratory_time c) Hinsp ltac:(lra)) as Hx.
  set (x := Cycle.time_in_cycle c e / Cycle.inspiratory_time c) in *.
  assert (Hbound : forall k, 0 < k ->
            peep c <= peep c + (peak_pressure c - peep c) * (1 - exp (- k * x))
            /\ peep c + (peak_pressure c - peep c) * (1 - exp (- k * x))
               < peep c + (peak_pressure c - peep c) * (1 - exp (- k))
            /\ peep c + (peak_pressure c - peep c) * (1 - exp (- k))
               < peak_pressure c).
  { intros k Hk.
    assert (Hkx : 0 <= k * x) by (apply Rmult_le_pos; lra).
    assert (Hkx1 : k * x < k)
      by (rewrite <- (Rmult_1_r k) at 2; apply Rmult_lt_compat_l; lra).
    pose proof (exp_le_1 (- k * x) ltac:(lra)) as H1.
    assert (H2 : exp (- k) < exp (- k * x)) by (apply exp_increasing; lra).
    pose proof (exp_pos (- k)) as H3.
    split; [| split].
    - assert (0 <= (peak_pressure c - peep c) * (1 - exp (- k * x)))
        by (apply Rmult_le_pos; lra). lra.
    - apply Rplus_lt_compat_l, Rmult_lt_compat_l; lra.
    - assert ((peak_pressure c - peep c) * (1 - exp (- k))
              < (peak_pressure c - peep c) * 1)
        by (apply Rmult_lt_compat_l; lra). lra. }
  destruct src; eexists; split.
  - apply (generate_vc_insp_sm3 c Hie e Hm Hlt).
  - exact (Hbound 2 ltac:(lra)).
  - apply (generate_vc_insp_prog2 c Hie e Hm Hlt).
  - exact (Hbound 4 ltac:(lra)).
Qed.

Lemma vc_pressure_below_peak_witness :
  exists p,
    generate_next_point Sm3 initial_settings 1 = Ok p
    /\ peep initial_settings <= pt_pressure p
    /\ pt_pressure p
       < peep initial_settings
         + (peak_pressure initial_settings - peep initial_settings)
           * (1 - exp (- 2))
    /\ peep initial_settings
       + (peak_pressure initial_settings - peep initial_settings)
         * (1 - exp (- 2))
       < peak_pressure initial_settings.
Proof.
  refine (vc_pressure_below_peak Sm3 initial_settings 1
            initial_ie_pos eq_refl _ _).
  - cbn. lra.
  - rewrite initial_time_in_cycle, initial_inspiratory_time; lra.
Defined.

(** ** Volume in pressure-controlled mode *)

(** X6.  In pressure-controlled mode ([ie_ratio > 0], non-zero resistance,
    positive tidal volume) both files keep the volume between 0 and the
    tidal volume.  On the plateau it lies in [0.5, 0.9) of the tidal
    volume; in the release phase it lies in (0.9, 1], equals the whole
    tidal volume at the first instant and does not increase afterwards:
    from the plateau to the release the volume jumps up, then falls back
    towards 0.9 of the tidal volume. *)
Theorem pc_volume_profile (src : source_file) (c : settings) :
  0 < ie_ratio c ->
  resistance c <> 0 ->
  ventilation_mode c <> "VC-CMV"%string ->
  0 < tidal_volume c ->
  let insp := Cycle.inspiratory_time c in
  let ramp := insp * 0.2 in
  let plateau := Rmin (plateau_time c) (insp * 0.5) in
  let tv := tidal_volume c in
  (forall e, let t := Cycle.time_in_cycle c e in
     exists p,
       generate_next_point src c e = Ok p
       /\ 0 <= pt_volume p <= tv
       /\ (ramp <= t < ramp + plateau ->
           0.5 * tv <= pt_volume p < 0.9 * tv)
       /\ (ramp <= t -> ramp + plateau <= t < insp ->
           0.9 * tv < pt_volume p <= tv)
       /\ (ramp <= t -> t = ramp + plateau -> pt_volume p = tv))
  /\ (forall e1 e2 p1 p2,
        let t1 := Cycle.time_in_cycle c e1 in
        let t2 := Cycle.time_in_cycle c e2 in
        ramp <= t1 -> ramp + plateau <= t1 -> t1 <= t2 -> t2 < insp ->
        generate_next_point src c e1 = Ok p1 ->
        generate_next_point src c e2 = Ok p2 ->
        pt_volume p2 <= pt_volume p1).
Proof.
  intros Hie Hres Hm Htv insp ramp plateau tv.
  pose proof (inspiratory_time_pos c Hie) as Hinsp.
  pose proof (expiratory_time_pos c Hie) as Hexp.
  assert (Hpl : plateau <= insp * 0.5) by apply Rmin_r.
  subst tv plateau ramp insp.
  split.
  - intros e t. pose proof (time_in_cycle_range c e) as Htic. subst t.
    destruct (Rlt_dec (Cycle.time_in_cycle c e)
                      (Cycle.inspiratory_time c * 0.2)) as [H1 | H1].
    { eexists. split; [apply (generate_pc_ramp c Hie src e Hm Hres H1) |].
      cbn [pt_volume].
      pose proof (ratio_range (Cycle.time_in_cycle c e)
                    (Cycle.inspiratory_time c * 0.2)
                    ltac:(lra) ltac:(lra)) as Hx.
      set (x := Cycle.time_in_cycle c e / (Cycle.inspiratory_time c * 0.2))
        in *.
      pose proof PI_RGT_0 as Hpi.
      assert (Ha0 : 0 <= PI * x / 2)
        by (apply ratio_nonneg; [lra | apply Rmult_le_pos; lra]).
      assert (Ha1 : PI * x / 2 <= PI / 2).
      { unfold Rdiv. apply Rmult_le_compat_r; [lra |].
        rewrite <- (Rmult_1_r PI) at 2. apply Rmult_le_compat_l; lra. }
      pose proof (cos_ge_0 (PI * x / 2) ltac:(lra) ltac:(lra)) as Hc0.
      pose proof (COS_bound (PI * x / 2)) as [_ Hc1].
      split; [| split; [intros; lra | split; intros; lra]].
      rewrite Rmult_assoc. apply scale_range; lra. }
    destruct (Rlt_dec (Cycle.time_in_cycle c e)
                (Cycle.inspiratory_time c * 0.2
                 + Rmin (plateau_time c) (Cycle.inspiratory_time c * 0.5)))
      as [H2 | H2].
    { eexists. split;
        [apply (generate_pc_plateau c Hie src e Hm Hres); lra |].
      cbn [pt_volume].
      pose proof (ratio_range
                    (Cycle.time_in_cycle c e - Cycle.inspiratory_time c * 0.2)
                    (Rmin (plateau_time c) (Cycle.inspiratory_time c * 0.5))
                    ltac:(lra) ltac:(lra)) as Hx.
      set (x := (Cycle.time_in_cycle c e - Cycle.inspiratory_time c * 0.2)
                / Rmin (plateau_time c) (Cycle.inspiratory_time c * 0.5))
        in *.
      assert (Hv : tidal_volume c * 0.5
                   <= tidal_volume c * (0.5 + 0.4 * x)
                   < tidal_volume c * 0.9).
      { split; [apply Rmult_le_compat_l | apply Rmult_lt_compat_l]; lra. }
      split; [lra |]. split; [intros; lra |].
      split; intros; lra. }
    destruct (Rlt_dec (Cycle.time_in_cycle c e) (Cycle.inspiratory_time c))
      as [H3 | H3].
    { eexists. split;
        [apply (generate_pc_release c Hie src e Hm Hres); lra |].
      cbn [pt_volume].
      pose proof (ratio_range
                    (Cycle.time_in_cycle c e - Cycle.inspiratory_time c * 0.2
                     - Rmin (plateau_time c) (Cycle.inspiratory_time c * 0.5))
                    (Cycle.inspiratory_time c - Cycle.inspiratory_time c * 0.2
                     - Rmin (plateau_time c) (Cycle.inspiratory_time c * 0.5))
                    ltac:(lra) ltac:(lra)) as Hx.
      set (x := (Cycle.time_in_cycle c e - Cycle.inspiratory_time c * 0.2
                 - Rmin (plateau_time c) (Cycle.inspiratory_time c * 0.5))
                / (Cycle.inspiratory_time c - Cycle.inspiratory_time c * 0.2
                   - Rmin (plateau_time c) (Cycle.inspiratory_time c * 0.5)))
        in *.
      assert (Hv : tidal_volume c * 0.9
                   < tidal_volume c * (0.9 + 0.1 * (1 - x))
                   <= tidal_volume c * 1).
      { split; [apply Rmult_lt_compat_l | apply Rmult_le_compat_l]; lra. }
      split; [lra |]. split; [intros; lra |].
      split; [intros; lra |].
      intros _ Heq. subst x. rewrite Heq.
      match goal with
      | |- context [(?a + ?b - ?a - ?b) / ?d] =>
          replace ((a + b - a - b) / d) with 0
            by (unfold Rdiv; replace (a + b - a - b) with 0 by ring;
                rewrite Rmult_0_l; reflexivity)
      end.
      lra. }
    eexists. split;
      [apply (generate_pc_exp c Hie src e Hm Hres); lra |].
    cbn [pt_volume].
    set (x := (Cycle.time_in_cycle c e - Cycle.inspiratory_time c)
              / Cycle.expiratory_time c).
    assert (Hx : 0 <= x) by (apply ratio_nonneg; lra).
    pose proof (exp_pos (- 5 * x)) as Hp.
    pose proof (exp_le_1 (- 5 * x) ltac:(lra)) as Hl.
    split; [apply scale_range; lra |].
    split; [intros; lra | split; intros; lra].
  - intros e1 e2 p1 p2 t1 t2 Hr1 Hp1 H12 H2 Hg1 Hg2. subst t1 t2.
    rewrite (generate_pc_release c Hie src e1 Hm Hres) in Hg1 by lra.
    rewrite (generate_pc_release c Hie src e2 Hm Hres) in Hg2 by lra.
    injection Hg1 as <-. injection Hg2 as <-. cbn [pt_volume].
    set (d := Cycle.inspiratory_time c - Cycle.inspiratory_time c * 0.2
              - Rmin (plateau_time c) (Cycle.inspiratory_time c * 0.5)).
    assert (Hd : 0 < d) by (unfold d; lra).
    assert (Hx : (Cycle.time_in_cycle c e1 - Cycle.inspiratory_time c * 0.2
                  - Rmin (plateau_time c) (Cycle.inspiratory_time c * 0.5))
                 / d
                 <= (Cycle.time_in_cycle c e2
                     - Cycle.inspiratory_time c * 0.2
                     - Rmin (plateau_time c) (Cycle.inspiratory_time c * 0.5))
                    / d).
    { unfold Rdiv. apply Rmult_le_compat_r; [| lra].
      left. apply Rinv_0_lt_compat, Hd. }
    apply Rmult_le_compat_l; lra.
Qed.

Lemma pc_volume_profile_witness :
  exists p,
    generate_next_point Sm3 pc_settings 1 = Ok p
    /\ 0 <= pt_volume p <= tidal_volume pc_settings.
Proof.
  assert (Htv : 0 < tidal_volume pc_settings) by (cbn; lra).
  destruct (proj1 (pc_volume_profile Sm3 pc_settings pc_ie_pos
                     pc_resistance_nz pc_mode Htv) 1)
    as (p & Hp & Hv & _).
  exists p. split; [exact Hp | exact Hv].
Defined.

(** ** The tick interval as a function of the rate *)

Lemma int_nonneg (x : R) : 0 <= x -> (0 <= Py.int x)%Z.
Proof. intros Hx. apply (int_ge x 0); [lia | exact Hx]. Qed.

Lemma int_le_self (x : R) : 0 <= x -> IZR (Py.int x) <= x.
Proof.
  intros Hx. unfold Py.int. destruct (Rle_dec 0 x); [| contradiction].
  apply base_Int_part.
Qed.

Lemma int_monotone (x y : R) : 0 <= x -> x <= y -> (Py.int x <= Py.int y)%Z.
Proof.
  intros Hx Hxy. apply int_ge; [apply int_nonneg, Hx |].
  pose proof (int_le_self x Hx). lra.
Qed.

Lemma int_negative (x : R) : x < 0 -> (Py.int x <= 0)%Z.
Proof.
  intros Hx. unfold Py.int. destruct (Rle_dec 0 x); [lra |].
  assert (0 <= Int_part (- x))%Z by (apply Int_part_ge; lra). lia.
Qed.

Lemma inv_rate_antitone (r1 r2 : R) :
  0 < r1 -> r1 <= r2 -> 0 < 1000 / r2 <= 1000 / r1.
Proof.
  intros H1 H12. split; [apply Rdiv_lt_0_compat; lra |].
  unfold Rdiv. apply Rmult_le_compat_l; [lra |].
  apply Rinv_le_contravar; lra.
Qed.

Lemma set_resp_rate_Done (value : R) (s : session) (t : QTimer) :
  timer s = Some t -> value <> 0 ->
  exists s',
    set_resp_rate value s = Done s'
    /\ resp_rate (cfg s') = value
    /\ timer s' =
       Some {| active := true;
               interval := Z.max 10 (Z.min 100 (Py.int (1000 / value)));
               calls := calls t
                        ++ [Stop;
                            Start (Z.max 10
                                     (Z.min 100 (Py.int (1000 / value))))] |}.
Proof.
  intros Ht Hv. unfold set_resp_rate. eexists. split.
  - apply (update_animation_speed_Done _ t); [exact Ht | exact Hv].
  - split; reflexivity.
Qed.

(** X7.  A faster respiratory rate never lengthens the tick.  With the
    timer in place and rates [0 < r1 <= r2], [set_resp_rate] leaves an
    interval for [r2] that is at most the one for [r1]; every rate up to
    10 gives 100 ms, every rate from 100 on gives 10 ms, and the rates of
    the spin box (5 to 50) give between 20 and 100 ms. *)
Theorem interval_antitone_in_rate (s : session) (t : QTimer) (r1 r2 : R) :
  timer s = Some t ->
  0 < r1 -> r1 <= r2 ->
  exists s1 s2 t1 t2,
    set_resp_rate r1 s = Done s1 /\ timer s1 = Some t1
    /\ set_resp_rate r2 s = Done s2 /\ timer s2 = Some t2
    /\ (interval t2 <= interval t1)%Z
    /\ (r1 <= 10 -> interval t1 = 100%Z)
    /\ (100 <= r2 -> interval t2 = 10%Z)
    /\ (5 <= r1 -> r2 <= 50 ->
        (20 <= interval t2)%Z /\ (interval t1 <= 100)%Z).
Proof.
  intros Ht H1 H12.
  destruct (inv_rate_antitone r1 r2 H1 H12) as [Hq2 Hq12].
  destruct (set_resp_rate_Done r1 s t Ht ltac:(lra)) as (s1 & Hs1 & _ & Ht1).
  destruct (set_resp_rate_Done r2 s t Ht ltac:(lra)) as (s2 & Hs2 & _ & Ht2).
  exists s1, s2. do 2 eexists.
  split; [exact Hs1 |]. split; [exact Ht1 |].
  split; [exact Hs2 |]. split; [exact Ht2 |].
  cbn [interval].
  pose proof (int_monotone (1000 / r2) (1000 / r1) ltac:(lra) Hq12) as Hmono.
  split; [lia |]. split; [| split].
  - intros Hr.
    assert (Hq : IZR 100 <= 1000 / r1).
    { apply (Rmult_le_reg_r r1); [exact H1 |].
      replace (1000 / r1 * r1) with 1000 by (field; lra). lra. }
    pose proof (int_ge (1000 / r1) 100 ltac:(lia) Hq). lia.
  - intros Hr.
    assert (Hq : 1000 / r2 < IZR 11).
    { apply (Rmult_lt_reg_r r2); [lra |].
      replace (1000 / r2 * r2) with 1000 by (field; lra). lra. }
    pose proof (int_lt (1000 / r2) 11 ltac:(lia) Hq). lia.
  - intros H5 H50.
    assert (Hq : IZR 20 <= 1000 / r2).
    { apply (Rmult_le_reg_r r2); [lra |].
      replace (1000 / r2 * r2) with 1000 by (field; lra). lra. }
    pose proof (int_ge (1000 / r2) 20 ltac:(lia) Hq). lia.
Qed.

Lemma interval_antitone_in_rate_witness :
  exists s1 s2 t1 t2,
    set_resp_rate 12 running_session = Done s1 /\ timer s1 = Some t1
    /\ set_resp_rate 40 running_session = Done s2 /\ timer s2 = Some t2
    /\ (interval t2 <= interval t1)%Z.
Proof.
  assert (H1 : (0 : R) < 12) by lra.
  assert (H2 : (12 : R) <= 40) by lra.
  destruct (interval_antitone_in_rate running_session _ 12 40 eq_refl H1 H2)
    as (s1 & s2 & t1 & t2 & Ha & Hb & Hc & Hd & He & _).
  exists s1, s2, t1, t2. repeat split; assumption.
Defined.

(** X8.  The cases in which [set_resp_rate] does not restart the timer, and
    the case of a negative rate.  A rate of 0 is stored, the timer is
    stopped and [ZeroDivisionError] is raised, so no tick follows; without
    a timer attribute a non-zero rate raises [AttributeError]; a negative
    rate restarts the timer at the shortest interval, 10 ms. *)
Theorem set_resp_rate_edge_cases (s : session) :
  (forall t, timer s = Some t ->
     exists s',
       set_resp_rate 0 s = Failed ZeroDivisionError s'
       /\ resp_rate (cfg s') = 0
       /\ timer s' = Some {| active := false; interval := interval t;
                             calls := calls t ++ [Stop] |})
  /\ (forall v, timer s = None -> v <> 0 ->
        exists s',
          set_resp_rate v s = Failed AttributeError s'
          /\ resp_rate (cfg s') = v /\ timer s' = None)
  /\ (forall v t, timer s = Some t -> v < 0 ->
        exists s',
          set_resp_rate v s = Done s'
          /\ timer s' = Some {| active := true; interval := 10;
                                calls := calls t ++ [Stop; Start 10] |}).
Proof.
  split; [| split].
  - intros t Ht. unfold set_resp_rate, update_animation_speed.
    cbn [cfg upd_cfg timer resp_rate upd_timer]. rewrite Ht.
    cbn [cfg upd_cfg timer resp_rate upd_timer]. rewrite div_zero.
    eexists. repeat split.
  - intros v Ht Hv. unfold set_resp_rate, update_animation_speed.
    cbn [cfg upd_cfg timer resp_rate upd_timer]. rewrite Ht.
    cbn [cfg upd_cfg timer resp_rate upd_timer].
    rewrite div_Ok by exact Hv. rewrite Ht.
    eexists. repeat split. exact Ht.
  - intros v t Ht Hv.
    destruct (set_resp_rate_Done v s t Ht ltac:(lra)) as (s' & Hs' & _ & Ht').
    exists s'. split; [exact Hs' |]. rewrite Ht'.
    assert (Hq : 1000 / v < 0).
    { replace (1000 / v) with (- (1000 / - v)) by (field; lra).
      assert (0 < 1000 / - v) by (apply Rdiv_lt_0_compat; lra). lra. }
    pose proof (int_negative (1000 / v) Hq) as Hi.
    replace (Z.max 10 (Z.min 100 (Py.int (1000 / v)))) with 10%Z by lia.
    reflexivity.
Qed.

Lemma set_resp_rate_edge_cases_witness :
  exists s',
    set_resp_rate 0 running_session = Failed ZeroDivisionError s'
    /\ resp_rate (cfg s') = 0.
Proof.
  destruct (proj1 (set_resp_rate_edge_cases running_session) _ eq_refl)
    as (s' & Hs' & Hr & _).
  exists s'. split; [exact Hs' | exact Hr].
Defined.

(** ** Rounding of the I:E ratio *)

Lemma frac_part_range (y : R) : 0 <= frac_part y < 1.
Proof.
  unfold frac_part. destruct (base_Int_part y). lra.
Qed.

(** The two candidates of [round(x, 1)] and the choice between them. *)
Lemma round1_cases (x : R) :
  let f := Int_part (10 * x) in
  let d := 10 * x - IZR f in
  (Py.round1 x = IZR f / 10 /\ d <= 1 / 2)
  \/ (Py.round1 x = IZR (f + 1) / 10 /\ 1 / 2 <= d).
Proof.
  intros f d. unfold Py.round1. fold f.
  change (frac_part (10 * x)) with d.
  destruct (Rlt_dec d (1 / 2)); [left; split; [reflexivity | lra] |].
  destruct (Rlt_dec (1 / 2) d); [right; split; [reflexivity | lra] |].
  destruct (Z.even f); [left | right]; split; try reflexivity; lra.
Qed.

Lemma round1_close (x : R) : Rabs (Py.round1 x - x) <= 0.05.
Proof.
  pose proof (frac_part_range (10 * x)) as Hd. unfold frac_part in Hd.
  destruct (round1_cases x) as [[-> H] | [-> H]]; cbv zeta in H;
    try rewrite plus_IZR; apply Rabs_le; lra.
Qed.

Lemma round1_between (x : R) (a b : Z) :
  IZR a / 10 <= x <= IZR b / 10 ->
  IZR a / 10 <= Py.round1 x <= IZR b / 10.
Proof.
  intros [Ha Hb].
  pose proof (frac_part_range (10 * x)) as Hd. unfold frac_part in Hd.
  assert (Hfa : (a <= Int_part (10 * x))%Z) by (apply Int_part_ge; lra).
  assert (Hfb : (Int_part (10 * x) <= b)%Z).
  { assert (Int_part (10 * x) < b + 1)%Z; [| lia].
    apply lt_IZR. rewrite plus_IZR. lra. }
  destruct (round1_cases x) as [[-> H] | [-> H]]; cbv zeta in H.
  - apply IZR_le in Hfa, Hfb. lra.
  - assert (Hlt : (Int_part (10 * x) < b)%Z).
    { apply lt_IZR. lra. }
    assert (Hb1 : (Int_part (10 * x) + 1 <= b)%Z) by lia.
    assert (Ha1 : (a <= Int_part (10 * x) + 1)%Z) by lia.
    apply IZR_le in Ha1, Hb1. lra.
Qed.

Lemma round1_tenth (k : Z) : Py.round1 (IZR k / 10) = IZR k / 10.
Proof.
  pose proof (round1_between (IZR k / 10) k k ltac:(lra)). lra.
Qed.

Lemma round1_near_zero (x : R) : Rabs x < 0.05 -> Py.round1 x = 0.
Proof.
  intros Hx. apply Rabs_def2 in Hx.
  pose proof (frac_part_range (10 * x)) as Hd. unfold frac_part in Hd.
  destruct (Rle_dec 0 x) as [Hpos | Hneg].
  - assert (Hf : Int_part (10 * x) = 0%Z)
      by (symmetry; apply Int_part_spec; lra).
    destruct (round1_cases x) as [[-> H] | [_ H]]; cbv zeta in H;
      rewrite Hf in *; lra.
  - assert (Hf : Int_part (10 * x) = (- 1)%Z)
      by (symmetry; apply Int_part_spec; lra).
    destruct (round1_cases x) as [[_ H] | [-> H]]; cbv zeta in H;
      rewrite Hf in *; [lra |].
    replace (-1 + 1)%Z with 0%Z by lia. lra.
Qed.

(** X9.  [set_ie_ratio] stores the value rounded to one decimal: a whole
    number of tenths within 0.05 of the value.  A value from the spin
    box range [0.5, 3] stays in that range, so the ratio stays positive;
    a value already in tenths is stored as it is; a value within 0.05 of
    zero is stored as 0. *)
Theorem set_ie_ratio_rounds (value : R) (s : session) :
  let r := ie_ratio (cfg (set_ie_ratio value s)) in
  (exists k : Z, r = IZR k / 10)
  /\ Rabs (r - value) <= 0.05
  /\ (0.5 <= value <= 3 -> 0.5 <= r <= 3)
  /\ (forall k : Z, value = IZR k / 10 -> r = value)
  /\ (Rabs value < 0.05 -> r = 0).
Proof.
  intros r. subst r. cbn [set_ie_ratio cfg upd_cfg ie_ratio].
  split; [| split; [| split; [| split]]].
  - destruct (round1_cases value) as [[-> _] | [-> _]]; eauto.
  - apply round1_close.
  - intros Hv.
    pose proof (round1_between value 5 30 ltac:(lra)). lra.
  - intros k ->. apply round1_tenth.
  - apply round1_near_zero.
Qed.

Lemma set_ie_ratio_rounds_witness :
  0.5 <= ie_ratio (cfg (set_ie_ratio 1.234 running_session)) <= 3.
Proof.
  refine (proj1 (proj2 (proj2
            (set_ie_ratio_rounds 1.234 running_session))) _).
  lra.
Defined.

(** ** A tick that raises *)

Lemma render_window_ok (s : session) :
  aligned s -> exists s', render_window s = Done s'.
Proof.
  intros Hal. pose proof (render_window_Done s Hal) as H. cbv zeta in H.
  rewrite H. eexists. reflexivity.
Qed.

(** X10.  A tick that raises appends nothing.  With aligned buffers, when
    [update_graphs] raises, the exception is the generator's, the four
    buffers, the three plots and the settings are as before, and the clock
    fields are those of the tick.  In particular, after [set_ie_ratio] of
    a value within 0.05 of zero every tick raises [ZeroDivisionError]. *)
Theorem failed_tick_keeps_history (src : source_file) (now : Z)
    (s : session) :
  aligned s ->
  (forall e s',
     update_graphs src now s = Failed e s' ->
     generate_next_point src (cfg s) (time_index s') = Raise e
     /\ s' = sync_clock now s
     /\ (time_data s' = time_data s /\ pressure_data s' = pressure_data s
         /\ flow_data s' = flow_data s /\ volume_data s' = volume_data s)
     /\ (pressure_graph s' = pressure_graph s
         /\ flow_graph s' = flow_graph s
         /\ volume_graph s' = volume_graph s)
     /\ cfg s' = cfg s
     /\ start_time s' <> None)
  /\ (forall value,
        Rabs value < 0.05 ->
        exists s',
          update_graphs src now (set_ie_ratio value s)
          = Failed ZeroDivisionError s'
          /\ time_data s' = time_data s).
Proof.
  intros Hal.
  assert (Hsync : cfg (sync_clock now s) = cfg s
                  /\ pressure_graph (sync_clock now s) = pressure_graph s
                  /\ flow_graph (sync_clock now s) = flow_graph s
                  /\ volume_graph (sync_clock now s) = volume_graph s
                  /\ start_time (sync_clock now s) <> None).
  { unfold sync_clock. destruct (start_time s) eqn:Est; cbn;
      repeat split; try rewrite Est; discriminate. }
  destruct Hsync as (Hcfg & Hpg & Hfg & Hvg & Hst).
  split.
  - intros e s' Hup. unfold update_graphs in Hup. rewrite Hcfg in Hup.
    destruct (generate_next_point src (cfg s)
                (time_index (sync_clock now s))) as [p | x] eqn:Hgen.
    + exfalso.
      change (cfg (append_point p (sync_clock now s)))
        with (cfg (sync_clock now s)) in Hup.
      rewrite Hcfg, div_Ok in Hup
        by (pose proof (max_rate_pos (cfg s)); lra).
      destruct (render_window_ok
                  (trim_buffers (append_point p (sync_clock now s))))
        as (s2 & Hs2).
      * apply aligned_trim_buffers, aligned_append_point,
          aligned_sync_clock, Hal.
      * rewrite Hs2 in Hup. discriminate.
    + injection Hup as <- <-.
      split; [exact Hgen |]. split; [reflexivity |].
      split; [apply sync_clock_buffers |].
      split; [repeat split; assumption |].
      split; assumption.
  - intros value Hv. unfold update_graphs.
    assert (Hie : ie_ratio (cfg (sync_clock now (set_ie_ratio value s))) = 0).
    { unfold sync_clock. destruct (start_time (set_ie_ratio value s));
        cbn [cfg upd_clock set_ie_ratio upd_cfg ie_ratio];
        apply round1_near_zero, Hv. }
    unfold generate_next_point, cycle_timing.
    pose proof (max_rate_pos
                  (cfg (sync_clock now (set_ie_ratio value s)))) as Hpos.
    rewrite (div_Ok 60) by lra. cbn [rbind].
    rewrite Hie, div_zero. cbn [rbind].
    eexists. split; [reflexivity |].
    destruct (sync_clock_buffers now (set_ie_ratio value s)) as (-> & _).
    reflexivity.
Qed.

Lemma failed_tick_keeps_history_witness :
  exists s',
    update_graphs Sm3 7000 (set_ie_ratio 0.01 demo_session)
    = Failed ZeroDivisionError s'
    /\ time_data s' = time_data demo_session.
Proof.
  refine (proj2 (failed_tick_keeps_history Sm3 7000 demo_session
                   demo_session_aligned) 0.01 _).
  apply Rabs_def1; lra.
Defined.

(** ** The history as a sequence of samples *)

Lemma zip4_app (ts ps fs vs : list R) (t p f v : R) :
  List.length ps = List.length ts ->
  List.length fs = List.length ts ->
  List.length vs = List.length ts ->
  zip4 (ts ++ [t]) (ps ++ [p]) (fs ++ [f]) (vs ++ [v])
  = zip4 ts ps fs vs
    ++ [{| pt_time := t; pt_pressure := p; pt_flow := f; pt_volume := v |}].
Proof.
  revert ps fs vs.
  induction ts as [| t0 ts IH]; intros [| p0 ps] [| f0 fs] [| v0 vs];
    try discriminate; intros Hp Hf Hv; [reflexivity |].
  cbn [app zip4]. rewrite IH by (simpl in *; lia). reflexivity.
Qed.

Lemma zip4_skipn (k : nat) (ts ps fs vs : list R) :
  List.length ps = List.length ts ->
  List.length fs = List.length ts ->
  List.length vs = List.length ts ->
  zip4 (skipn k ts) (skipn k ps) (skipn k fs) (skipn k vs)
  = skipn k (zip4 ts ps fs vs).
Proof.
  revert ts ps fs vs. induction k as [| k IH]; [reflexivity |].
  intros [| t ts] [| p ps] [| f fs] [| v vs]; try discriminate;
    intros Hp Hf Hv; [reflexivity |].
  cbn [skipn zip4]. apply IH; simpl in *; lia.
Qed.

Lemma zip4_length (ts ps fs vs : list R) :
  List.length ps = List.length ts ->
  List.length fs = List.length ts ->
  List.length vs = List.length ts ->
  List.length (zip4 ts ps fs vs) = List.length ts.
Proof.
  revert ps fs vs.
  induction ts as [| t0 ts IH]; intros [| p0 ps] [| f0 fs] [| v0 vs];
    try discriminate; intros Hp Hf Hv; [reflexivity |].
  cbn [zip4 List.length]. rewrite IH by (simpl in *; lia). reflexivity.
Qed.

Lemma zip4_times (ts ps fs vs : list R) :
  List.length ps = List.length ts ->
  List.length fs = List.length ts ->
  List.length vs = List.length ts ->
  map pt_time (zip4 ts ps fs vs) = ts.
Proof.
  revert ps fs vs.
  induction ts as [| t0 ts IH]; intros [| p0 ps] [| f0 fs] [| v0 vs];
    try discriminate; intros Hp Hf Hv; [reflexivity |].
  cbn [zip4 map pt_time]. rewrite IH by (simpl in *; lia). reflexivity.
Qed.

Lemma keep_last_zip4 (n : nat) (ts ps fs vs : list R) :
  List.length ps = List.length ts ->
  List.length fs = List.length ts ->
  List.length vs = List.length ts ->
  zip4 (keep_last n ts) (keep_last n ps) (keep_last n fs) (keep_last n vs)
  = keep_last n (zip4 ts ps fs vs).
Proof.
  intros Hp Hf Hv. unfold keep_last.
  rewrite (zip4_length ts ps fs vs Hp Hf Hv), Hp, Hf, Hv.
  apply zip4_skipn; assumption.
Qed.

Lemma keep_last_snoc_last {A : Type} (n : nat) (l : list A) (x d : A) :
  (0 < n)%nat -> last (keep_last n (l ++ [x])) d = x.
Proof.
  intros Hn. unfold keep_last. rewrite length_app. cbn [List.length].
  rewrite skipn_app.
  replace (List.length l + 1 - n - List.length l)%nat with 0%nat by lia.
  cbn [skipn]. apply last_last.
Qed.

Lemma keep_last_exact_length {A : Type} (n : nat) (l : list A) :
  List.length (keep_last n l) = Nat.min n (List.length l).
Proof. unfold keep_last. rewrite length_skipn. lia. Qed.

(** The history after a tick, as samples. *)
Lemma tick_history (src : source_file) (now : Z) (s s' : session) :
  (0 < max_points s)%Z ->
  aligned s ->
  update_graphs src now s = Done s' ->
  exists p,
    generate_next_point src (cfg s) (time_index s') = Ok p
    /\ pt_time p = time_index s'
    /\ history s' = keep_last (Z.to_nat (max_points s)) (history s ++ [p]).
Proof.
  intros Hn Hal Hup.
  destruct (tick_time_data src now s s' Hn Hal Hup)
    as (_ & _ & _ & _ & _ & _).
  destruct (update_graphs_Done_inv src now s s' Hup) as (p & Hgen & Hr).
  set (s3 := append_point p (sync_clock now s)) in *.
  assert (Hal3 : aligned s3)
    by (apply aligned_append_point, aligned_sync_clock, Hal).
  assert (Hn3 : max_points s3 = max_points s)
    by (unfold s3, sync_clock; destruct (start_time s); reflexivity).
  destruct (trim_buffers_keep_last s3) as (Ht & Hp & Hf & Hv);
    [lia | exact Hal3 |].
  rewrite Hn3 in Ht, Hp, Hf, Hv.
  destruct (render_window_buffers _ _ Hr)
    as (_ & Hti & _ & _ & Htd & Hpd & Hfd & Hvd).
  assert (Hti' : time_index s' = time_index (sync_clock now s)).
  { rewrite Hti. unfold trim_buffers. destruct (_ >? _)%Z; reflexivity. }
  exists p. rewrite Hti'. split; [exact Hgen |].
  split; [apply (generate_time _ _ _ _ Hgen) |].
  unfold history. rewrite Htd, Hpd, Hfd, Hvd, Ht, Hp, Hf, Hv.
  destruct Hal3 as (H3p & H3f & H3v).
  rewrite (keep_last_zip4 _ _ _ _ _ H3p H3f H3v). f_equal.
  unfold s3, append_point. cbn [time_data pressure_data flow_data
    volume_data upd_buffers].
  destruct (sync_clock_buffers now s) as (-> & -> & -> & ->).
  destruct Hal as (Hp0 & Hf0 & Hv0).
  rewrite (zip4_app _ _ _ _ _ _ _ _ Hp0 Hf0 Hv0).
  destruct p; reflexivity.
Qed.

(** X11.  What a completed tick leaves in the history.  With a positive
    bound and aligned buffers, the history after the tick is the old
    history followed by the point generated for the tick's elapsed time,
    cut to its most recent [max_points] samples; so the newest sample is
    that point, and the history has [min (max_points, old length + 1)]
    samples. *)
Theorem tick_appends_generated_point (src : source_file) (now : Z)
    (s s' : session) :
  (0 < max_points s)%Z ->
  aligned s ->
  update_graphs src now s = Done s' ->
  exists p,
    generate_next_point src (cfg s) (time_index s') = Ok p
    /\ pt_time p = time_index s'
    /\ history s' = keep_last (Z.to_nat (max_points s)) (history s ++ [p])
    /\ last (history s') p = p
    /\ history s' <> []
    /\ List.length (history s')
       = Nat.min (Z.to_nat (max_points s)) (List.length (history s) + 1).
Proof.
  intros Hn Hal Hup.
  destruct (tick_history src now s s' Hn Hal Hup) as (p & Hgen & Hpt & Hh).
  exists p. split; [exact Hgen |]. split; [exact Hpt |].
  split; [exact Hh |].
  assert (Hlen : List.length (history s')
                 = Nat.min (Z.to_nat (max_points s))
                     (List.length (history s) + 1)).
  { rewrite Hh, keep_last_exact_length, length_app. reflexivity. }
  split; [| split; [| exact Hlen]].
  - rewrite Hh. apply keep_last_snoc_last. lia.
  - intros Hnil. rewrite Hnil in Hlen. cbn in Hlen. lia.
Qed.

Lemma tick_appends_generated_point_witness :
  exists s' p,
    update_graphs Sm3 5000 running_session = Done s'
    /\ generate_next_point Sm3 (cfg running_session) (time_index s') = Ok p
    /\ last (history s') p = p.
Proof.
  destruct (update_graphs_total Sm3 5000 running_session)
    as (s' & Hs'); [repeat split | exact initial_ie_pos | left; reflexivity |].
  assert (Hpos : (0 < max_points running_session)%Z) by (cbn; lia).
  assert (Hal : aligned running_session) by (repeat split).
  destruct (tick_appends_generated_point Sm3 5000 running_session s'
              Hpos Hal Hs') as (p & Hg & _ & _ & Hl & _).
  exists s', p. split; [exact Hs' |]. split; [exact Hg | exact Hl].
Defined.

Lemma run_ticks_history (src : source_file) (nows : list Z) :
  forall s s' : session,
    (0 < max_points s)%Z ->
    aligned s ->
    (Z.of_nat (List.length (time_data s)) <= max_points s)%Z ->
    run_ticks src nows s = Done s' ->
    aligned s'
    /\ max_points s' = max_points s
    /\ exists ps,
         List.length ps = List.length nows
         /\ history s'
            = keep_last (Z.to_nat (max_points s)) (history s ++ ps).
Proof.
  induction nows as [| now rest IH]; intros s s' Hn Hal Hb Hrun.
  - injection Hrun as <-. split; [exact Hal |]. split; [reflexivity |].
    exists []. split; [reflexivity |]. rewrite app_nil_r.
    symmetry. apply keep_last_all. unfold history.
    destruct Hal as (Hp & Hf & Hv). rewrite (zip4_length _ _ _ _ Hp Hf Hv).
    lia.
  - cbn [run_ticks] in Hrun.
    destruct (update_graphs src now s) as [s1 | e s1] eqn:Hup;
      [| discriminate].
    destruct (tick_time_data src now s s1 Hn Hal Hup)
      as (_ & _ & Hmp1 & _ & Hal1 & Htd1).
    destruct (tick_history src now s s1 Hn Hal Hup) as (p & _ & _ & Hh1).
    destruct (IH s1 s') as (Hal' & Hmp' & ps & Hlen & Hh');
      [lia | exact Hal1 | | exact Hrun |].
    { rewrite Hmp1, Htd1.
      pose proof (keep_last_length (Z.to_nat (max_points s))
                    (time_data s ++ [time_index s1])). lia. }
    split; [exact Hal' |]. split; [congruence |].
    exists (p :: ps). split; [cbn; lia |].
    rewrite Hh', Hmp1, Hh1, keep_last_absorb, <- app_assoc. reflexivity.
Qed.

(** X12.  The history fills up to the bound and then stays full.  From an
    aligned history of [L] samples within a positive bound, a completed
    run of [k] ticks leaves [min (max_points, L + k)] samples: the old
    ones followed by one generated point per tick, cut to the most recent
    [max_points].  This holds whatever the clock readings are. *)
Theorem history_fills_to_bound (src : source_file) (nows : list Z)
    (s s' : session) :
  (0 < max_points s)%Z ->
  aligned s ->
  (Z.of_nat (List.length (time_data s)) <= max_points s)%Z ->
  run_ticks src nows s = Done s' ->
  List.length (history s')
  = Nat.min (Z.to_nat (max_points s))
      (List.length (history s) + List.length nows)
  /\ exists ps,
       List.length ps = List.length nows
       /\ history s'
          = keep_last (Z.to_nat (max_points s)) (history s ++ ps).
Proof.
  intros Hn Hal Hb Hrun.
  destruct (run_ticks_history src nows s s' Hn Hal Hb Hrun)
    as (_ & _ & ps & Hlen & Hh).
  split; [| exists ps; split; assumption].
  rewrite Hh, keep_last_exact_length, length_app, Hlen. reflexivity.
Qed.

Lemma history_fills_to_bound_witness :
  exists s',
    run_ticks Sm3 [1000; 1030; 1060]%Z running_session = Done s'
    /\ List.length (history s') = 3%nat.
Proof.
  destruct (run_ticks_total Sm3 [1000; 1030; 1060]%Z running_session)
    as (s' & Hs'); [repeat split | exact initial_ie_pos | left; reflexivity |].
  exists s'. split; [exact Hs' |].
  assert (Hpos : (0 < max_points running_session)%Z) by (cbn; lia).
  assert (Hal : aligned running_session) by (repeat split).
  assert (Hb : (Z.of_nat (List.length (time_data running_session))
                <= max_points running_session)%Z) by (cbn; lia).
  rewrite (proj1 (history_fills_to_bound Sm3 _ running_session s'
                    Hpos Hal Hb Hs')).
  reflexivity.
Defined.

(** ** The window of a history in time order *)

Lemma sorted_le_last (l : list R) (d : R) :
  StronglySorted Rle l -> Forall (fun t => t <= last l d) l.
Proof.
  induction 1 as [| a l Hs IH Ha]; [constructor |].
  destruct l as [| b l].
  - constructor; [cbn; lra | constructor].
  - change (last (a :: b :: l) d) with (last (b :: l) d).
    constructor.
    + inversion IH as [| ? ? Hb _]; subst.
      inversion Ha as [| ? ? Hab _]; subst. lra.
    + exact IH.
Qed.

(** On samples in time order, none later than [hi], the window test keeps
    a suffix and drops only samples earlier than [lo]. *)
Lemma window_filter_suffix (lo hi : R) (h : list point) :
  StronglySorted Rle (map pt_time h) ->
  Forall (fun p => pt_time p <= hi) h ->
  exists older,
    h = older ++ filter (in_window lo hi) h
    /\ Forall (fun p => pt_time p < lo) older.
Proof.
  induction h as [| p h IH]; intros Hs Hhi.
  - exists []. split; [reflexivity | constructor].
  - cbn [map] in Hs. inversion Hs as [| ? ? Hs' Hp]; subst.
    inversion Hhi as [| ? ? Hphi Hhi']; subst.
    destruct (IH Hs' Hhi') as (older & Hsplit & Hold).
    cbn [filter]. destruct (in_window lo hi p) eqn:Hw.
    + apply in_window_iff in Hw.
      exists []. split; [| constructor]. cbn [app]. f_equal.
      symmetry. apply forallb_filter_id. apply forallb_forall.
      intros q Hq. apply in_window_iff. split.
      * rewrite Forall_forall in Hp.
        pose proof (Hp (pt_time q) (in_map pt_time h q Hq)). lra.
      * rewrite Forall_forall in Hhi'. apply Hhi', Hq.
    + exists (p :: older). split; [cbn [app]; f_equal; exact Hsplit |].
      constructor; [| exact Hold].
      destruct (Rlt_dec (pt_time p) lo) as [Hlt | Hge]; [exact Hlt |].
      exfalso. assert (Hin : in_window lo hi p = true)
        by (apply in_window_iff; lra).
      rewrite Hin in Hw. discriminate.
Qed.

(** The samples on display after the window stage. *)
Lemma render_window_displayed (s : session) :
  aligned s ->
  exists s',
    render_window s = Done s'
    /\ displayed s'
       = filter (in_window (window_t_min s) (window_t_max s)) (history s).
Proof.
  intros Hal. eexists. split; [apply (render_window_Done s Hal) |].
  unfold displayed, history. cbn [pressure_graph flow_graph volume_graph
    upd_graphs curve fst snd].
  destruct Hal as (Hp & Hf & Hv). unfold window_mask.
  apply (zip4_select
           (fun t => Py.geb t (window_t_min s) && Py.leb t (window_t_max s))
           (time_data s) _ _ _ Hp Hf Hv).
Qed.

(** X13.  For a history in time order the window is its most recent part.
    With aligned buffers and non-decreasing times, the samples on display
    after the window stage are a suffix of the history, every sample left
    out is earlier than [t_min = max (0, t_max - 10)], and every sample
    shown lies within 10 s of the last one.  If the last time is not
    negative the newest sample is shown; if it is negative nothing is. *)
Theorem window_is_recent_suffix (s : session) :
  aligned s ->
  StronglySorted Rle (time_data s) ->
  let t_max := last (time_data s) 0 in
  let t_min := Rmax 0 (t_max - window_size) in
  exists s' older,
    render_window s = Done s'
    /\ history s = older ++ displayed s'
    /\ Forall (fun p => pt_time p < t_min) older
    /\ Forall (fun p => t_max - window_size <= pt_time p <= t_max)
              (displayed s')
    /\ (0 <= t_max -> history s <> [] ->
        displayed s' <> []
        /\ forall d, last (displayed s') d = last (history s) d)
    /\ (t_max < 0 -> displayed s' = []).
Proof.
  intros Hal Hs t_max t_min.
  assert (Etmax : window_t_max s = t_max) by apply window_t_max_last.
  assert (Etmin : window_t_min s = t_min)
    by (unfold window_t_min; rewrite Etmax; reflexivity).
  destruct (render_window_displayed s Hal) as (s' & Hr & Hd).
  rewrite Etmin, Etmax in Hd.
  assert (Htimes : map pt_time (history s) = time_data s)
    by (destruct Hal as (Hp & Hf & Hv); apply zip4_times; assumption).
  assert (Hle : Forall (fun p => pt_time p <= t_max) (history s)).
  { pose proof (sorted_le_last (time_data s) 0 Hs) as Hl.
    fold t_max in Hl. rewrite <- Htimes in Hl.
    rewrite Forall_map in Hl. exact Hl. }
  destruct (window_filter_suffix t_min t_max (history s))
    as (older & Hsplit & Hold); [rewrite Htimes; exact Hs | exact Hle |].
  exists s', older. split; [exact Hr |]. rewrite Hd.
  split; [exact Hsplit |]. split; [exact Hold |].
  assert (Htmin : t_max - window_size <= t_min /\ 0 <= t_min).
  { unfold t_min. split; [apply Rmax_r | apply Rmax_l]. }
  split; [| split].
  - apply Forall_forall. intros p Hp. apply filter_In in Hp.
    destruct Hp as [_ Hw]. apply in_window_iff in Hw. lra.
  - intros H0 Hne.
    assert (Hlast : forall d, In (last (history s) d) (history s)).
    { intros d. destruct (exists_last Hne) as (h & p & Hh).
      rewrite Hh, last_last. apply in_or_app. right. left. reflexivity. }
    assert (Hlt : forall d, pt_time (last (history s) d) = t_max).
    { intros d. unfold t_max. rewrite <- Htimes.
      destruct (exists_last Hne) as (h & p & Hh).
      rewrite Hh, map_app. cbn [map]. rewrite !last_last. reflexivity. }
    assert (Hwin : forall d, in_window t_min t_max (last (history s) d)
                             = true).
    { intros d. apply in_window_iff. rewrite Hlt.
      unfold t_min, window_size. split; [| lra].
      apply Rmax_lub; lra. }
    split.
    + intros Hnil.
      assert (Hin : In (last (history s) {| pt_time := 0; pt_pressure := 0;
                                            pt_flow := 0; pt_volume := 0 |})
                       (filter (in_window t_min t_max) (history s)))
        by (apply filter_In; split; [apply Hlast | apply Hwin]).
      rewrite Hnil in Hin. exact Hin.
    + intros d. destruct (exists_last Hne) as (h & p & Hh).
      rewrite Hh. rewrite filter_app. cbn [filter].
      pose proof (Hwin d) as Hw. rewrite Hh, last_last in Hw. rewrite Hw.
      rewrite !last_last. reflexivity.
  - intros Hneg.
    destruct (filter (in_window t_min t_max) (history s)) as [| p l] eqn:Hf;
      [reflexivity |].
    assert (Hin : In p (filter (in_window t_min t_max) (history s)))
      by (rewrite Hf; left; reflexivity).
    apply filter_In in Hin. destruct Hin as [_ Hw].
    apply in_window_iff in Hw. lra.
Qed.

Lemma demo_session_sorted : StronglySorted Rle (time_data demo_session).
Proof. cbn. repeat constructor; lra. Qed.

Lemma window_is_recent_suffix_witness :
  exists s' older,
    render_window demo_session = Done s'
    /\ history demo_session = older ++ displayed s'.
Proof.
  destruct (window_is_recent_suffix demo_session demo_session_aligned
              demo_session_sorted) as (s' & older & Hr & Hsplit & _).
  exists s', older. split; [exact Hr | exact Hsplit].
Defined.

(** ** Sensors of prog2-0.py *)

(** X14.  A sensor update puts the four clamped readings in range whatever
    was there and whatever is drawn: effective compliance in [0.01, 0.1],
    effective resistance in [5, 50], SpO2 in [70, 100], heart rate in
    [40, 180].  Compliance and resistance are computed from the settings
    alone, so what a random event added to them is gone after the next
    update.  The simulator part and the alarm limits are not touched. *)
Theorem sensor_update_clamps (d : sensor_draws) (m : monitor) :
  let sd := sensor_data (actualizar_sensores d m) in
  0.01 <= compliance_efectiva sd <= 0.1
  /\ 5 <= resistencia_efectiva sd <= 50
  /\ (70 <= SpO2 sd <= 100)%Z
  /\ (40 <= frecuencia_cardiaca sd <= 180)%Z
  /\ (forall m2 : monitor,
        sim m2 = sim m ->
        compliance_efectiva (sensor_data (actualizar_sensores d m2))
        = compliance_efectiva sd
        /\ resistencia_efectiva (sensor_data (actualizar_sensores d m2))
           = resistencia_efectiva sd)
  /\ sim (actualizar_sensores d m) = sim m
  /\ alarm_limits (actualizar_sensores d m) = alarm_limits m.
Proof.
  cbn -[Rmax Rmin Z.max Z.min].
  pose proof (Rmax_l 0.01 (Rmin 0.1 (compliance (cfg (sim m))
                                     * u_compliance d))) as H1.
  pose proof (Rmin_l 0.1 (compliance (cfg (sim m)) * u_compliance d)) as H2.
  pose proof (Rmax_l 5 (Rmin 50 (resistance (cfg (sim m))
                                 * u_resistencia d))) as H3.
  pose proof (Rmin_l 50 (resistance (cfg (sim m)) * u_resistencia d)) as H4.
  split.
  { split; [exact H1 |]. apply Rmax_lub; lra. }
  split.
  { split; [exact H3 |]. apply Rmax_lub; lra. }
  split; [lia |]. split; [lia |].
  split; [| split; reflexivity].
  intros m2 ->. split; reflexivity.
Qed.

(** ** What every state of prog2-0.py satisfies *)

Lemma render_window_state (s : session) :
  let s' := state_of (render_window s) in
  cfg s' = cfg s
  /\ time_data s' = time_data s /\ pressure_data s' = pressure_data s
  /\ flow_data s' = flow_data s /\ volume_data s' = volume_data s.
Proof.
  unfold render_window.
  destruct (Py.select (time_data s) _); [| repeat split].
  destruct (Py.select (pressure_data s) _); [| repeat split].
  destruct (Py.select (flow_data s) _); [| repeat split].
  destruct (Py.select (volume_data s) _); repeat split.
Qed.

Lemma aligned_same_buffers (s s' : session) :
  time_data s' = time_data s -> pressure_data s' = pressure_data s ->
  flow_data s' = flow_data s -> volume_data s' = volume_data s ->
  aligned s -> aligned s'.
Proof. unfold aligned. intros -> -> -> ->. trivial. Qed.

(** Whatever its outcome, a tick leaves the settings alone and the
    buffers aligned. *)
Lemma update_graphs_state (src : source_file) (now : Z) (s : session) :
  cfg (state_of (update_graphs src now s)) = cfg s
  /\ (aligned s -> aligned (state_of (update_graphs src now s))).
Proof.
  assert (Hcfg : cfg (sync_clock now s) = cfg s)
    by (unfold sync_clock; destruct (start_time s); reflexivity).
  unfold update_graphs.
  destruct (generate_next_point src (cfg (sync_clock now s)) _) as [p | e].
  - destruct (Py.div 60 _) as [q | e].
    + destruct (render_window_state
                  (trim_buffers (append_point p (sync_clock now s))))
        as (Hc & Ht & Hp & Hf & Hv).
      split.
      * rewrite Hc. unfold trim_buffers. destruct (_ >? _)%Z; exact Hcfg.
      * intros Hal. eapply aligned_same_buffers; try eassumption.
        apply aligned_trim_buffers, aligned_append_point,
          aligned_sync_clock, Hal.
    + split; [exact Hcfg |]. intros Hal.
      apply aligned_append_point, aligned_sync_clock, Hal.
  - split; [exact Hcfg |]. apply aligned_sync_clock.
Qed.

Lemma update_animation_speed_buffers (s : session) :
  let s' := state_of (update_animation_speed s) in
  time_data s' = time_data s /\ pressure_data s' = pressure_data s
  /\ flow_data s' = flow_data s /\ volume_data s' = volume_data s.
Proof.
  unfold update_animation_speed.
  destruct (timer s) as [t |] eqn:Ht; cbn [cfg upd_timer timer];
    destruct (Py.div _ _); try rewrite Ht; repeat split.
Qed.

(** [set_resp_rate], whatever its outcome: only the rate among the
    settings, and no buffer. *)
Lemma set_resp_rate_state (value : R) (s : session) :
  let s' := state_of (set_resp_rate value s) in
  ventilation_mode (cfg s') = ventilation_mode (cfg s)
  /\ resp_rate (cfg s') = value
  /\ (aligned s -> aligned s').
Proof.
  unfold set_resp_rate. cbv zeta.
  rewrite update_animation_speed_cfg.
  split; [reflexivity |]. split; [reflexivity |].
  destruct (update_animation_speed_buffers
              (upd_cfg s
                 {| resp_rate := value;
                    tidal_volume := tidal_volume (cfg s);
                    peep := peep (cfg s);
                    peak_pressure := peak_pressure (cfg s);
                    ie_ratio := ie_ratio (cfg s);
                    ventilation_mode := ventilation_mode (cfg s);
                    pressure_support := pressure_support (cfg s);
                    plateau_time := plateau_time (cfg s);
                    resistance := resistance (cfg s);
                    compliance := compliance (cfg s) |}))
    as (Ht & Hp & Hf & Hv).
  intros Hal. eapply aligned_same_buffers; eassumption.
Qed.

Lemma lift_outcome_state (m : monitor) (o : outcome) :
  m_state_of (lift_outcome m o) = upd_sim m (state_of o).
Proof. destruct o; reflexivity. Qed.

Lemma monitor_ok_upd_sim (m : monitor) (s : session) :
  monitor_ok m ->
  ventilation_mode (cfg s) = ventilation_mode (cfg (sim m)) ->
  aligned s ->
  monitor_ok (upd_sim m s).
Proof.
  intros [H1 H2 H3 H4 H5 H6] Hm Hal.
  constructor; cbn; try assumption. rewrite Hm. exact H5.
Qed.

Lemma ajustar_keeps_ok (ev : evento) (m : monitor) :
  monitor_ok m ->
  monitor_ok (m_state_of (ajustar_parametros_automaticos ev m)).
Proof.
  intros Hok. pose proof Hok as [H1 H2 H3 H4 H5 H6].
  unfold ajustar_parametros_automaticos. destruct ev.
  - destruct (Req_dec_T _ _); [exact Hok |].
    apply monitor_ok_upd_sim; [exact Hok | reflexivity | exact H6].
  - destruct (Py.div _ _) as [q | e]; [| exact Hok].
    destruct (Py.gtb _ _); [| exact Hok].
    apply monitor_ok_upd_sim; [exact Hok | reflexivity | exact H6].
  - exact Hok.
  - destruct (Req_dec_T _ _); [exact Hok |].
    rewrite lift_outcome_state.
    destruct (set_resp_rate_state
                (Rmin 35 (resp_rate (cfg (sim m)) + 5)) (sim m))
      as (Hm & _ & Hal).
    apply monitor_ok_upd_sim; [exact Hok | exact Hm | exact (Hal H6)].
Qed.

Lemma exec_keeps_ok (cmd : command) (m : monitor) :
  monitor_ok m -> monitor_ok (m_state_of (exec cmd m)).
Proof.
  intros Hok. pose proof Hok as [H1 H2 H3 H4 H5 H6].
  destruct cmd; cbn [exec m_state_of];
    try (apply monitor_ok_upd_sim; [exact Hok | reflexivity | exact H6]);
    try exact Hok.
  - (* tick *)
    rewrite lift_outcome_state.
    destruct (update_graphs_state Prog2_0 now (sim m)) as (Hc & Hal).
    apply monitor_ok_upd_sim; [exact Hok | rewrite Hc; reflexivity |].
    exact (Hal H6).
  - (* sensor update *)
    constructor; cbn -[Rmax Rmin Z.max Z.min]; try assumption; try lia.
    + destruct (nonempty (flow_data (sim m))); [apply Rmax_l | exact H3].
    + destruct (nonempty (volume_data (sim m))); [apply Rmax_l | exact H4].
  - (* random event *)
    unfold generar_evento_aleatorio.
    set (m1 := upd_sensor_data m _).
    assert (Hok1 : monitor_ok m1).
    { unfold m1. destruct ev; constructor; cbn -[Z.min]; try assumption;
        try lia; try lra. }
    destruct (ajustes_automaticos m1); [| exact Hok1].
    apply ajustar_keeps_ok, Hok1.
  - (* toggle *)
    constructor; assumption.
  - (* limits *)
    constructor; assumption.
  - (* rate *)
    rewrite lift_outcome_state.
    destruct (set_resp_rate_state value (sim m)) as (Hm & _ & Hal).
    apply monitor_ok_upd_sim; [exact Hok | exact Hm | exact (Hal H6)].
Qed.

Lemma initial_monitor_ok : monitor_ok initial_monitor.
Proof.
  constructor; cbn; try lia; try lra; try reflexivity. repeat split.
Qed.

(** X15.  An invariant of prog2-0.py.  From a state where SpO2 is in
    [70, 100], the heart rate in [40, 180], the expired flow and volume
    non-negative, the mode "VC-CMV" and the buffers aligned (the state
    after construction is one), every run of ticks, sensor updates,
    random events and panel controls, completed or stopped by an
    exception, ends in such a state.  In particular the mode never leaves
    "VC-CMV": the mode buttons raise [AttributeError]. *)
Theorem monitor_invariant (cmds : list command) (m : monitor) :
  monitor_ok m ->
  monitor_ok (m_state_of (run cmds m))
  /\ ventilation_mode (cfg (sim (m_state_of (run cmds m))))
     = "VC-CMV"%string
  /\ forall mode,
       exec (CModeButton mode) m = MFailed AttributeError m.
Proof.
  intros Hok.
  assert (Hrun : monitor_ok (m_state_of (run cmds m))).
  { revert m Hok. induction cmds as [| cmd rest IH]; intros m Hok;
      [exact Hok |].
    cbn [run]. pose proof (exec_keeps_ok cmd m Hok) as Hstep.
    destruct (exec cmd m) as [m' | e m']; cbn [m_state_of] in *.
    - apply IH, Hstep.
    - exact Hstep. }
  split; [exact Hrun |]. split; [apply Hrun | reflexivity].
Qed.

Lemma monitor_invariant_witness :
  monitor_ok
    (m_state_of
       (run [CTick 1000; CEvento aumento_demanda 0; CPeep 8; CTick 1030]
            initial_monitor)).
Proof.
  exact (proj1 (monitor_invariant _ initial_monitor initial_monitor_ok)).
Defined.

(** ** The expired-flow sensor *)

(** The newest entry of the flow and volume buffers after a tick. *)
Lemma tick_newest_values (src : source_file) (now : Z) (s s' : session) :
  (0 < max_points s)%Z ->
  aligned s ->
  update_graphs src now s = Done s' ->
  exists p,
    generate_next_point src (cfg s) (time_index s') = Ok p
    /\ nonempty (flow_data s') = true
    /\ nonempty (volume_data s') = true
    /\ last (flow_data s') 0 = pt_flow p
    /\ last (volume_data s') 0 = pt_volume p.
Proof.
  intros Hn Hal Hup.
  destruct (update_graphs_Done_inv src now s s' Hup) as (p & Hgen & Hr).
  set (s3 := append_point p (sync_clock now s)) in *.
  assert (Hal3 : aligned s3)
    by (apply aligned_append_point, aligned_sync_clock, Hal).
  assert (Hn3 : max_points s3 = max_points s)
    by (unfold s3, sync_clock; destruct (start_time s); reflexivity).
  destruct (trim_buffers_keep_last s3) as (_ & _ & Hf & Hv);
    [lia | exact Hal3 |].
  rewrite Hn3 in Hf, Hv.
  destruct (render_window_buffers _ _ Hr)
    as (_ & Hti & _ & _ & _ & _ & Hfd & Hvd).
  assert (Hti' : time_index s' = time_index (sync_clock now s)).
  { rewrite Hti. unfold trim_buffers. destruct (_ >? _)%Z; reflexivity. }
  exists p. rewrite Hti'. split; [exact Hgen |].
  rewrite Hfd, Hvd, Hf, Hv. unfold s3, append_point.
  cbn [flow_data volume_data upd_buffers].
  assert (Hpos : (0 < Z.to_nat (max_points s))%nat) by lia.
  assert (Hne : forall (l : list R) x,
            nonempty (keep_last (Z.to_nat (max_points s)) (l ++ [x]))
            = true).
  { intros l x. unfold nonempty.
    rewrite keep_last_exact_length, length_app. cbn [List.length].
    apply Z.ltb_lt. lia. }
  rewrite !Hne, !keep_last_snoc_last by exact Hpos.
  repeat split.
Qed.

(** X16.  What the expired-flow sensor shows (prog2-0.py).  After a
    completed tick in volume-controlled mode, a sensor update with a
    non-negative factor sets [flujo_espirado] to 0 when the tick fell in
    the expiratory phase, because the flow sample is negative there; when
    the tick fell in the inspiratory phase it shows the inspiratory flow
    [30 * (tidal_volume / 500)] times the factor. *)
Theorem expired_flow_sensor (d : sensor_draws) (now : Z) (m : monitor)
    (s' : session) :
  (0 < max_points (sim m))%Z ->
  aligned (sim m) ->
  0 < ie_ratio (cfg (sim m)) ->
  ventilation_mode (cfg (sim m)) = "VC-CMV"%string ->
  0 <= tidal_volume (cfg (sim m)) ->
  0 <= u_flujo d ->
  update_graphs Prog2_0 now (sim m) = Done s' ->
  let c := cfg (sim m) in
  let t := Cycle.time_in_cycle c (time_index s') in
  let sd := sensor_data (actualizar_sensores d (upd_sim m s')) in
  (Cycle.inspiratory_time c <= t -> flujo_espirado sd = 0)
  /\ (t < Cycle.inspiratory_time c ->
      flujo_espirado sd = 30 * (tidal_volume c / 500) * u_flujo d).
Proof.
  intros Hn Hal Hie Hm Htv Hu Hup c t sd.
  destruct (tick_newest_values Prog2_0 now (sim m) s' Hn Hal Hup)
    as (p & Hgen & Hne & _ & Hlast & _).
  subst sd. cbn -[Rmax Rmin Z.max Z.min].
  rewrite Hne. unfold Py.last_or. rewrite Hlast.
  fold c in Hgen. split.
  - intros Hge.
    rewrite (generate_vc_exp c Hie Prog2_0 _ Hm Hge) in Hgen.
    injection Hgen as <-. cbn [pt_flow].
    pose proof (exp_pos
                  (- 7 * ((Cycle.time_in_cycle c (time_index s')
                           - Cycle.inspiratory_time c)
                          / Cycle.expiratory_time c))) as Hp.
    apply Rmax_left.
    assert (0 <= 50 * exp (- 7 * ((Cycle.time_in_cycle c (time_index s')
                                   - Cycle.inspiratory_time c)
                                  / Cycle.expiratory_time c)) * u_flujo d)
      by (apply Rmult_le_pos; lra).
    lra.
  - intros Hlt.
    rewrite (generate_vc_insp_prog2 c Hie _ Hm Hlt) in Hgen.
    injection Hgen as <-. cbn [pt_flow].
    apply Rmax_right. apply Rmult_le_pos; [| exact Hu].
    apply Rmult_le_pos; [lra |]. apply ratio_nonneg; [lra | exact Htv].
Qed.

Lemma expired_flow_sensor_witness :
  exists s',
    update_graphs Prog2_0 5000 running_session = Done s'
    /\ (Cycle.time_in_cycle initial_settings (time_index s')
        < Cycle.inspiratory_time initial_settings ->
        flujo_espirado
          (sensor_data
             (actualizar_sensores
                {| u_flujo := 1; u_volumen := 1; u_compliance := 1;
                   u_resistencia := 1; d_SpO2 := 0; d_fc := 0 |}
                (upd_sim initial_monitor s')))
        = 30 * (tidal_volume initial_settings / 500) * 1).
Proof.
  destruct (update_graphs_total Prog2_0 5000 running_session)
    as (s' & Hs'); [repeat split | exact initial_ie_pos | left; reflexivity |].
  exists s'. split; [exact Hs' |].
  assert (Hpos : (0 < max_points (sim initial_monitor))%Z) by (cbn; lia).
  assert (Hal : aligned (sim initial_monitor)) by (repeat split).
  assert (Htv : 0 <= tidal_volume (cfg (sim initial_monitor)))
    by (cbn; lra).
  assert (Hu : 0 <= 1) by lra.
  exact (proj2 (expired_flow_sensor
                  {| u_flujo := 1; u_volumen := 1; u_compliance := 1;
                     u_resistencia := 1; d_SpO2 := 0; d_fc := 0 |}
                  5000 initial_monitor s' Hpos Hal initial_ie_pos eq_refl
                  Htv Hu Hs')).
Defined.

(** ** Alarms *)

Lemma gtb_iff (a b : R) : Py.gtb a b = true <-> b < a.
Proof.
  unfold Py.gtb, Py.ltb. destruct (Rlt_dec b a); split; intros; easy.
Qed.

Lemma ltb_iff (a b : R) : Py.ltb a b = true <-> a < b.
Proof.
  unfold Py.ltb. destruct (Rlt_dec a b); split; intros; easy.
Qed.

Lemma fold_max_gt (l : list R) (x b : R) :
  b < fold_left Rmax l x <-> b < x \/ exists y, In y l /\ b < y.
Proof.
  revert x. induction l as [| z l IH]; intros x; cbn [fold_left].
  - split; [auto | intros [H | (y & [] & _)]; exact H].
  - rewrite IH. split.
    + intros [H | (y & Hy & Hb)].
      * unfold Rmax in H. destruct (Rle_dec x z).
        -- right. exists z. split; [left; reflexivity | exact H].
        -- left. exact H.
      * right. exists y. split; [right; exact Hy | exact Hb].
    + intros [H | (y & [Hz | Hy] & Hb)].
      * left. pose proof (Rmax_l x z). lra.
      * left. subst y. pose proof (Rmax_r x z). lra.
      * right. exists y. split; assumption.
Qed.

Lemma fold_min_lt (l : list R) (x b : R) :
  fold_left Rmin l x < b <-> x < b \/ exists y, In y l /\ y < b.
Proof.
  revert x. induction l as [| z l IH]; intros x; cbn [fold_left].
  - split; [auto | intros [H | (y & [] & _)]; exact H].
  - rewrite IH. split.
    + intros [H | (y & Hy & Hb)].
      * unfold Rmin in H. destruct (Rle_dec x z).
        -- left. exact H.
        -- right. exists z. split; [left; reflexivity | exact H].
      * right. exists y. split; [right; exact Hy | exact Hb].
    + intros [H | (y & [Hz | Hy] & Hb)].
      * left. pose proof (Rmin_l x z). lra.
      * left. subst y. pose proof (Rmin_r x z). lra.
      * right. exists y. split; assumption.
Qed.

Lemma max_of_gt (l : list R) (b : R) :
  match max_of l with Some mx => Py.gtb mx b | None => false end = true
  <-> exists y, In y l /\ b < y.
Proof.
  destruct l as [| x l]; cbn [max_of].
  - split; [discriminate | intros (y & [] & _)].
  - rewrite gtb_iff, fold_max_gt. split.
    + intros [H | (y & Hy & Hb)];
        [exists x; split; [left; reflexivity | exact H]
        | exists y; split; [right; exact Hy | exact Hb]].
    + intros (y & [Hx | Hy] & Hb); [left; subst y; exact Hb |].
      right. exists y. split; assumption.
Qed.

Lemma min_of_lt (l : list R) (b : R) :
  match min_of l with Some mn => Py.ltb mn b | None => false end = true
  <-> exists y, In y l /\ y < b.
Proof.
  destruct l as [| x l]; cbn [min_of].
  - split; [discriminate | intros (y & [] & _)].
  - rewrite ltb_iff, fold_min_lt. split.
    + intros [H | (y & Hy & Hb)];
        [exists x; split; [left; reflexivity | exact H]
        | exists y; split; [right; exact Hy | exact Hb]].
    + intros (y & [Hx | Hy] & Hb); [left; subst y; exact Hb |].
      right. exists y. split; assumption.
Qed.

(** The length test of the pressure alarms is implied by the comparison. *)
Lemma nonempty_and (l : list R) (b : bool) :
  (b = true -> l <> []) -> nonempty l && b = b.
Proof.
  intros H. destruct b; [| apply andb_false_r].
  destruct l; [exfalso; apply H; reflexivity | reflexivity].
Qed.

Lemma keep_last_nil {A : Type} (n : nat) : keep_last n (@nil A) = [].
Proof. unfold keep_last. cbn. reflexivity. Qed.


Lemma has_alarm_names (n : string) (a : list alarma) :
  has_alarm n a <-> In n (map (fun x => fst (fst x)) a).
Proof.
  unfold has_alarm. rewrite in_map_iff. split.
  - intros (d & c & H). exists (n, d, c). split; [reflexivity | exact H].
  - intros ([[n' d] c] & Hn & H). cbn in Hn. subst n'.
    exists d, c. exact H.
Qed.

(** The names of the alarms raised, in the order of the five tests. *)
Lemma alarm_names (m : monitor) :
  let s := sim m in
  let lim := alarm_limits m in
  let recent := keep_last 10 (pressure_data s) in
  map (fun x => fst (fst x)) (alarmas_activas (verificar_alarmas m)) =
  ((if nonempty (pressure_data s)
       && match max_of recent with
          | Some mx => Py.gtb mx (IZR (pip_max lim))
          | None => false
          end
    then ["Presión Alta"%string] else [])
   ++ (if nonempty (pressure_data s)
          && match min_of recent with
             | Some mn => Py.ltb mn (IZR (pip_min lim))
             | None => false
             end
       then ["Presión Baja"%string] else [])
   ++ (if (SpO2 (sensor_data m) <? spo2_min lim)%Z
       then ["Hipoxemia"%string] else [])
   ++ (if Py.gtb (volumen_espirado (sensor_data m)) (IZR (vt_max lim))
       then ["Volumen Alto"%string] else [])
   ++ (if Py.gtb (resp_rate (cfg s)) (IZR (fr_max lim))
       then ["Taquipnea"%string] else [])).
Proof.
  intros s lim recent. unfold verificar_alarmas.
  rewrite (slice_from_keep_last 10) by lia.
  change (Z.to_nat 10) with 10%nat. fold s lim recent.
  cbn [alarmas_activas upd_alarmas].
  destruct (nonempty (pressure_data s) && _);
    destruct (nonempty (pressure_data s) && _);
    destruct (_ <? _)%Z; destruct (Py.gtb _ _); destruct (Py.gtb _ _);
    reflexivity.
Qed.

Lemma recent_high (l : list R) (b : R) :
  nonempty l
  && match max_of (keep_last 10 l) with
     | Some mx => Py.gtb mx b
     | None => false
     end = true
  <-> exists y, In y (keep_last 10 l) /\ b < y.
Proof.
  rewrite nonempty_and; [apply max_of_gt |].
  intros H Hl. subst l. rewrite keep_last_nil in H. discriminate.
Qed.

Lemma recent_low (l : list R) (b : R) :
  nonempty l
  && match min_of (keep_last 10 l) with
     | Some mn => Py.ltb mn b
     | None => false
     end = true
  <-> exists y, In y (keep_last 10 l) /\ y < b.
Proof.
  rewrite nonempty_and; [apply min_of_lt |].
  intros H Hl. subst l. rewrite keep_last_nil in H. discriminate.
Qed.

Ltac alarm_name_cases :=
  repeat match goal with
         | |- context [if ?b then [_] else []] => destruct b
         end;
  cbn [app In List.length];
  repeat match goal with
         | |- _ /\ _ => split
         | |- _ <-> _ => split
         end;
  try lia; try reflexivity;
  let H := fresh "H" in
  intros H; try discriminate H; try reflexivity;
  try (repeat match type of H with
              | _ \/ _ => destruct H as [H | H]
              end;
       solve [discriminate H | contradiction]);
  auto 10.

(** X17.  Which alarms [verificar_alarmas] raises (prog2-0.py).  "Presión
    Alta" is raised exactly when one of the last ten pressure samples is
    above the PIP maximum, "Presión Baja" exactly when one of them is below
    the PIP minimum (so neither with an empty buffer), "Hipoxemia" exactly
    when the SpO2 reading is below its limit, "Volumen Alto" exactly when
    the expired volume is above its limit, and "Taquipnea" exactly when
    the set rate is above its limit.  There are at most five alarms, and
    the list does not depend on the alarms that were active before. *)
Theorem alarm_conditions (m : monitor) :
  let a := alarmas_activas (verificar_alarmas m) in
  let lim := alarm_limits m in
  let recent := keep_last 10 (pressure_data (sim m)) in
  (has_alarm "Presión Alta" a
   <-> exists x, In x recent /\ IZR (pip_max lim) < x)
  /\ (has_alarm "Presión Baja" a
      <-> exists x, In x recent /\ x < IZR (pip_min lim))
  /\ (has_alarm "Hipoxemia" a
      <-> (SpO2 (sensor_data m) < spo2_min lim)%Z)
  /\ (has_alarm "Volumen Alto" a
      <-> IZR (vt_max lim) < volumen_espirado (sensor_data m))
  /\ (has_alarm "Taquipnea" a
      <-> IZR (fr_max lim) < resp_rate (cfg (sim m)))
  /\ (List.length a <= 5)%nat
  /\ forall old, verificar_alarmas (upd_alarmas m old) = verificar_alarmas m.
Proof.
  intros a lim recent. subst a lim recent.
  rewrite !has_alarm_names.
  rewrite <- (length_map (fun x : alarma => fst (fst x))
                (alarmas_activas (verificar_alarmas m))).
  rewrite !alarm_names. cbv zeta.
  rewrite <- recent_high, <- recent_low, <- Z.ltb_lt, <- !gtb_iff.
  alarm_name_cases.
Qed.

(** ** Random events and automatic adjustment *)

Lemma same_display_refl (s : session) : same_display s s.
Proof. repeat split. Qed.

Lemma update_animation_speed_display (s : session) :
  same_display s (state_of (update_animation_speed s)).
Proof.
  unfold update_animation_speed.
  destruct (timer s) as [t |] eqn:Ht; cbn [cfg upd_timer timer];
    destruct (Py.div _ _); try rewrite Ht; repeat split.
Qed.

Lemma set_resp_rate_display (value : R) (s : session) :
  same_display s (state_of (set_resp_rate value s)).
Proof.
  unfold set_resp_rate. cbv zeta.
  match goal with
  | |- same_display _ (state_of (update_animation_speed ?x)) =>
      exact (update_animation_speed_display x)
  end.
Qed.

Lemma set_resp_rate_changes (value : R) (s : session) :
  changes_only [FRespRate] (cfg s) (cfg (state_of (set_resp_rate value s))).
Proof.
  unfold set_resp_rate. cbv zeta. rewrite update_animation_speed_cfg.
  frame_settings.
Qed.

Lemma changes_only_refl (fs : list field) (c : settings) :
  changes_only fs c c.
Proof. intros f _. destruct f; reflexivity. Qed.

(** What [ajustar_parametros_automaticos] leaves alone. *)
Lemma ajustar_frame (ev : evento) (m : monitor) :
  let m' := m_state_of (ajustar_parametros_automaticos ev m) in
  same_display (sim m) (sim m')
  /\ sensor_data m' = sensor_data m
  /\ alarm_limits m' = alarm_limits m
  /\ alarmas_activas m' = alarmas_activas m
  /\ ajustes_automaticos m' = ajustes_automaticos m
  /\ changes_only (adjusted_field ev) (cfg (sim m)) (cfg (sim m')).
Proof.
  destruct ev; cbn -[Rmin Rmax Py.int].
  - destruct (Req_dec_T _ _); cbn -[Rmin];
      repeat split; try apply changes_only_refl.
    frame_settings.
  - destruct (Py.div _ _) as [factor | e]; cbn -[Rmin Rmax Py.int];
      [destruct (Py.gtb _ _); cbn -[Rmin Rmax Py.int] |];
      repeat split; try apply changes_only_refl.
    frame_settings.
  - repeat split. apply changes_only_refl.
  - destruct (Req_dec_T _ _); [repeat split; apply changes_only_refl |].
    rewrite lift_outcome_state. cbn [sim upd_sim sensor_data alarm_limits
                                      alarmas_activas ajustes_automaticos].
    split; [apply set_resp_rate_display |].
    repeat split. apply set_resp_rate_changes.
Qed.

(** X18.  What a random event leaves alone (prog2-0.py).  Whatever the
    event and its outcome, [generar_evento_aleatorio] keeps the samples,
    the clock, the plots, the alarm limits, the SpO2 reading, the switch
    of the automatic adjustment and the list of active alarms (alarms are
    re-evaluated only by the next sensor update); of the ventilator
    settings it changes at most PEEP after a bronchospasm, the tidal volume
    after a compliance change and the rate after a rise in demand; a
    disconnection changes no setting, and with automatic adjustment off no
    event changes the ventilator at all. *)
Theorem event_frame (ev : evento) (cambio : R) (m : monitor) :
  let m' := m_state_of (generar_evento_aleatorio ev cambio m) in
  same_display (sim m) (sim m')
  /\ alarm_limits m' = alarm_limits m
  /\ alarmas_activas m' = alarmas_activas m
  /\ ajustes_automaticos m' = ajustes_automaticos m
  /\ SpO2 (sensor_data m') = SpO2 (sensor_data m)
  /\ changes_only (adjusted_field ev) (cfg (sim m)) (cfg (sim m'))
  /\ (ev = desconexion -> cfg (sim m') = cfg (sim m))
  /\ (ajustes_automaticos m = false -> sim m' = sim m).
Proof.
  cbv zeta. unfold generar_evento_aleatorio. cbv zeta.
  cbn [ajustes_automaticos upd_sensor_data].
  destruct (ajustes_automaticos m) eqn:Hauto.
  - match goal with
    | |- context [ajustar_parametros_automaticos ev ?x] =>
        destruct (ajustar_frame ev x) as (Hd & Hs & Hl & Ha & Hj & Hc)
    end.
    split; [exact Hd |]. split; [exact Hl |]. split; [exact Ha |].
    split; [rewrite Hj; exact Hauto |].
    split; [rewrite Hs; destruct ev; reflexivity |].
    split; [exact Hc |].
    split; [intros ->; reflexivity | discriminate].
  - cbn [m_state_of sim upd_sensor_data sensor_data alarm_limits
         alarmas_activas ajustes_automaticos].
    split; [apply same_display_refl |].
    split; [reflexivity |]. split; [reflexivity |].
    split; [exact Hauto |].
    split; [destruct ev; reflexivity |].
    split; [apply changes_only_refl |].
    split; reflexivity.
Qed.

Lemma event_frame_witness :
  sim (m_state_of
         (generar_evento_aleatorio aumento_demanda 0
            (toggle_auto_adjust 0 initial_monitor)))
  = sim (toggle_auto_adjust 0 initial_monitor).
Proof.
  refine (proj2 (proj2 (proj2 (proj2 (proj2 (proj2 (proj2
            (event_frame aumento_demanda 0
               (toggle_auto_adjust 0 initial_monitor)))))))) _).
  reflexivity.
Defined.

Lemma ajustar_peep (m : monitor) :
  peep (cfg (sim (m_state_of
                    (ajustar_parametros_automaticos broncoespasmo m))))
  = Rmin 15 (peep (cfg (sim m)) + 2).
Proof.
  cbn -[Rmin]. destruct (Req_dec_T _ _) as [He | Hne]; cbn -[Rmin].
  - symmetry. exact He.
  - reflexivity.
Qed.

Lemma ajustar_rate (m : monitor) :
  resp_rate (cfg (sim (m_state_of
                         (ajustar_parametros_automaticos aumento_demanda m))))
  = Rmin 35 (resp_rate (cfg (sim m)) + 5).
Proof.
  cbn -[Rmin]. destruct (Req_dec_T _ _) as [He | Hne].
  - cbn -[Rmin]. symmetry. exact He.
  - rewrite lift_outcome_state. cbn [sim upd_sim].
    apply (set_resp_rate_state _ (sim m)).
Qed.

Lemma ajustar_tidal_volume (m : monitor) :
  compliance (cfg (sim m)) <> 0 ->
  let tv := tidal_volume (cfg (sim m)) in
  let nuevo_vt :=
    Rmin 800 (Rmax 300 (tv * (compliance_efectiva (sensor_data m)
                              / compliance (cfg (sim m))))) in
  exists m',
    ajustar_parametros_automaticos cambio_compliance m = MDone m'
    /\ (tidal_volume (cfg (sim m')) = tv /\ Rabs (nuevo_vt - tv) <= 20
        \/ tidal_volume (cfg (sim m')) = IZR (Py.int nuevo_vt)
           /\ 20 < Rabs (nuevo_vt - tv)).
Proof.
  intros Hc tv nuevo_vt. cbn -[Rmin Rmax Py.int Rabs].
  rewrite div_Ok by exact Hc. fold tv nuevo_vt.
  destruct (Py.gtb (Rabs (nuevo_vt - tv)) 20) eqn:Hg; eexists;
    (split; [reflexivity |]).
  - right. split; [reflexivity | apply gtb_iff, Hg].
  - left. split; [reflexivity |].
    destruct (Rle_dec (Rabs (nuevo_vt - tv)) 20) as [Hle | Hgt];
      [exact Hle |].
    rewrite (proj2 (gtb_iff _ _)) in Hg by lra. discriminate.
Qed.

Lemma clamp_300_800 (x : R) : 300 <= Rmin 800 (Rmax 300 x) <= 800.
Proof.
  pose proof (Rmin_l 800 (Rmax 300 x)). pose proof (Rmax_l 300 x).
  split; [| assumption].
  apply Rmin_glb; lra.
Qed.

(** X19.  Where the automatic adjustment puts the settings (prog2-0.py,
    adjustment switched on).  After a bronchospasm PEEP is
    [min(15, peep + 2)]; after a rise in demand the rate is
    [min(35, rate + 5)], so a rate above 35 is lowered to 35; in both
    cases whether or not the setter ran.  A compliance change with a zero
    [compliance] setting raises [ZeroDivisionError] after the sensor value
    was changed; otherwise it completes and leaves a tidal volume between
    280 and 820, which is either the old one or an integer between 300 and
    800. *)
Theorem auto_adjust_targets (cambio : R) (m : monitor) :
  ajustes_automaticos m = true ->
  let c := cfg (sim m) in
  let after ev :=
    cfg (sim (m_state_of (generar_evento_aleatorio ev cambio m))) in
  peep (after broncoespasmo) = Rmin 15 (peep c + 2)
  /\ resp_rate (after aumento_demanda) = Rmin 35 (resp_rate c + 5)
  /\ (35 < resp_rate c -> resp_rate (after aumento_demanda) = 35)
  /\ (compliance c = 0 ->
      exists m',
        generar_evento_aleatorio cambio_compliance cambio m
        = MFailed ZeroDivisionError m'
        /\ compliance_efectiva (sensor_data m')
           = compliance_efectiva (sensor_data m) + cambio
        /\ cfg (sim m') = c)
  /\ (compliance c <> 0 ->
      exists m',
        generar_evento_aleatorio cambio_compliance cambio m = MDone m'
        /\ 280 <= tidal_volume (cfg (sim m')) <= 820
        /\ (tidal_volume (cfg (sim m')) = tidal_volume c
            \/ exists k, tidal_volume (cfg (sim m')) = IZR k
                         /\ (300 <= k <= 800)%Z)).
Proof.
  intros Hauto c after. subst after. cbv beta.
  unfold generar_evento_aleatorio. cbv zeta.
  cbn [ajustes_automaticos upd_sensor_data]. rewrite Hauto.
  split; [apply ajustar_peep |].
  split; [apply ajustar_rate |].
  split.
  { intros Hr. rewrite ajustar_rate. cbn [sim upd_sensor_data].
    fold c. apply Rmin_left. lra. }
  split.
  - intros Hc. eexists. split.
    + cbn -[Rmin Rmax Py.int Rabs]. unfold c in Hc.
      rewrite Hc, div_zero. reflexivity.
    + split; reflexivity.
  - intros Hc.
    match goal with
    | |- context [ajustar_parametros_automaticos cambio_compliance ?x] =>
        destruct (ajustar_tidal_volume x Hc) as (m' & Hrun & Hcases)
    end.
    cbn [sim upd_sensor_data sensor_data compliance_efectiva] in Hcases.
    fold c in Hcases.
    exists m'. split; [exact Hrun |].
    match type of Hcases with
    | context [Rmin 800 (Rmax 300 ?x)] =>
        pose proof (clamp_300_800 x) as Hn;
        set (nuevo_vt := Rmin 800 (Rmax 300 x)) in *
    end.
    destruct Hcases as [[Hsame Habs] | [Hnew _]].
    + rewrite Hsame. split; [| left; reflexivity].
      unfold Rabs in Habs. destruct (Rcase_abs _) in Habs; lra.
    + assert (Hk : (300 <= Py.int nuevo_vt <= 800)%Z).
      { split.
        - apply int_ge; [lia | lra].
        - rewrite <- (int_IZR 800) by lia. apply int_monotone; lra. }
      rewrite Hnew. split.
      * destruct Hk as [Hk1 Hk2]. apply IZR_le in Hk1, Hk2. lra.
      * right. exists (Py.int nuevo_vt). split; [reflexivity | exact Hk].
Qed.

Lemma auto_adjust_targets_witness :
  peep (cfg (sim (m_state_of
                    (generar_evento_aleatorio broncoespasmo 10
                       initial_monitor))))
  = Rmin 15 (peep (cfg (sim initial_monitor)) + 2).
Proof.
  assert (Hauto : ajustes_automaticos initial_monitor = true)
    by reflexivity.
  exact (proj1 (auto_adjust_targets 10 initial_monitor Hauto)).
Defined.

(** ** Pressure alarms at fixed settings *)

(** In volume-controlled mode with PEEP above 1 the generated pressure
    stays between PEEP and the peak pressure. *)
Lemma vc_pressure_band (src : source_file) (c : settings) (e : R) (p : point) :
  0 < ie_ratio c ->
  ventilation_mode c = "VC-CMV"%string ->
  1 < peep c -> peep c <= peak_pressure c ->
  generate_next_point src c e = Ok p ->
  peep c <= pt_pressure p <= peak_pressure c.
Proof.
  intros Hie Hm Hp Hpk Hgen.
  pose proof (inspiratory_time_pos c Hie) as Hinsp.
  pose proof (time_in_cycle_range c e) as Htic.
  destruct (Rlt_dec (Cycle.time_in_cycle c e) (Cycle.inspiratory_time c))
    as [Hlt | Hge].
  - pose proof (ratio_range (Cycle.time_in_cycle c e)
                  (Cycle.inspiratory_time c) Hinsp ltac:(lra)) as Hx.
    set (x := Cycle.time_in_cycle c e / Cycle.inspiratory_time c) in *.
    assert (Hband : forall k, 0 < k ->
              peep c
              <= peep c + (peak_pressure c - peep c) * (1 - exp (- k * x))
              <= peak_pressure c).
    { intros k Hk.
      assert (Hkx : 0 <= k * x) by (apply Rmult_le_pos; lra).
      pose proof (exp_le_1 (- k * x) ltac:(lra)) as H1.
      pose proof (exp_pos (- k * x)) as H2.
      assert (0 <= (peak_pressure c - peep c) * (1 - exp (- k * x)))
        by (apply Rmult_le_pos; lra).
      assert ((peak_pressure c - peep c) * (1 - exp (- k * x))
              <= (peak_pressure c - peep c) * 1)
        by (apply Rmult_le_compat_l; lra).
      lra. }
    destruct src.
    + rewrite (generate_vc_insp_sm3 c Hie e Hm Hlt) in Hgen.
      injection Hgen as <-. cbn [pt_pressure]. exact (Hband 2 ltac:(lra)).
    + rewrite (generate_vc_insp_prog2 c Hie e Hm Hlt) in Hgen.
      injection Hgen as <-. cbn [pt_pressure]. exact (Hband 4 ltac:(lra)).
  - rewrite (generate_vc_exp c Hie src e Hm) in Hgen by lra.
    injection Hgen as <-. cbn [pt_pressure].
    destruct (Rlt_dec 1 (peep c)); lra.
Qed.

(** The pressure buffer after a tick. *)
Lemma tick_pressure_data (src : source_file) (now : Z) (s s' : session) :
  (0 < max_points s)%Z ->
  aligned s ->
  update_graphs src now s = Done s' ->
  exists p e,
    generate_next_point src (cfg s) e = Ok p
    /\ pressure_data s'
       = keep_last (Z.to_nat (max_points s))
           (pressure_data s ++ [pt_pressure p]).
Proof.
  intros Hn Hal Hup.
  destruct (update_graphs_Done_inv src now s s' Hup) as (p & Hgen & Hr).
  set (s3 := append_point p (sync_clock now s)) in *.
  assert (Hal3 : aligned s3)
    by (apply aligned_append_point, aligned_sync_clock, Hal).
  assert (Hn3 : max_points s3 = max_points s)
    by (unfold s3, sync_clock; destruct (start_time s); reflexivity).
  destruct (trim_buffers_keep_last s3) as (_ & Hp & _ & _);
    [lia | exact Hal3 |].
  rewrite Hn3 in Hp.
  destruct (render_window_buffers _ _ Hr)
    as (_ & _ & _ & _ & _ & Hpd & _ & _).
  exists p, (time_index (sync_clock now s)). split; [exact Hgen |].
  rewrite Hpd, Hp. unfold s3, append_point.
  cbn [pressure_data upd_buffers].
  f_equal. f_equal. unfold sync_clock. destruct (start_time s); reflexivity.
Qed.

Lemma pressure_alarms_need (m : monitor) :
  let a := alarmas_activas (verificar_alarmas m) in
  let recent := keep_last 10 (pressure_data (sim m)) in
  (has_alarm "Presión Alta" a ->
   exists x, In x recent /\ IZR (pip_max (alarm_limits m)) < x)
  /\ (has_alarm "Presión Baja" a ->
      exists x, In x recent /\ x < IZR (pip_min (alarm_limits m))).
Proof.
  intros a recent. subst a recent.
  rewrite !has_alarm_names, !alarm_names. cbv zeta.
  rewrite <- recent_high, <- recent_low.
  alarm_name_cases.
Qed.

Lemma sensor_step_quiet (d : sensor_draws) (m : monitor) :
  pressure_quiet m -> pressure_quiet (actualizar_sensores d m).
Proof.
  intros [Hal Hb Hm Hie Hp Hlo Hpk Hhi Hs Ha Hbj].
  assert (Hin : forall x,
            In x (keep_last 10 (pressure_data (sim m))) ->
            peep (cfg (sim m)) <= x <= peak_pressure (cfg (sim m))).
  { intros x Hx. unfold keep_last in Hx.
    pose proof (Forall_skipn _ (List.length (pressure_data (sim m)) - 10)
                  _ Hs) as Hs'.
    rewrite Forall_forall in Hs'. apply Hs', Hx. }
  unfold actualizar_sensores. cbv zeta.
  match goal with
  | |- pressure_quiet (verificar_alarmas ?x) =>
      destruct (pressure_alarms_need x) as [Hhigh Hlow]
  end.
  cbn [sim upd_sensor_data alarm_limits] in Hhigh, Hlow.
  constructor; try assumption.
  - intros H. destruct (Hhigh H) as (x & Hx & Hgt).
    apply Hin in Hx. lra.
  - intros H. destruct (Hlow H) as (x & Hx & Hlt).
    apply Hin in Hx. lra.
Qed.

Lemma tick_step_quiet (now : Z) (m : monitor) :
  pressure_quiet m ->
  exists s',
    update_graphs Prog2_0 now (sim m) = Done s'
    /\ pressure_quiet (upd_sim m s').
Proof.
  intros [Hal Hb Hm Hie Hp Hlo Hpk Hhi Hs Ha Hbj].
  destruct (update_graphs_total Prog2_0 now (sim m) Hal Hie (or_introl Hm))
    as (s' & Hup).
  exists s'. split; [exact Hup |].
  destruct (tick_time_data Prog2_0 now (sim m) s' Hb Hal Hup)
    as (_ & _ & Hmp & Hcfg & Hal' & _).
  destruct (tick_pressure_data Prog2_0 now (sim m) s' Hb Hal Hup)
    as (p & e & Hgen & Hpd).
  pose proof (vc_pressure_band Prog2_0 _ e p Hie Hm Hp Hpk Hgen) as Hband.
  constructor; cbn [sim upd_sim alarm_limits alarmas_activas];
    rewrite ?Hcfg, ?Hmp; try assumption.
  rewrite Hpd. unfold keep_last. apply Forall_skipn.
  apply Forall_app. split; [exact Hs |].
  constructor; [exact Hband | constructor].
Qed.

(** X20.  No pressure alarm at fixed settings (prog2-0.py).  Take a
    volume-controlled simulator with [ie_ratio > 0], PEEP above 1 and at
    most the peak pressure, PIP minimum at most PEEP and PIP maximum at
    least the peak pressure, whose buffered pressures lie between PEEP and
    the peak pressure and which shows no pressure alarm.  Then any
    sequence of timer ticks and sensor updates runs to its end without an
    exception and ends in such a state again: however the clock and the
    random draws fall, neither "Presión Alta" nor "Presión Baja" is ever
    raised.  The simulator as started is such a state. *)
Theorem no_pressure_alarm_at_fixed_settings (cmds : list command)
    (m : monitor) :
  pressure_quiet m ->
  forallb tick_or_sensor cmds = true ->
  exists m',
    run cmds m = MDone m'
    /\ pressure_quiet m'
    /\ ~ has_alarm "Presión Alta" (alarmas_activas m')
    /\ ~ has_alarm "Presión Baja" (alarmas_activas m').
Proof.
  revert m. induction cmds as [| cmd rest IH]; intros m Hq Hall.
  - exists m. split; [reflexivity |]. split; [exact Hq |].
    split; [apply (pq_alta m Hq) | apply (pq_baja m Hq)].
  - cbn [forallb] in Hall. apply andb_prop in Hall as [Hcmd Hrest].
    destruct cmd; try discriminate Hcmd; cbn [run exec].
    + destruct (tick_step_quiet now m Hq) as (s' & -> & Hq').
      cbn [lift_outcome]. apply IH; assumption.
    + apply IH; [apply sensor_step_quiet, Hq | exact Hrest].
Qed.

Lemma initial_monitor_quiet : pressure_quiet initial_monitor.
Proof.
  constructor; cbn; try lra; try lia; try reflexivity.
  - repeat split.
  - constructor.
  - intros (d & c & []).
  - intros (d & c & []).
Qed.

Lemma no_pressure_alarm_at_fixed_settings_witness :
  exists m',
    run [CTick 1000;
         CSensores {| u_flujo := 1; u_volumen := 1; u_compliance := 1;
                      u_resistencia := 1; d_SpO2 := -1; d_fc := 2 |};
         CTick 1066] initial_monitor = MDone m'
    /\ pressure_quiet m'
    /\ ~ has_alarm "Presión Alta" (alarmas_activas m')
    /\ ~ has_alarm "Presión Baja" (alarmas_activas m').
Proof.
  apply no_pressure_alarm_at_fixed_settings;
    [exact initial_monitor_quiet | reflexivity].
Defined.

(** ** Ticks across midnight *)

Lemma filter_in_window_empty (lo hi : R) (l : list point) :
  hi < lo -> filter (in_window lo hi) l = [].
Proof.
  intros Hlt. induction l as [| p l IH]; [reflexivity |].
  cbn [filter]. rewrite IH. unfold in_window, Py.geb, Py.leb.
  destruct (Rle_dec lo (pt_time p)); [| reflexivity].
  destruct (Rle_dec (pt_time p) hi); [lra | reflexivity].
Qed.

(** C4.  The time order does not hold for every sequence of ticks.
    [QTime] is a time of day, and [msecsTo] an earlier reading is
    negative.  A simulator whose first tick falls at 23:59:59.000 and whose
    second falls at 00:00:01.000 completes both ticks, in either file, and
    its history holds the times 0 and -86398, in that order: it is within
    the bound, but the second time is smaller than the first, so the
    stored times are not non-decreasing, and the window from 0 to -86398
    puts no sample on display. *)
Theorem clock_going_back_breaks_order (src : source_file) :
  exists s',
    run_ticks src [86399000; 1000]%Z running_session = Done s'
    /\ time_data s' = [0; - 86398]
    /\ (Z.of_nat (List.length (time_data s'))
        <= points_per_cycle s' * max_cycles s')%Z
    /\ ~ StronglySorted Rle (time_data s')
    /\ displayed s' = [].
Proof.
  destruct (run_ticks_total src [86399000; 1000]%Z running_session)
    as (s' & Hrun);
    [repeat split | exact initial_ie_pos | left; reflexivity |].
  exists s'. split; [exact Hrun |].
  cbn [run_ticks] in Hrun.
  destruct (update_graphs src 86399000 running_session) as [s1 | e s1] eqn:H1;
    [| discriminate].
  destruct (tick_time_data src 86399000 running_session s1)
    as (Hti1 & Hst1 & Hmp1 & _ & Hal1 & Htd1);
    [cbn; lia | repeat split | exact H1 |].
  destruct (update_graphs src 1000 s1) as [s2 | e s2] eqn:H2;
    [| discriminate].
  injection Hrun as <-.
  destruct (tick_time_data src 1000 s1 s2)
    as (Hti2 & _ & Hmp2 & _ & _ & Htd2);
    [rewrite Hmp1; cbn; lia | exact Hal1 | exact H2 |].
  cbn in Hti1, Hst1.
  rewrite Hst1 in Hti2.
  assert (Htd : time_data s2 = [0; - 86398]).
  { rewrite Htd2, Htd1, Hmp1, Hti1, Hti2.
    change (time_data running_session) with (@nil R).
    unfold msecsTo.
    replace (IZR (1000 - 86399000) / 1000) with (- 86398).
    - reflexivity.
    - rewrite minus_IZR. lra. }
  split; [exact Htd |].
  split.
  { fold (max_points s2). rewrite Hmp2, Hmp1, Htd. cbn. lia. }
  split.
  { rewrite Htd. intros Hs. inversion Hs as [| ? ? _ Hall]; subst.
    inversion Hall as [| ? ? Hle _]; subst. lra. }
  destruct (update_graphs_Done_inv src 1000 s1 s2 H2) as (p & _ & Hr).
  set (s3 := trim_buffers (append_point p (sync_clock 1000 s1))) in *.
  assert (Hal3 : aligned s3)
    by (apply aligned_trim_buffers, aligned_append_point,
          aligned_sync_clock, Hal1).
  destruct (render_window_buffers _ _ Hr)
    as (_ & _ & _ & _ & Htd3 & _ & _ & _).
  rewrite Htd in Htd3.
  destruct (render_window_displayed s3 Hal3) as (s2' & Hr' & Hd).
  rewrite Hr in Hr'. injection Hr' as <-.
  rewrite Hd. apply filter_in_window_empty.
  unfold window_t_min, window_t_max, window_size. rewrite <- Htd3.
  unfold Py.last_or. cbn [last List.length].
  replace (0 <? Z.of_nat 2)%Z with true by reflexivity.
  rewrite Rmax_left by lra. lra.
Qed.
